(** * stock-news-analyzer: the multi-source aggregation engine

  A shallow embedding of the services of the repository
  (src/services/newsApi.js, realTimeGainersApi.js, simpleCorsService.js,
  yahooFinanceApi.js and the cache of src/utils/helpers.js), followed by
  the properties of the specification that concern them.

  Conventions of the embedding:
  - a JavaScript number is a real number, [NaN] or an infinity ([jsnum]);
    the rounding and overflow of binary64 arithmetic and the sign of zero
    are not modelled;
  - a JavaScript string is a [string] of 8-bit characters; case mapping
    and white space are those of ASCII;
  - an [async] method returns a [Promise], which is resolved or rejected;
  - ambient inputs (the clock, [Math.random], the network, the
    environment's API keys) are explicit arguments. *)

From Stdlib Require Import Reals Lra Lia ZArith String Ascii List.
From stdpp Require Import base strings gmap list pretty sorting.

#[local] Set Warnings "-clear-no-such-hyp".

(** ** JavaScript values and built-ins used by the services *)
Module JS.

Local Open Scope string_scope.

Definition is_upper (c : ascii) : bool :=
  (65 <=? nat_of_ascii c)%nat && (nat_of_ascii c <=? 90)%nat.

Definition lower_char (c : ascii) : ascii :=
  if is_upper c then ascii_of_nat (nat_of_ascii c + 32) else c.

(** [String.prototype.toLowerCase] *)
Fixpoint toLowerCase (s : string) : string :=
  match s with
  | EmptyString => EmptyString
  | String c r => String (lower_char c) (toLowerCase r)
  end.

(** [s.startsWith(p)] *)
Fixpoint startsWith (p s : string) : bool :=
  match p, s with
  | EmptyString, _ => true
  | String a p', String b s' => Ascii.eqb a b && startsWith p' s'
  | String _ _, EmptyString => false
  end.

(** [s.includes(p)] *)
Fixpoint includes (p s : string) : bool :=
  startsWith p s ||
  match s with
  | EmptyString => false
  | String _ s' => includes p s'
  end.

(** [s.replace(p, '')] with a string pattern: the first occurrence only. *)
Fixpoint removeFirst (p s : string) : string :=
  if startsWith p s then String.substring (String.length p) (String.length s) s
  else match s with
       | EmptyString => EmptyString
       | String c s' => String c (removeFirst p s')
       end.

(** The ASCII characters matched by [\s]: the space, and the tab, line
    feed, vertical tab, form feed and carriage return. *)
Definition is_space (c : ascii) : bool :=
  let n := nat_of_ascii c in
  (n =? 32)%nat || ((9 <=? n)%nat && (n <=? 13)%nat).

Definition is_digit (c : ascii) : bool :=
  (48 <=? nat_of_ascii c)%nat && (nat_of_ascii c <=? 57)%nat.

(** [s.split(/\s+/)]: a run of white space separates two pieces; white
    space at either end leaves an empty piece there. *)
Fixpoint split_ws (cur : string) (in_gap : bool) (s : string) : list string :=
  match s with
  | EmptyString => [cur]
  | String c r =>
      if is_space c then
        if in_gap then split_ws cur true r
        else cur :: split_ws EmptyString true r
      else split_ws (cur ++ String c EmptyString) false r
  end.

Definition splitWhitespace (s : string) : list string :=
  split_ws EmptyString false s.

(** [s.replace(/[^\d.]/g, '')] *)
Fixpoint keepDigitsAndDots (s : string) : string :=
  match s with
  | EmptyString => EmptyString
  | String c r =>
      if is_digit c || Ascii.eqb c "."%char
      then String c (keepDigitsAndDots r) else keepDigitsAndDots r
  end.

(** A value interpolated in a template literal. *)
Definition render (o : option string) : string :=
  match o with Some s => s | None => "undefined" end.

(** [a || d] on a string that may be missing. *)
Definition strOr (o : option string) (d : string) : string :=
  match o with
  | Some s => if String.eqb s "" then d else s
  | None => d
  end.

(** *** Numbers *)

Local Open Scope R_scope.

(** A number of JavaScript: NaN, a finite number, or an infinity. The
    finite numbers are taken as real numbers and the arithmetic on them is
    exact, where that of the code rounds each result to the nearest double;
    the two differ by a relative error of at most 2^-53 for each operation.
    A bound proved here holds of the code when it leaves room for that
    error; where a computed number may reach the bound it is compared
    with, the statements below leave that room. *)
Inductive jsnum : Type :=
| NaN
| Num (r : R)
| Inf (negative : bool).

Definition Rleb (x y : R) : bool := if Rle_dec x y then true else false.
Definition Rltb (x y : R) : bool := if Rlt_dec x y then true else false.

(** [x >= c], [x > c], [x < c], [x <= c] against a finite constant. *)
Definition geb (x : jsnum) (c : R) : bool :=
  match x with NaN => false | Num r => Rleb c r | Inf neg => negb neg end.
Definition gtb (x : jsnum) (c : R) : bool :=
  match x with NaN => false | Num r => Rltb c r | Inf neg => negb neg end.
Definition ltb (x : jsnum) (c : R) : bool :=
  match x with NaN => false | Num r => Rltb r c | Inf neg => neg end.
Definition leb (x : jsnum) (c : R) : bool :=
  match x with NaN => false | Num r => Rleb r c | Inf neg => neg end.

Definition add (x y : jsnum) : jsnum :=
  match x, y with
  | NaN, _ | _, NaN => NaN
  | Num a, Num b => Num (a + b)
  | Inf s, Num _ | Num _, Inf s => Inf s
  | Inf s, Inf t => if Bool.eqb s t then Inf s else NaN
  end.

(** [x * c] and [x / c] for a finite constant [c > 0]. *)
Definition scale (x : jsnum) (c : R) : jsnum :=
  match x with NaN => NaN | Num a => Num (a * c) | Inf s => Inf s end.
Definition divide (x : jsnum) (c : R) : jsnum :=
  match x with NaN => NaN | Num a => Num (a / c) | Inf s => Inf s end.

(** [Math.abs] *)
Definition abs (x : jsnum) : jsnum :=
  match x with NaN => NaN | Num a => Num (Rabs a) | Inf _ => Inf false end.

Definition isNaN (x : jsnum) : bool :=
  match x with NaN => true | _ => false end.

(** [Math.max(a, b)] and [Math.min(a, b)] on finite numbers. *)
Definition max (a b : R) : R := Rmax a b.
Definition min (a b : R) : R := Rmin a b.

(** [Math.max(c, x)] and [Math.min(c, x)] for a finite constant [c] and
    any number [x]: NaN stays NaN. *)
Definition maxWith (c : R) (x : jsnum) : jsnum :=
  match x with
  | NaN => NaN
  | Num r => Num (max c r)
  | Inf neg => if neg then Num c else Inf false
  end.
Definition minWith (c : R) (x : jsnum) : jsnum :=
  match x with
  | NaN => NaN
  | Num r => Num (min c r)
  | Inf neg => if neg then Inf true else Num c
  end.

(** [Math.floor] on finite numbers. *)
Definition floor (x : R) : Z := Int_part x.

(** [x.toFixed(d)]: the nearest multiple of [10^-d], the larger one on a
    tie; the record field holds the number its decimal string denotes.
    The argument is the real number the expression denotes: where the
    code rounds a quotient to the nearest double before [toFixed], as in
    [(volume / 1000000).toFixed(1)], a quotient that lies on a tie may be
    rounded to either side, so that the code may give the neighbouring
    multiple ([(1450000 / 1000000).toFixed(1)] is ['1.4']). *)
Definition toFixed (d : nat) (x : R) : R :=
  IZR (floor (x * 10 ^ d + 1 / 2)) / 10 ^ d.

(** *** [parseFloat] *)

Fixpoint skip_ws (s : string) : string :=
  match s with
  | String c r => if is_space c then skip_ws r else s
  | EmptyString => s
  end.

(** The leading decimal digits of [s], and what follows them. *)
Fixpoint span_digits (s : string) : list nat * string :=
  match s with
  | String c r =>
      if is_digit c
      then let '(ds, rest) := span_digits r in ((nat_of_ascii c - 48)%nat :: ds, rest)
      else ([], s)
  | EmptyString => ([], s)
  end.

Definition digits_value (ds : list nat) : Z :=
  fold_left (fun acc d => (10 * acc + Z.of_nat d)%Z) ds 0%Z.

(** The exponent part [e], [e+] or [e-] followed by digits; absent or
    incomplete, it contributes nothing. *)
Definition exponent (s : string) : Z :=
  match s with
  | String c r =>
      if Ascii.eqb c "e"%char || Ascii.eqb c "E"%char then
        match r with
        | String sg r' =>
            if Ascii.eqb sg "-"%char then
              match span_digits r' with
              | ([], _) => 0%Z
              | (ds, _) => (- digits_value ds)%Z
              end
            else if Ascii.eqb sg "+"%char then digits_value (fst (span_digits r'))
            else digits_value (fst (span_digits r))
        | EmptyString => 0%Z
        end
      else 0%Z
  | EmptyString => 0%Z
  end.

Definition pow10 (e : Z) (x : R) : R :=
  match e with
  | Z0 => x
  | Zpos p => x * 10 ^ Pos.to_nat p
  | Zneg p => x / 10 ^ Pos.to_nat p
  end.

(** The unsigned literal at the head of [s]. *)
Definition unsigned_literal (s : string) : jsnum :=
  if startsWith "Infinity" s then Inf false
  else
    let '(ip, rest) := span_digits s in
    match rest with
    | String "." rest' =>
        let '(fp, rest'') := span_digits rest' in
        match ip, fp with
        | [], [] => NaN
        | _, _ =>
            Num (pow10 (exponent rest'')
                   (IZR (digits_value (ip ++ fp)) / 10 ^ List.length fp))
        end
    | _ =>
        match ip with
        | [] => NaN
        | _ => Num (pow10 (exponent rest) (IZR (digits_value ip)))
        end
    end.

Definition negate (x : jsnum) : jsnum :=
  match x with NaN => NaN | Num a => Num (- a) | Inf s => Inf (negb s) end.

(** [parseFloat(s)] on a string: leading white space, an optional sign,
    then the longest decimal literal. *)
Definition parseFloat (s : string) : jsnum :=
  match skip_ws s with
  | String "-" r => negate (unsigned_literal r)
  | String "+" r => unsigned_literal r
  | t => unsigned_literal t
  end.

(** *** Dynamically typed fields of a provider's JSON *)

Inductive jsval : Type :=
| VUndefined
| VString (s : string)
| VNumber (x : jsnum).

(** [v || 0] followed by [parseFloat]: a missing, empty, zero or NaN
    value reads as 0; a number reads as itself. *)
Definition parseFloatOrZero (v : jsval) : jsnum :=
  match v with
  | VUndefined => Num 0
  | VString s => if String.eqb s "" then Num 0 else parseFloat s
  | VNumber NaN => Num 0
  | VNumber x => x
  end.


(** *** Promises *)

Inductive Promise (A : Type) : Type :=
| Resolved (a : A)
| Rejected (message : string).
Arguments Resolved {A} a.
Arguments Rejected {A} message.

(** [p.then(f)] *)
Definition then_ {A B} (p : Promise A) (f : A -> B) : Promise B :=
  match p with Resolved a => Resolved (f a) | Rejected m => Rejected m end.

(** [p.catch(g)] *)
Definition catch_ {A} (p : Promise A) (g : string -> A) : Promise A :=
  match p with Resolved a => Resolved a | Rejected m => Resolved (g m) end.

(** [await p] followed by the rest of an [async] body. *)
Definition await {A B} (p : Promise A) (k : A -> Promise B) : Promise B :=
  match p with Resolved a => k a | Rejected m => Rejected m end.

(** [Promise.all]: rejects with the first rejection in the list. *)
Fixpoint all {A} (ps : list (Promise A)) : Promise (list A) :=
  match ps with
  | [] => Resolved []
  | p :: rest =>
      match p, all rest with
      | Rejected m, _ => Rejected m
      | Resolved _, Rejected m => Rejected m
      | Resolved a, Resolved l => Resolved (a :: l)
      end
  end.

(** [try { body } catch (error) { handler }] around an [async] body. *)
Definition try_catch {A} (body : Promise A) (handler : string -> Promise A)
  : Promise A :=
  match body with Resolved a => Resolved a | Rejected m => handler m end.

(** *** Slices and splits *)

(** [l.slice(0, n)] for an integer [n]; a negative [n] counts from the
    end. *)
Definition sliceTo {A} (n : Z) (l : list A) : list A :=
  if (n <? 0)%Z then firstn (Z.to_nat (Z.of_nat (List.length l) + n)) l
  else firstn (Z.to_nat n) l.

(** [s.split(sep)] for a separator that is not empty; [skip] counts the
    characters of a separator still to pass. *)
Fixpoint split_sep (sep : string) (skip : nat) (cur : string) (s : string)
  : list string :=
  match s with
  | EmptyString => [cur]
  | String c r =>
      match skip with
      | S k => split_sep sep k cur r
      | O =>
          if startsWith sep s
          then cur :: split_sep sep (String.length sep - 1) EmptyString r
          else split_sep sep 0 (cur ++ String c EmptyString) r
      end
  end.

Definition split (sep : string) (s : string) : list string :=
  split_sep sep 0 EmptyString s.

End JS.

(** ** Vocabulary shared by the services *)
Module Model.

Inductive Label : Type := Positive | Negative | Neutral.

(** One reading of the clock: [Date.now()], the local [getHours()],
    [getMinutes()] and [getDay()], and the same three in the time zone
    America/New_York. *)
Record Clock : Type := {
  now : Z;
  hours : Z;
  minutes : Z;
  day : Z;
  easternHours : Z;
  easternMinutes : Z;
  easternDay : Z
}.

(** [Math.random()]: the sequence of its successive results, and a
    computation that draws from it, the state being the number of draws
    made so far. *)
Definition Draws : Type := nat -> R.

Definition Rand (A : Type) : Type := Draws -> nat -> A * nat.

Definition ret {A} (a : A) : Rand A := fun _ i => (a, i).

Definition bind {A B} (m : Rand A) (k : A -> Rand B) : Rand B :=
  fun draws i => let '(a, j) := m draws i in k a draws j.

Definition random : Rand R := fun draws i => (draws i, S i).

(** [list.map(f)] where [f] draws. *)
Fixpoint mapRand {A B} (f : A -> Rand B) (l : list A) : Rand (list B) :=
  match l with
  | [] => ret []
  | x :: rest =>
      bind (f x) (fun y => bind (mapRand f rest) (fun ys => ret (y :: ys)))
  end.

(** The own properties of an object literal of numbers: the value
    written in the literal for [key], if any. *)
Fixpoint lookup (table : list (string * R)) (key : string) : option R :=
  match table with
  | [] => None
  | (k, v) :: rest => if String.eqb k key then Some v else lookup rest key
  end.

(** The names every object literal inherits from [Object.prototype].
    [table[key]] finds them when the literal does not define [key]; what
    it finds is a function, or for [__proto__] an object: truthy, and no
    number. *)
Definition inheritedNames : list string :=
  ["constructor"; "__proto__"; "hasOwnProperty"; "isPrototypeOf";
   "propertyIsEnumerable"; "toLocaleString"; "toString"; "valueOf";
   "__defineGetter__"; "__defineSetter__"; "__lookupGetter__";
   "__lookupSetter__"].

Definition inherits (key : string) : bool :=
  existsb (String.eqb key) inheritedNames.

(** [key] is a string that names an inherited property. *)
Definition namesInherited (key : option string) : bool :=
  match key with
  | Some k => inherits k
  | None => false
  end.

(** The value of the variable [score] of a scorer: a number, or a string
    that is no number, which it becomes when a function or an object is
    added to it. *)
Inductive Scored : Type :=
| ScoreNumber (x : JS.jsnum)
| ScoreText.

(** A score used in arithmetic: the string converts to NaN. *)
Definition toNumber (s : Scored) : JS.jsnum :=
  match s with
  | ScoreNumber x => x
  | ScoreText => JS.NaN
  end.

(** The number [table[key] || 0] when [key] names no inherited property. *)
Definition bonusOf (table : list (string * R)) (key : option string) : R :=
  match key with
  | Some k => match lookup table k with Some bonus => bonus | None => 0%R end
  | None => 0%R
  end.

(** [score += table[key] || 0] on a table whose numbers are not zero; a
    missing [key] reads the property named [undefined], which no object
    has. *)
Definition addProperty (score : R) (table : list (string * R))
  (key : option string) : Scored :=
  match key with
  | None => ScoreNumber (JS.Num (score + 0))
  | Some k =>
      match lookup table k with
      | Some bonus => ScoreNumber (JS.Num (score + bonus))
      | None =>
          if inherits k then ScoreText else ScoreNumber (JS.Num (score + 0))
      end
  end.

(** A quote as the sentiment analysers read it: the string fields of the
    record, absent ones being [None]. *)
Record Stock : Type := {
  symbol : string;
  change : option string;
  volume : option string;
  sector : option string;
  marketCap : option string;
  source : option string
}.

(** [factors] of a sentiment entry: those of the [catch] branch, or the
    price change, volume, market context and source of the [try] branch. *)
Inductive Factors : Type :=
| FactorsError
| FactorsOf (priceChange : JS.jsnum) (volumeText : option string)
    (marketContext : R) (sourceTag : option string).

Record SentimentResult : Type := {
  score : JS.jsnum;
  label : Label;
  confidence : JS.jsnum;
  lastUpdate : Z;
  factors : Factors
}.

(** A sentiment entry whose score is a number between -1 and 1. *)
Definition scoreBounded (e : SentimentResult) : Prop :=
  match score e with
  | JS.Num r => (-1 <= r <= 1)%R
  | _ => False
  end.

(** A formatted volume: ['0'] or ['N/A'], [`${x}M`], [`${x}K`], or the
    number itself. *)
Inductive VolumeText : Type :=
| VolNone
| VolM (x : R)
| VolK (x : R)
| VolPlain (x : R).

(** The number a formatted volume stands for. *)
Definition volumeNumber (v : VolumeText) : R :=
  match v with
  | VolNone => 0
  | VolM x => x * 1000000
  | VolK x => x * 1000
  | VolPlain x => x
  end.

(** A generated quote. [price], [change] and [changeAmount] hold the
    numbers their [toFixed(2)] strings denote. *)
Record Quote : Type := {
  quoteSymbol : string;
  quoteName : string;
  price : R;
  changeText : R;
  changeAmount : R;
  changePercent : R;
  quoteVolume : VolumeText;
  quoteSector : option string;
  quoteMarketCap : option string;
  quoteLastUpdate : Z;
  quoteSource : string
}.

End Model.

(** ** The insertion-ordered [Map] of JavaScript, with string keys *)
Module JsMap.
Section Map.
Context {V : Type}.

(** The entries in insertion order; no key occurs twice. *)
Definition t : Type := list (string * V).

Definition empty : t := [].

Fixpoint get (k : string) (m : t) : option V :=
  match m with
  | [] => None
  | (k', v) :: r => if String.eqb k' k then Some v else get k r
  end.

(** [m.set(k, v)]: a present key keeps its place, a new one goes last. *)
Fixpoint set (k : string) (v : V) (m : t) : t :=
  match m with
  | [] => [(k, v)]
  | (k', v') :: r =>
      if String.eqb k' k then (k, v) :: r else (k', v') :: set k v r
  end.

Fixpoint delete (k : string) (m : t) : t :=
  match m with
  | [] => []
  | (k', v) :: r =>
      if String.eqb k' k then delete k r else (k', v) :: delete k r
  end.

Definition size (m : t) : nat := List.length m.

Definition keys (m : t) : list string := List.map fst m.

(** Every value stored satisfies [P]. *)
Definition all (P : V -> Prop) (m : t) : Prop :=
  forall k v, get k m = Some v -> P v.

(** [m.keys().next().value] *)
Definition firstKey (m : t) : option string := hd_error (keys m).

End Map.
Arguments t V : clear implicits.
End JsMap.

(** ** The cache pattern shared by src/utils/helpers.js and the services *)
Module Cache.
Section Cache.
Context {V : Type}.

(** [{ data, timestamp }] *)
Record Item : Type := { data : V; timestamp : Z }.

Definition Store : Type := JsMap.t Item.

(** The read of every cache in the repository, [timeout] being
    [CONSTANTS.CACHE_DURATION], [this.cacheTimeout] or
    [this.config.cacheTimeout]; [now] is [Date.now()]. The result is the
    returned value ([None] for [null]) and the store left behind. *)
Definition read (timeout : Z) (store : Store) (key : string) (now : Z)
  : option V * Store :=
  match JsMap.get key store with
  | None => (None, store)
  | Some item =>
      if (now - timestamp item >? timeout)%Z
      then (None, JsMap.delete key store)
      else (Some (data item), store)
  end.

(** The write with a size limit (helpers.js [cache.set],
    yahooFinanceApi.js [setCached]). *)
Definition writeBounded (maxSize : nat) (store : Store) (key : string)
  (d : V) (now : Z) : Store :=
  let store' :=
    if (maxSize <=? JsMap.size store)%nat then
      match JsMap.firstKey store with
      | Some firstKey => JsMap.delete firstKey store
      | None => store
      end
    else store in
  JsMap.set key {| data := d; timestamp := now |} store'.

(** The write without one (realTimeGainersApi.js and simpleCorsService.js
    [setCached]). *)
Definition writeUnbounded (store : Store) (key : string) (d : V) (now : Z)
  : Store :=
  JsMap.set key {| data := d; timestamp := now |} store.

(** The key of a write [(key, data, now)]. *)
Definition writeKey (w : string * V * Z) : string := fst (fst w).

(** A run of writes, each [(key, data, now)], into the empty store. *)
Definition fill (write : Store -> string -> V -> Z -> Store)
  (writes : list (string * V * Z)) : Store :=
  fold_left (fun st '(k, d, now) => write st k d now) writes JsMap.empty.

End Cache.
Arguments Item V : clear implicits.
Arguments Store V : clear implicits.
End Cache.

(** ** src/utils/helpers.js: [CONSTANTS] and [cache] *)
Module Helpers.

Definition CACHE_DURATION : Z := 5 * 60 * 1000.
Definition MAX_CACHE_SIZE : nat := 50.

Definition cache_get {V} (store : Cache.Store V) (key : string) (now : Z)
  : option V * Cache.Store V :=
  Cache.read CACHE_DURATION store key now.

Definition cache_set {V} (store : Cache.Store V) (key : string) (d : V)
  (now : Z) : Cache.Store V :=
  Cache.writeBounded MAX_CACHE_SIZE store key d now.

Definition cache_clear {V} (store : Cache.Store V) : Cache.Store V :=
  JsMap.empty.

(** *** [getSentimentColor], [getSentimentIcon], [getSentimentLabel] *)

Local Open Scope string_scope.

(** The string a label of the services is. *)
Definition labelText (l : Model.Label) : string :=
  match l with
  | Model.Positive => "Positive"
  | Model.Negative => "Negative"
  | Model.Neutral => "Neutral"
  end.

(** The argument [sentiment] is a number, a string, or anything else
    ([VUndefined]). *)
Definition getSentimentColor (sentiment : JS.jsval) : string :=
  match sentiment with
  | JS.VNumber x =>
      if JS.gtb x 0.2%R then "text-green-600 bg-green-100"
      else if JS.ltb x (-0.2)%R then "text-red-600 bg-red-100"
      else "text-gray-600 bg-gray-100"
  | JS.VString sentiment =>
      let s := JS.toLowerCase sentiment in
      if String.eqb s "positive" then "text-green-600 bg-green-100"
      else if String.eqb s "negative" then "text-red-600 bg-red-100"
      else "text-gray-600 bg-gray-100"
  | JS.VUndefined => "text-gray-600 bg-gray-100"
  end.

(** The three icons, each drawn with [size={16}]. *)
Inductive Icon : Type := TrendingUp | AlertCircle | Clock.

Definition getSentimentIcon (sentiment : JS.jsval) : Icon :=
  match sentiment with
  | JS.VNumber x =>
      if JS.gtb x 0.2%R then TrendingUp
      else if JS.ltb x (-0.2)%R then AlertCircle
      else Clock
  | JS.VString sentiment =>
      let s := JS.toLowerCase sentiment in
      if String.eqb s "positive" then TrendingUp
      else if String.eqb s "negative" then AlertCircle
      else Clock
  | JS.VUndefined => Clock
  end.

Definition is_lower (c : ascii) : bool :=
  (97 <=? nat_of_ascii c)%nat && (nat_of_ascii c <=? 122)%nat.

Definition upper_char (c : ascii) : ascii :=
  if is_lower c then ascii_of_nat (nat_of_ascii c - 32) else c.

(** [s.charAt(0).toUpperCase() + s.slice(1).toLowerCase()], on ASCII
    letters as [JS.toLowerCase]. *)
Definition capitalize (s : string) : string :=
  match s with
  | EmptyString => EmptyString
  | String c r => String (upper_char c) (JS.toLowerCase r)
  end.

Definition getSentimentLabel (sentiment : JS.jsval) : string :=
  match sentiment with
  | JS.VNumber x =>
      if JS.gtb x 0.2%R then "Positive"
      else if JS.ltb x (-0.2)%R then "Negative"
      else "Neutral"
  | JS.VString sentiment => capitalize sentiment
  | JS.VUndefined => "Neutral"
  end.

(** *** [getCategoryColor] *)

(** [colors]: the class names of each category. *)
Definition colors : list (string * string) :=
  [("earnings", "bg-blue-100 text-blue-800");
   ("analyst", "bg-purple-100 text-purple-800");
   ("regulatory", "bg-red-100 text-red-800");
   ("partnership", "bg-green-100 text-green-800");
   ("market", "bg-yellow-100 text-yellow-800");
   ("corporate", "bg-indigo-100 text-indigo-800");
   ("product", "bg-orange-100 text-orange-800");
   ("management", "bg-pink-100 text-pink-800")].

(** [table[key]] on an object literal of strings; the properties every
    object inherits are not looked up. *)
Fixpoint lookupText (table : list (string * string)) (key : string)
  : option string :=
  match table with
  | [] => None
  | (k, v) :: rest => if String.eqb k key then Some v else lookupText rest key
  end.

Definition getCategoryColor (category : string) : string :=
  match lookupText colors category with
  | Some classes => classes
  | None => "bg-gray-100 text-gray-800"
  end.

(** *** [truncateText] *)

(** [text] is a string or missing; [maxLength] is an integer, a negative
    one cutting at 0 as [substring] does. *)
Definition truncateText (text : option string) (maxLength : Z) : option string :=
  match text with
  | None => None
  | Some t =>
      if String.eqb t "" || (Z.of_nat (String.length t) <=? maxLength)%Z then Some t
      else Some (String.substring 0 (Z.to_nat maxLength) t ++ "...")
  end.

(** *** [rateLimiter] *)

(** [limits] maps the name of an API to the times of the requests granted
    to it. *)
Definition Limits : Type := JsMap.t (list Z).

Definition defaultMaxRequests : Z := 100.
Definition defaultWindowMs : Z := 24 * 60 * 60 * 1000.

(** [requests.filter(timestamp => timestamp > windowStart)] *)
Definition validRequests (requests : list Z) (windowMs now : Z) : list Z :=
  let windowStart := (now - windowMs)%Z in
  List.filter (fun timestamp => (timestamp >? windowStart)%Z) requests.

(** [canMakeRequest] at the time [now]: the answer and the limits left. *)
Definition canMakeRequest (limits : Limits) (apiName : string)
  (maxRequests windowMs now : Z) : bool * Limits :=
  let limits :=
    match JsMap.get apiName limits with
    | None => JsMap.set apiName [] limits
    | Some _ => limits
    end in
  let requests := default [] (JsMap.get apiName limits) in
  let validRequests := validRequests requests windowMs now in
  if (Z.of_nat (List.length validRequests) >=? maxRequests)%Z then (false, limits)
  else (true, JsMap.set apiName (validRequests ++ [now])%list limits).

Definition getRemainingRequests (limits : Limits) (apiName : string)
  (maxRequests windowMs now : Z) : Z :=
  match JsMap.get apiName limits with
  | None => maxRequests
  | Some requests =>
      Z.max 0 (maxRequests
               - Z.of_nat (List.length (validRequests requests windowMs now)))
  end.

(** [canMakeRequest] called for one API at each of [times] in turn: the
    answers, and the limits left. *)
Fixpoint requestAll (limits : Limits) (apiName : string)
  (maxRequests windowMs : Z) (times : list Z) : list bool * Limits :=
  match times with
  | [] => ([], limits)
  | now :: rest =>
      let '(answer, limits) := canMakeRequest limits apiName maxRequests windowMs now in
      let '(answers, limits) := requestAll limits apiName maxRequests windowMs rest in
      (answer :: answers, limits)
  end.

(** The times of the calls that were answered [true]. *)
Fixpoint granted (times : list Z) (answers : list bool) : list Z :=
  match times, answers with
  | now :: times, true :: answers => now :: granted times answers
  | _ :: times, false :: answers => granted times answers
  | _, _ => []
  end.

End Helpers.

(** ** src/services/newsApi.js: EnhancedNewsService *)
Module News.
Import JS.
Import Model(Label, Positive, Negative, Neutral).
Local Open Scope string_scope.
Local Open Scope R_scope.

Inductive Category : Type :=
| earnings | analyst | partnership | regulatory
| market | product | management | corporate.

(** A normalized article. [url], [imageUrl], [highlights], [topics] and
    [relevanceScore] are copied from the provider and read by nothing
    below; they are left out. [publishedAt] is the instant its ISO string
    denotes, in milliseconds. An absent field is [None]. *)
Record Article : Type := {
  id : option string;
  title : option string;
  description : string;
  source : option string;
  publishedAt : Z;
  sentiment : jsval;
  category : Category;
  confidence : jsval
}.

(** *** Utility methods *)

Definition positiveWords : list string :=
  ["beat"; "strong"; "growth"; "profit"; "gain"; "rise"; "up"; "positive";
   "good"; "success"; "win"; "boost"; "improve"; "bullish"; "upgrade";
   "buy"; "outperform"; "exceed"; "higher"; "increase"; "rally"; "surge"].

Definition negativeWords : list string :=
  ["miss"; "weak"; "loss"; "fall"; "down"; "negative"; "bad"; "fail";
   "drop"; "decline"; "bearish"; "concern"; "risk"; "downgrade"; "sell";
   "underperform"; "lower"; "decrease"; "crash"; "plunge"; "warning"].

(** [lexicon.some(w => word.includes(w))] *)
Definition hit (lexicon : list string) (word : string) : bool :=
  existsb (fun w => includes w word) lexicon.

(** The body of [words.forEach], on the pair [(score, wordCount)]. *)
Definition scoreWord (acc : R * nat) (word : string) : R * nat :=
  let '(score, wordCount) :=
    if hit positiveWords word then (fst acc + 0.1, S (snd acc)) else acc in
  if hit negativeWords word then (score - 0.1, S wordCount)
  else (score, wordCount).

Definition calculateSentiment (text : string) : R :=
  if String.eqb text "" then 0
  else
    let words := splitWhitespace (toLowerCase text) in
    let '(score, wordCount) := fold_left scoreWord words (0, 0%nat) in
    let score :=
      if (0 <? wordCount)%nat then score / sqrt (INR wordCount) else score in
    max (-1) (min 1 score).

(** [/q[1-4]/] *)
Definition matches_quarter (s : string) : bool :=
  includes "q1" s || includes "q2" s || includes "q3" s || includes "q4" s.

Definition matchesAny (alternatives : list string) (s : string) : bool :=
  existsb (fun w => includes w s) alternatives.

Definition categorizeNews (title : option string) : Category :=
  match title with
  | None => corporate
  | Some t =>
      if String.eqb t "" then corporate
      else
        let titleLower := toLowerCase t in
        if matchesAny ["earnings"; "revenue"; "profit"; "quarter"; "fiscal"] titleLower
           || matches_quarter titleLower then earnings
        else if matchesAny ["analyst"; "upgrade"; "downgrade"; "target"; "rating";
                            "recommendation"] titleLower then analyst
        else if matchesAny ["merger"; "acquisition"; "partnership"; "deal";
                            "joint venture"] titleLower then partnership
        else if matchesAny ["regulatory"; "sec"; "investigation"; "lawsuit";
                            "compliance"; "fine"] titleLower then regulatory
        else if matchesAny ["market"; "trading"; "volatility"; "stock"; "shares";
                            "price"] titleLower then market
        else if matchesAny ["product"; "launch"; "innovation"; "technology";
                            "patent"] titleLower then product
        else if matchesAny ["management"; "ceo"; "executive"; "leadership";
                            "appointment"] titleLower then management
        else corporate
  end.

(** [v || 0] on a dynamically typed value. *)
Definition orZero (v : jsval) : jsval :=
  match v with
  | VUndefined => VNumber (Num 0)
  | VString s => if String.eqb s "" then VNumber (Num 0) else v
  | VNumber NaN => VNumber (Num 0)
  | VNumber (Num r) => if Req_dec_T r 0 then VNumber (Num 0) else v
  | VNumber (Inf _) => v
  end.

Definition normalizeSentiment (sentiment : jsval) : jsval :=
  match sentiment with
  | VString s =>
      let l := toLowerCase s in
      if String.eqb l "positive" then VNumber (Num 0.5)
      else if String.eqb l "negative" then VNumber (Num (-0.5))
      else VNumber (Num 0)
  | _ => orZero sentiment
  end.

(** The result of [calculateOverallSentiment]. *)
Record Overall : Type := {
  score : jsnum;
  label : Label;
  overallConfidence : jsnum;
  positive : nat;
  neutral : nat;
  negative : nat
}.

(** The numeric, non-NaN sentiments of the articles. *)
Definition numericSentiments (articles : list Article) : list jsnum :=
  flat_map (fun a => match sentiment a with
                     | VNumber NaN => []
                     | VNumber x => [x]
                     | _ => []
                     end) articles.

Definition count (p : jsnum -> bool) (l : list jsnum) : nat :=
  List.length (List.filter p l).

Definition calculateOverallSentiment (articles : list Article) : option Overall :=
  match articles with
  | [] => None
  | _ =>
      let sentiments := numericSentiments articles in
      match sentiments with
      | [] => None
      | _ =>
          let avgSentiment :=
            divide (fold_left add sentiments (Num 0)) (INR (List.length sentiments)) in
          Some {| score := avgSentiment;
                  label := if gtb avgSentiment 0.2 then Positive
                           else if ltb avgSentiment (-0.2) then Negative
                           else Neutral;
                  overallConfidence := scale (abs avgSentiment) 100;
                  positive := count (fun s => gtb s 0.2) sentiments;
                  neutral := count (fun s => geb s (-0.2) && leb s 0.2) sentiments;
                  negative := count (fun s => ltb s (-0.2)) sentiments |}
      end
  end.

(** The key built by [deduplicateArticles]:
    [`${article.title?.toLowerCase().substring(0, 50)}_${article.source}`] *)
Definition titlePrefix (a : Article) : option string :=
  option_map (fun t => String.substring 0 50 (toLowerCase t)) (title a).

Definition dedupKey (a : Article) : string :=
  render (titlePrefix a) ++ "_" ++ render (source a).

(** [articles.filter(...)] with the [seen] set threaded through. *)
Fixpoint dedupFilter (seen : gset string) (articles : list Article)
  : list Article :=
  match articles with
  | [] => []
  | a :: rest =>
      if decide (dedupKey a ∈ seen) then dedupFilter seen rest
      else a :: dedupFilter ({[dedupKey a]} ∪ seen) rest
  end.

Definition deduplicateArticles (articles : list Article) : list Article :=
  dedupFilter ∅ articles.

(** *** The fallback *)

Inductive Status : Type := success | error.

(** An entry of [results.sources]. *)
Record SourceEntry : Type := {
  name : string;
  status : Status;
  entryCount : option nat;
  entryError : option string
}.

Record NewsResult : Type := {
  symbol : string;
  articles : list Article;
  sources : list SourceEntry;
  errors : list string;
  overallSentiment : option Overall;
  timestamp : Z
}.

Definition hoursAgo (now : Z) (h : Z) : Z := (now - h * 60 * 60 * 1000)%Z.

Definition mockArticles (now : Z) (symbol : string) : list Article :=
  [ {| id := Some "mock_1";
       title := Some (symbol ++ " Reports Strong Q4 Earnings, Revenue Beats Expectations");
       description := symbol ++ " announced quarterly earnings that exceeded analyst expectations, driven by strong revenue growth and improved operational efficiency. The company showed resilience in challenging market conditions.";
       source := Some "Demo Financial News";
       publishedAt := hoursAgo now 2;
       sentiment := VNumber (Num 0.8);
       category := earnings;
       confidence := VNumber (Num 85) |};
    {| id := Some "mock_2";
       title := Some ("Wall Street Analysts Upgrade " ++ symbol ++ " Price Target on Innovation Push");
       description := "Multiple Wall Street analysts have raised their price targets for " ++ symbol ++ " following the company's latest product innovation announcement and strategic market expansion plans.";
       source := Some "Demo Market Watch";
       publishedAt := hoursAgo now 4;
       sentiment := VNumber (Num 0.6);
       category := analyst;
       confidence := VNumber (Num 90) |};
    {| id := Some "mock_3";
       title := Some (symbol ++ " Faces New Regulatory Scrutiny Over Market Practices");
       description := "Regulatory authorities are examining " ++ symbol ++ "'s business practices amid growing concerns from competitors and consumer advocacy groups about market dominance.";
       source := Some "Demo Regulatory Times";
       publishedAt := hoursAgo now 6;
       sentiment := VNumber (Num (-0.3));
       category := regulatory;
       confidence := VNumber (Num 75) |};
    {| id := Some "mock_4";
       title := Some (symbol ++ " Announces Strategic Partnership for AI Development");
       description := symbol ++ " has entered into a strategic partnership with leading technology firms to accelerate artificial intelligence development and integration across its product portfolio.";
       source := Some "Demo Tech News";
       publishedAt := hoursAgo now 8;
       sentiment := VNumber (Num 0.7);
       category := partnership;
       confidence := VNumber (Num 88) |};
    {| id := Some "mock_5";
       title := Some (symbol ++ " Stock Shows Resilience Amid Market Volatility");
       description := symbol ++ " shares demonstrated strong performance this week despite broader market uncertainty, with institutional investors showing continued confidence in the company's long-term strategy.";
       source := Some "Demo Investment Journal";
       publishedAt := hoursAgo now 12;
       sentiment := VNumber (Num 0.4);
       category := market;
       confidence := VNumber (Num 80) |};
    {| id := Some "mock_6";
       title := Some (symbol ++ " Board Approves Major Share Buyback Program");
       description := "The company's board of directors has approved a significant share repurchase program, signaling strong confidence in future performance and commitment to shareholder value.";
       source := Some "Demo Corporate News";
       publishedAt := hoursAgo now 18;
       sentiment := VNumber (Num 0.5);
       category := corporate;
       confidence := VNumber (Num 82) |} ].

(** [now] is the reading of the clock ([Date.now()], [new Date()]). *)
Definition getMockNews (now : Z) (sym : string) : NewsResult :=
  let mock := mockArticles now sym in
  {| symbol := sym;
     articles := mock;
     sources := [ {| name := "Demo Data"; status := success;
                     entryCount := Some (List.length mock);
                     entryError := None |} ];
     errors := [];
     overallSentiment := calculateOverallSentiment mock;
     timestamp := now |}.

(** *** The environment: API keys and the providers' answers *)

(** [process.env.REACT_APP_*_API_KEY], [None] when unset. *)
Record ApiKeys : Type := {
  marketauxKey : option string;
  finnhubKey : option string;
  stocknewsapiKey : option string;
  alphavantageKey : option string
}.

(** [this.apis[source]?.key] *)
Definition apiKey (env : ApiKeys) (source : string) : option string :=
  if String.eqb source "marketaux" then marketauxKey env
  else if String.eqb source "finnhub" then finnhubKey env
  else if String.eqb source "stocknewsapi" then stocknewsapiKey env
  else if String.eqb source "alphavantage" then alphavantageKey env
  else None.

(** What [fetch(url)] and [response.json()] give for one request. *)
Inductive Response (B : Type) : Type :=
| FetchFailed (message : string)
| NotOk (httpStatus statusText : string)
| Body (b : B).
Arguments FetchFailed {B} message.
Arguments NotOk {B} httpStatus statusText.
Arguments Body {B} b.

(** [article.entities?.[0]] of Marketaux. *)
Record Entity : Type := { sentiment_score : jsval; match_score : jsval }.

Record MarketauxArticle : Type := {
  mx_uuid : option string;
  mx_title : option string;
  mx_description : option string;
  mx_snippet : option string;
  mx_source : option string;
  mx_published_at : Z;
  mx_entity : option Entity
}.

(** [data.error] with its [message], and [data.data]. *)
Record MarketauxBody : Type := {
  mx_error : option (option string);
  mx_data : option (list MarketauxArticle)
}.

Record FinnhubArticle : Type := {
  fh_id : option string;
  fh_headline : option string;
  fh_summary : option string;
  fh_source : option string;
  fh_datetime : Z
}.

Record StockNewsArticle : Type := {
  sn_news_url : option string;
  sn_title : option string;
  sn_text : option string;
  sn_source_name : option string;
  sn_date : Z;
  sn_sentiment : jsval
}.

Record StockNewsBody : Type := {
  sn_error : option string;
  sn_data : option (list StockNewsArticle)
}.

(** [time_published] is the instant the [YYYYMMDDTHHMMSS] string denotes,
    [None] when the string is missing or shorter than 15 characters. *)
Record AlphaVantageArticle : Type := {
  av_url : option string;
  av_title : option string;
  av_summary : option string;
  av_source : option string;
  av_time_published : option Z;
  av_overall_sentiment_score : jsval
}.

Record AlphaVantageBody : Type := {
  av_error_message : option string;
  av_information : option string;
  av_feed : option (list AlphaVantageArticle)
}.

(** The answer of each provider to the request for a symbol with a limit
    (a number of days for Finnhub). The Finnhub body is [None] when it is
    not an array. *)
Record Network : Type := {
  marketauxGet : string -> nat -> Response MarketauxBody;
  finnhubGet : string -> nat -> Response (option (list FinnhubArticle));
  stockNewsGet : string -> nat -> Response StockNewsBody;
  alphaVantageGet : string -> nat -> Response AlphaVantageBody
}.

(** What an adapter resolves with; [meta] is read by nothing. *)
Record SourceData : Type := {
  dataSource : string;
  dataArticles : list Article
}.

Definition configured (key : option string) (placeholder : string) : bool :=
  match key with
  | None => false
  | Some k => negb (String.eqb k "") && negb (String.eqb k placeholder)
  end.

Definition truthy (o : option string) : bool :=
  match o with Some s => negb (String.eqb s "") | None => false end.

Definition withDefault {A} (o : option (list A)) : list A :=
  match o with Some l => l | None => [] end.

(** *** The adapters *)

Definition extractMarketauxSentiment (article : MarketauxArticle) : jsval :=
  match mx_entity article with
  | Some entity =>
      match sentiment_score entity with
      | VUndefined =>
          VNumber (Num (calculateSentiment
            (render (mx_title article) ++ " " ++ strOr (mx_description article) "")))
      | v => v
      end
  | None =>
      VNumber (Num (calculateSentiment
        (render (mx_title article) ++ " " ++ strOr (mx_description article) "")))
  end.

Definition marketauxArticle (article : MarketauxArticle) : Article :=
  {| id := mx_uuid article;
     title := mx_title article;
     description := strOr (mx_description article) (strOr (mx_snippet article) "");
     source := mx_source article;
     publishedAt := mx_published_at article;
     sentiment := extractMarketauxSentiment article;
     category := categorizeNews (mx_title article);
     confidence := match mx_entity article with
                   | Some entity => orZero (match_score entity)
                   | None => VNumber (Num 0)
                   end |}.

Definition fetchFromMarketaux (env : ApiKeys) (net : Network)
  (sym : string) (limit : nat) : Promise SourceData :=
  if negb (configured (marketauxKey env) "your_marketaux_api_key_here")
  then Rejected "Marketaux API key not configured"
  else
    match marketauxGet net sym limit with
    | FetchFailed m => Rejected m
    | NotOk st txt => Rejected ("Marketaux API error: " ++ st ++ " - " ++ txt)
    | Body data =>
        match mx_error data with
        | Some message =>
            Rejected ("Marketaux API error: " ++ strOr message "Unknown error")
        | None =>
            Resolved {| dataSource := "Marketaux";
                        dataArticles := List.map marketauxArticle
                                          (withDefault (mx_data data)) |}
        end
    end.

Definition finnhubArticle (index : nat) (article : FinnhubArticle) : Article :=
  {| id := Some (strOr (fh_id article) ("finnhub_" ++ pretty index));
     title := fh_headline article;
     description := strOr (fh_summary article) "";
     source := fh_source article;
     publishedAt := (fh_datetime article * 1000)%Z;
     sentiment := VNumber (Num (calculateSentiment
       (render (fh_headline article) ++ " " ++ strOr (fh_summary article) "")));
     category := categorizeNews (fh_headline article);
     confidence := VNumber (Num 85) |}.

Definition fetchFromFinnhub (env : ApiKeys) (net : Network)
  (sym : string) (days : nat) : Promise SourceData :=
  if negb (configured (finnhubKey env) "your_finnhub_api_key_here")
  then Rejected "Finnhub API key not configured"
  else
    match finnhubGet net sym days with
    | FetchFailed m => Rejected m
    | NotOk st txt => Rejected ("Finnhub API error: " ++ st ++ " - " ++ txt)
    | Body None => Rejected "Finnhub API returned invalid data"
    | Body (Some articles) =>
        Resolved {| dataSource := "Finnhub";
                    dataArticles := imap finnhubArticle articles |}
    end.

Definition stockNewsArticle (article : StockNewsArticle) : Article :=
  {| id := sn_news_url article;
     title := sn_title article;
     description := strOr (sn_text article) "";
     source := sn_source_name article;
     publishedAt := sn_date article;
     sentiment := normalizeSentiment (sn_sentiment article);
     category := categorizeNews (sn_title article);
     confidence := VNumber (Num 90) |}.

Definition fetchFromStockNewsAPI (env : ApiKeys) (net : Network)
  (sym : string) (limit : nat) : Promise SourceData :=
  if negb (configured (stocknewsapiKey env) "your_stocknews_api_key_here")
  then Rejected "Stock News API key not configured"
  else
    match stockNewsGet net sym limit with
    | FetchFailed m => Rejected m
    | NotOk st txt => Rejected ("Stock News API error: " ++ st ++ " - " ++ txt)
    | Body data =>
        if truthy (sn_error data)
        then Rejected ("Stock News API error: " ++ render (sn_error data))
        else Resolved {| dataSource := "Stock News API";
                         dataArticles := List.map stockNewsArticle
                                           (withDefault (sn_data data)) |}
    end.

(** [convertAlphaVantageTime], which falls back on the clock. *)
Definition convertAlphaVantageTime (now : Z) (timeString : option Z) : Z :=
  match timeString with Some t => t | None => now end.

Definition alphaVantageArticle (now : Z) (article : AlphaVantageArticle) : Article :=
  {| id := av_url article;
     title := av_title article;
     description := strOr (av_summary article) "";
     source := av_source article;
     publishedAt := convertAlphaVantageTime now (av_time_published article);
     sentiment := VNumber (parseFloatOrZero (av_overall_sentiment_score article));
     category := categorizeNews (av_title article);
     confidence :=
       VNumber (scale (abs (parseFloatOrZero (av_overall_sentiment_score article))) 100) |}.

Definition fetchFromAlphaVantage (env : ApiKeys) (net : Network) (now : Z)
  (sym : string) (limit : nat) : Promise SourceData :=
  if negb (configured (alphavantageKey env) "your_alphavantage_api_key_here")
  then Rejected "Alpha Vantage API key not configured"
  else
    match alphaVantageGet net sym limit with
    | FetchFailed m => Rejected m
    | NotOk st txt => Rejected ("Alpha Vantage API error: " ++ st ++ " - " ++ txt)
    | Body data =>
        if truthy (av_error_message data)
        then Rejected ("Alpha Vantage API error: " ++ render (av_error_message data))
        else if truthy (av_information data)
        then Rejected ("Alpha Vantage API rate limit: " ++ render (av_information data))
        else Resolved {| dataSource := "Alpha Vantage";
                         dataArticles := List.map (alphaVantageArticle now)
                                           (withDefault (av_feed data)) |}
    end.

(** *** [getComprehensiveNews] *)

Record Options : Type := {
  limit : nat;
  days : nat;
  preferredSources : list string
}.

Definition defaultOptions : Options :=
  {| limit := 20; days := 7;
     preferredSources := ["marketaux"; "finnhub"; "stocknewsapi"] |}.

(** The filter that keeps the sources whose key is configured. *)
Definition hasKey (env : ApiKeys) (source : string) : bool :=
  match apiKey env source with
  | None => false
  | Some k =>
      negb (String.eqb k "")
      && negb (String.eqb k ("your_" ++ source ++ "_api_key_here"))
      && negb (String.eqb k "your_key_here")
  end.

Definition availableSources (env : ApiKeys) (opts : Options) : list string :=
  List.filter (hasKey env) (preferredSources opts).

(** [Math.ceil(limit / n)] *)
Definition ceilDiv (a b : nat) : nat := ((a + b - 1) / b)%nat.

(** The [switch] of the loop; [None] is its [default: continue]. *)
Definition callAdapter (env : ApiKeys) (net : Network) (now : Z)
  (sym : string) (opts : Options) (n : nat) (source : string)
  : option (Promise SourceData) :=
  if String.eqb source "marketaux"
  then Some (fetchFromMarketaux env net sym (ceilDiv (limit opts) n))
  else if String.eqb source "finnhub"
  then Some (fetchFromFinnhub env net sym (days opts))
  else if String.eqb source "stocknewsapi"
  then Some (fetchFromStockNewsAPI env net sym (ceilDiv (limit opts) n))
  else if String.eqb source "alphavantage"
  then Some (fetchFromAlphaVantage env net now sym (ceilDiv (limit opts) n))
  else None.

(** [{ success: true, source, data }] or [{ success: false, source, error }] *)
Inductive ApiResponse : Type :=
| Succeeded (source : string) (data : SourceData)
| Failed (source : string) (message : string).

(** [promise.then(...).catch(...)] *)
Definition settle (source : string) (promise : Promise SourceData)
  : Promise ApiResponse :=
  catch_ (then_ promise (Succeeded source)) (Failed source).

(** The sources for which the loop pushes a promise: the attempted adapters. *)
Definition attempted (env : ApiKeys) (net : Network) (now : Z) (sym : string)
  (opts : Options) : list (string * Promise SourceData) :=
  let available := availableSources env opts in
  flat_map (fun source =>
              match callAdapter env net now sym opts (List.length available) source with
              | Some promise => [(source, promise)]
              | None => []
              end) available.

Definition apiPromises (env : ApiKeys) (net : Network) (now : Z) (sym : string)
  (opts : Options) : list (Promise ApiResponse) :=
  List.map (fun '(source, promise) => settle source promise)
    (attempted env net now sym opts).

(** The body of [responses.forEach]. *)
Definition record (results : NewsResult) (response : ApiResponse) : NewsResult :=
  match response with
  | Succeeded src data =>
      {| symbol := symbol results;
         articles := articles results ++ dataArticles data;
         sources := sources results ++
                    [ {| name := src; status := success;
                         entryCount := Some (List.length (dataArticles data));
                         entryError := None |} ];
         errors := errors results;
         overallSentiment := overallSentiment results;
         timestamp := timestamp results |}
  | Failed src message =>
      {| symbol := symbol results;
         articles := articles results;
         sources := sources results ++
                    [ {| name := src; status := error;
                         entryCount := None;
                         entryError := Some message |} ];
         errors := errors results ++ [src ++ ": " ++ message];
         overallSentiment := overallSentiment results;
         timestamp := timestamp results |}
  end.

(** [.sort((a, b) => new Date(b.publishedAt) - new Date(a.publishedAt))]:
    newest first, equal instants in their order of arrival. *)
Fixpoint insertByDate (a : Article) (sorted : list Article) : list Article :=
  match sorted with
  | [] => [a]
  | b :: rest =>
      if (publishedAt a <? publishedAt b)%Z then b :: insertByDate a rest
      else a :: b :: rest
  end.

Definition sortNewestFirst (l : list Article) : list Article :=
  fold_right insertByDate [] l.

Definition getComprehensiveNews (env : ApiKeys) (net : Network) (now : Z)
  (sym : string) (opts : Options) : Promise NewsResult :=
  let results :=
    {| symbol := sym; articles := []; sources := []; errors := [];
       overallSentiment := None; timestamp := now |} in
  let promises := apiPromises env net now sym opts in
  if (List.length promises =? 0)%nat then Resolved (getMockNews now sym)
  else
    try_catch
      (await (all promises) (fun responses =>
         let results := fold_left record responses results in
         if (List.length (articles results) =? 0)%nat
         then Resolved (getMockNews now sym)
         else
           let kept :=
             firstn (limit opts)
               (sortNewestFirst (deduplicateArticles (articles results))) in
           Resolved {| symbol := symbol results;
                       articles := kept;
                       sources := sources results;
                       errors := errors results;
                       overallSentiment := calculateOverallSentiment kept;
                       timestamp := timestamp results |}))
      (fun _ => Resolved (getMockNews now sym)).

(** *** Vocabulary for the properties of [getComprehensiveNews] *)


(** What [settle] resolves with for an attempted adapter. *)
Definition settled (call : string * Promise SourceData) : ApiResponse :=
  match snd call with
  | Resolved data => Succeeded (fst call) data
  | Rejected message => Failed (fst call) message
  end.

(** The articles an attempted adapter returned, none if it failed. *)
Definition fetchedBy (call : string * Promise SourceData) : list Article :=
  match snd call with
  | Resolved data => dataArticles data
  | Rejected _ => []
  end.

(** The manifest entry that stands for an attempted adapter: its name, and
    [success] exactly when its promise resolved. *)
Definition standsFor (call : string * Promise SourceData) (e : SourceEntry) : Prop :=
  name e = fst call /\
  match snd call with
  | Resolved data =>
      status e = success /\ entryCount e = Some (List.length (dataArticles data))
  | Rejected message =>
      status e = error /\ entryError e = Some message
  end.

(** The string a category is. *)
Definition categoryText (c : Category) : string :=
  match c with
  | earnings => "earnings"
  | analyst => "analyst"
  | partnership => "partnership"
  | regulatory => "regulatory"
  | market => "market"
  | product => "product"
  | management => "management"
  | corporate => "corporate"
  end.

End News.

(** ** src/services/realTimeGainersApi.js: RealTimeGainersService *)
Module RealTime.
Import JS Model.
Local Open Scope string_scope.
Local Open Scope R_scope.

Definition cacheTimeout : Z := 2 * 60 * 1000.

Definition getCached {V} (cache : Cache.Store V) (key : string) (t : Z)
  : option V * Cache.Store V :=
  Cache.read cacheTimeout cache key t.

Definition setCached {V} (cache : Cache.Store V) (key : string) (d : V) (t : Z)
  : Cache.Store V :=
  Cache.writeUnbounded cache key d t.

(** The [source] tags written by [parseYahooGainers],
    [parseMarketWatchHTML], [parseCNBCGainers], [parseGenericGainers] and
    [parseStockAnalysisHTML]. *)
Definition liveSources : list string :=
  ["yahoo_finance_realtime"; "marketwatch_realtime"; "cnbc_realtime";
   "polygon_realtime"; "iex_realtime"; "twelvedata_realtime";
   "stockanalysis_realtime"].

Definition parseVolume (volumeStr : option string) : jsnum :=
  match volumeStr with
  | None => Num 0
  | Some s =>
      if String.eqb s "" || String.eqb s "N/A" then Num 0
      else
        let num := parseFloat (keepDigitsAndDots s) in
        if includes "M" s then scale num 1000000
        else if includes "K" s then scale num 1000
        else num
  end.

Definition sourceBonus : list (string * R) :=
  [("yahoo_finance_realtime", 0.1); ("cnbc_realtime", 0.08);
   ("polygon_realtime", 0.06); ("iex_realtime", 0.05)].

Definition calculateRealTimeSentiment (stock : Stock) (changePercent : jsnum)
  : Scored :=
  let score := 0 in
  let score :=
    if geb changePercent 10 then score + 0.95
    else if geb changePercent 7 then score + 0.8
    else if geb changePercent 5 then score + 0.65
    else if geb changePercent 3 then score + 0.45
    else if geb changePercent 2 then score + 0.25
    else if geb changePercent 1 then score + 0.1
    else score in
  let score :=
    match volume stock with
    | Some v =>
        if negb (String.eqb v "") && negb (String.eqb v "N/A") then
          let volumeNum := parseVolume (Some v) in
          if gtb volumeNum 10000000 then score + 0.1
          else if gtb volumeNum 5000000 then score + 0.05
          else score
        else score
    | None => score
    end in
  addProperty score sourceBonus (source stock).

Definition getRealTimeMarketContext (clock : Clock) : R :=
  let hour := easternHours clock in
  let minute := easternMinutes clock in
  let day := easternDay clock in
  let isMarketHours :=
    ((9 <? hour)%Z || ((hour =? 9)%Z && (30 <=? minute)%Z)) && (hour <? 16)%Z in
  let isMarketDay := (1 <=? day)%Z && (day <=? 5)%Z in
  let contextScore :=
    if isMarketHours && isMarketDay then 0.2
    else if isMarketDay then 0.1
    else -0.1 in
  if isMarketHours then
    if (hour =? 9)%Z then contextScore + 0.1
    else if (hour =? 15)%Z && (30 <=? minute)%Z then contextScore + 0.15
    else if (hour =? 12)%Z then contextScore - 0.05
    else contextScore
  else contextScore.

Definition getSentimentLabel (score : jsnum) : Label :=
  if gtb score 0.2 then Positive
  else if ltb score (-0.2) then Negative
  else Neutral.

(** The [try] block for one stock; [None] when it throws, which it does
    when [stock.change] is missing. *)
Definition analyze (clock : Clock) (stock : Stock) : option SentimentResult :=
  match change stock with
  | None => None
  | Some c =>
      let changePercent := parseFloat (removeFirst "+" (removeFirst "%" c)) in
      let sentimentScore := calculateRealTimeSentiment stock changePercent in
      let marketContext := getRealTimeMarketContext clock in
      let sentimentScore :=
        add (scale (toNumber sentimentScore) 0.85) (Num (marketContext * 0.15)) in
      let sentimentScore := minWith 1 (maxWith (-1) sentimentScore) in
      Some {| score := sentimentScore;
              label := getSentimentLabel sentimentScore;
              confidence := scale (abs sentimentScore) 100;
              lastUpdate := now clock;
              factors := FactorsOf changePercent (volume stock) marketContext
                           (source stock) |}
  end.

(** The entry set by the [catch] block. *)
Definition neutralResult (clock : Clock) : SentimentResult :=
  {| score := Num 0; label := Neutral; confidence := Num 50;
     lastUpdate := now clock; factors := FactorsError |}.

(** One turn of the [for] loop. *)
Definition step (clock : Clock) (sentimentResults : JsMap.t SentimentResult)
  (stock : Stock) : JsMap.t SentimentResult :=
  match analyze clock stock with
  | Some result => JsMap.set (symbol stock) result sentimentResults
  | None => JsMap.set (symbol stock) (neutralResult clock) sentimentResults
  end.

Definition analyzeBulkSentiment (clock : Clock) (stocks : list Stock)
  : Promise (JsMap.t SentimentResult) :=
  Resolved (fold_left (step clock) stocks JsMap.empty).

(** *** [getTopGainers] *)

(** [gainers.filter(stock => parseFloat(stock.change.replace("%", "")
    .replace("+", "")) >= minPercentChange)]; [None] when the callback
    throws, which it does at a stock whose [change] is missing. *)
Fixpoint filterByChange (minPercentChange : R) (gainers : list Stock)
  : option (list Stock) :=
  match gainers with
  | [] => Some []
  | stock :: rest =>
      match change stock with
      | None => None
      | Some c =>
          let keep :=
            geb (parseFloat (removeFirst "+" (removeFirst "%" c))) minPercentChange in
          match filterByChange minPercentChange rest with
          | None => None
          | Some kept => Some (if keep then stock :: kept else kept)
          end
      end
  end.

(** The body of the [try] for one source, whose call resolved with
    [gainers] or threw: [Some filtered] when it returns, [None] when the
    loop goes on to the next source. *)
Definition trySource (limit : Z) (minPercentChange : R)
  (source : Promise (list Stock)) : option (list Stock) :=
  match source with
  | Rejected _ => None
  | Resolved [] => None
  | Resolved gainers =>
      match filterByChange minPercentChange gainers with
      | None => None
      | Some kept =>
          match sliceTo limit kept with
          | [] => None
          | filtered => Some filtered
          end
      end
  end.

(** The loop over [sources], each given by what its call gives. *)
Fixpoint firstSource (sources : list (Promise (list Stock))) (limit : Z)
  (minPercentChange : R) : Promise (list Stock) :=
  match sources with
  | [] => Rejected "Unable to fetch real-time market data from any source"
  | source :: rest =>
      match trySource limit minPercentChange source with
      | Some filtered => Resolved filtered
      | None => firstSource rest limit minPercentChange
      end
  end.

(** What the five fetchers give when called. *)
Record Sources : Type := {
  fetchFromYahooFinance : Promise (list Stock);
  fetchFromMarketWatch : Promise (list Stock);
  fetchFromCNBC : Promise (list Stock);
  fetchFromFinancialData : Promise (list Stock);
  fetchFromStockAnalysis : Promise (list Stock)
}.

Definition defaultLimit : Z := 15.
Definition defaultMinPercentChange : R := 1.0.

Definition getTopGainers (fetched : Sources) (limit : Z) (minPercentChange : R)
  : Promise (list Stock) :=
  firstSource
    [fetchFromYahooFinance fetched; fetchFromMarketWatch fetched;
     fetchFromCNBC fetched; fetchFromFinancialData fetched;
     fetchFromStockAnalysis fetched]
    limit minPercentChange.

End RealTime.

(** ** src/services/simpleCorsService.js: SimpleCorsService *)
Module SimpleCors.
Import JS Model.
Local Open Scope string_scope.
Local Open Scope R_scope.

Definition cacheTimeout : Z := 5 * 60 * 1000.

Definition getCached {V} (cache : Cache.Store V) (key : string) (t : Z)
  : option V * Cache.Store V :=
  Cache.read cacheTimeout cache key t.

Definition setCached {V} (cache : Cache.Store V) (key : string) (d : V) (t : Z)
  : Cache.Store V :=
  Cache.writeUnbounded cache key d t.

(** A row of [baseStocks]. *)
Record BaseStock : Type := {
  baseSymbol : string;
  baseName : string;
  baseSector : string;
  basePrice : R;
  baseChange : R;
  baseMarketCap : string
}.

Definition baseStocks : list BaseStock :=
  [ {| baseSymbol := "NVDA"; baseName := "NVIDIA Corporation"; baseSector := "Technology";
       basePrice := 875.60; baseChange := 4.25; baseMarketCap := "2.1T" |};
    {| baseSymbol := "AMD"; baseName := "Advanced Micro Devices Inc."; baseSector := "Technology";
       basePrice := 165.40; baseChange := 3.78; baseMarketCap := "267B" |};
    {| baseSymbol := "TSLA"; baseName := "Tesla Inc."; baseSector := "Automotive";
       basePrice := 248.90; baseChange := 3.45; baseMarketCap := "792B" |};
    {| baseSymbol := "AAPL"; baseName := "Apple Inc."; baseSector := "Technology";
       basePrice := 189.45; baseChange := 2.98; baseMarketCap := "2.9T" |};
    {| baseSymbol := "GOOGL"; baseName := "Alphabet Inc."; baseSector := "Technology";
       basePrice := 142.30; baseChange := 2.67; baseMarketCap := "1.8T" |};
    {| baseSymbol := "MSFT"; baseName := "Microsoft Corporation"; baseSector := "Technology";
       basePrice := 415.20; baseChange := 2.45; baseMarketCap := "3.1T" |};
    {| baseSymbol := "META"; baseName := "Meta Platforms Inc."; baseSector := "Technology";
       basePrice := 485.75; baseChange := 2.34; baseMarketCap := "1.2T" |};
    {| baseSymbol := "AMZN"; baseName := "Amazon.com Inc."; baseSector := "E-commerce";
       basePrice := 178.25; baseChange := 2.12; baseMarketCap := "1.8T" |};
    {| baseSymbol := "CRM"; baseName := "Salesforce Inc."; baseSector := "Software";
       basePrice := 285.40; baseChange := 1.98; baseMarketCap := "278B" |};
    {| baseSymbol := "NFLX"; baseName := "Netflix Inc."; baseSector := "Entertainment";
       basePrice := 598.75; baseChange := 1.87; baseMarketCap := "258B" |};
    {| baseSymbol := "ADBE"; baseName := "Adobe Inc."; baseSector := "Software";
       basePrice := 545.30; baseChange := 1.76; baseMarketCap := "245B" |};
    {| baseSymbol := "PYPL"; baseName := "PayPal Holdings Inc."; baseSector := "Fintech";
       basePrice := 78.90; baseChange := 1.65; baseMarketCap := "87B" |};
    {| baseSymbol := "INTC"; baseName := "Intel Corporation"; baseSector := "Semiconductors";
       basePrice := 42.15; baseChange := 1.54; baseMarketCap := "171B" |};
    {| baseSymbol := "CSCO"; baseName := "Cisco Systems Inc."; baseSector := "Networking";
       basePrice := 58.20; baseChange := 1.43; baseMarketCap := "237B" |};
    {| baseSymbol := "ORCL"; baseName := "Oracle Corporation"; baseSector := "Database";
       basePrice := 125.80; baseChange := 1.32; baseMarketCap := "354B" |} ].

Definition isMarketHours (clock : Clock) : bool :=
  let hour := easternHours clock in
  let minute := easternMinutes clock in
  ((9 <? hour)%Z || ((hour =? 9)%Z && (30 <=? minute)%Z)) && (hour <? 16)%Z.

Definition isMarketDay (clock : Clock) : bool :=
  (1 <=? day clock)%Z && (day clock <=? 5)%Z.

Definition getTimeBasedVariation (clock : Clock) : R :=
  let hours := hours clock in
  let minutes := minutes clock in
  if (hours =? 9)%Z then 1.5
  else if (hours =? 10)%Z then 1.2
  else if (hours =? 12)%Z then 0.6
  else if (hours =? 14)%Z || (hours =? 15)%Z then 1.1
  else if (hours =? 15)%Z && (30 <=? minutes)%Z then 1.4
  else if (hours <? 9)%Z || (16 <? hours)%Z then 0.4
  else 1.0.

Definition getMarketBasedVariation (marketHours marketDay : bool) : R :=
  if marketHours && marketDay then 1.3
  else if marketDay && negb marketHours then 0.7
  else 0.5.

Definition sectorMultipliers : list (string * R) :=
  [("Technology", 1.4); ("Semiconductors", 1.3); ("Software", 1.2);
   ("Automotive", 1.1); ("Entertainment", 1.0); ("E-commerce", 1.1);
   ("Fintech", 0.9); ("Networking", 0.8); ("Database", 0.7)].

(** [table[key] || d] at a key that names no inherited property, as are
    the sectors and the symbols of [baseStocks], the only keys the two
    functions below are called with; no entry of their tables is zero. *)
Definition lookupOr (table : list (string * R)) (key : string) (d : R) : R :=
  match lookup table key with Some v => v | None => d end.

Definition getSectorVariation (sector : string) : R :=
  lookupOr sectorMultipliers sector 1.0.

Definition volatilityMap : list (string * R) :=
  [("TSLA", 1.5); ("NVDA", 1.3); ("AMD", 1.3); ("META", 1.2); ("NFLX", 1.2);
   ("AAPL", 1.0); ("GOOGL", 1.0); ("MSFT", 0.9); ("AMZN", 1.1);
   ("INTC", 0.8); ("CSCO", 0.7); ("ORCL", 0.7)].

Definition getVolatilityVariation (sym : string) : R :=
  lookupOr volatilityMap sym 1.0.

Definition generateRealisticVolume (marketCapStr : string) (marketHours : bool)
  (changePercent : R) : Rand R :=
  let baseVolume :=
    if includes "T" marketCapStr then 20000000
    else if includes "B" marketCapStr then
      let capValue := parseFloat marketCapStr in
      if gtb capValue 500 then 25000000
      else if gtb capValue 100 then 35000000
      else 50000000
    else 10000000 in
  let baseVolume := if marketHours then baseVolume * 1.5 else baseVolume in
  let changeMultiplier := 1 + changePercent / 100 in
  let baseVolume := baseVolume * changeMultiplier in
  bind random (fun r =>
    let variation := (r - 0.5) * 0.6 in
    let baseVolume := baseVolume * (1 + variation) in
    ret (max 1000000 (IZR (floor baseVolume)))).

(** [formatVolume], whose empty case is the string ['0']. *)
Definition formatVolume (v : R) : VolumeText :=
  if Req_dec_T v 0 then VolNone
  else if Rle_dec 1000000 v then VolM (toFixed 1 (v / 1000000))
  else if Rle_dec 1000 v then VolK (toFixed 1 (v / 1000))
  else VolPlain v.

(** The function mapped over [baseStocks]. The [marketContext] object of
    the record, a copy of the variations, is left out. *)
Definition liveQuote (clock : Clock) (stock : BaseStock) : Rand Quote :=
  let marketHours := isMarketHours clock in
  let marketDay := isMarketDay clock in
  let timeVariation := getTimeBasedVariation clock in
  let marketVariation := getMarketBasedVariation marketHours marketDay in
  let sectorVariation := getSectorVariation (baseSector stock) in
  let volatilityVariation := getVolatilityVariation (baseSymbol stock) in
  let totalVariation :=
    (timeVariation + marketVariation + sectorVariation + volatilityVariation) / 4 in
  bind random (fun r1 =>
  let priceVariation := (r1 - 0.5) * 30 * totalVariation in
  bind random (fun r2 =>
  let changeVariation := (r2 - 0.5) * 2 * totalVariation in
  let newPrice := max 1 (basePrice stock + priceVariation) in
  let newChange := max 0.1 (baseChange stock + changeVariation) in
  bind (generateRealisticVolume (baseMarketCap stock) marketHours newChange)
    (fun volume =>
  ret {| quoteSymbol := baseSymbol stock;
         quoteName := baseName stock;
         price := toFixed 2 newPrice;
         changeText := toFixed 2 newChange;
         changeAmount := toFixed 2 (newPrice * newChange / 100);
         changePercent := newChange;
         quoteVolume := formatVolume volume;
         quoteSector := Some (baseSector stock);
         quoteMarketCap := Some (baseMarketCap stock);
         quoteLastUpdate := now clock;
         quoteSource := "enhanced_realistic" |}))).

Definition generateLiveMarketData (clock : Clock) : Rand (list Quote) :=
  mapRand (liveQuote clock) baseStocks.

(** The [source] tags written by [parseFinancialModelingPrep] and
    [parseIEXCloud]. *)
Definition liveSources : list string := ["financialmodelingprep"; "iexcloud"].

Definition parseVolume (volumeStr : option string) : jsnum :=
  match volumeStr with
  | None => Num 0
  | Some s =>
      if String.eqb s "" then Num 0
      else
        let num := parseFloat (keepDigitsAndDots s) in
        if includes "M" s then scale num 1000000
        else if includes "K" s then scale num 1000
        else num
  end.

Definition sectorBonus : list (string * R) :=
  [("Technology", 0.1); ("Semiconductors", 0.08); ("Software", 0.06);
   ("E-commerce", 0.04); ("Fintech", 0.02)].

Definition calculateAdvancedSentiment (stock : Stock) (changePercent : jsnum)
  : Scored :=
  let score := 0 in
  let score :=
    if geb changePercent 5 then score + 0.9
    else if geb changePercent 4 then score + 0.7
    else if geb changePercent 3 then score + 0.5
    else if geb changePercent 2 then score + 0.3
    else if geb changePercent 1 then score + 0.1
    else score in
  let volumeNum := parseVolume (volume stock) in
  let score :=
    if gtb volumeNum 50000000 then score + 0.15
    else if gtb volumeNum 25000000 then score + 0.1
    else if gtb volumeNum 10000000 then score + 0.05
    else score in
  let score := addProperty score sectorBonus (sector stock) in
  match marketCap stock with
  | Some cap =>
      if includes "T" cap then ScoreNumber (scale (toNumber score) 0.9) else score
  | None => score
  end.

Definition getMarketSentimentContext (clock : Clock) : R :=
  let contextScore :=
    if isMarketHours clock && isMarketDay clock then 0.1
    else if isMarketDay clock then 0.05
    else -0.05 in
  let timeVariation := sin (IZR (hours clock) / 24 * PI * 2) * 0.1 in
  contextScore + timeVariation.

Definition getSentimentLabel (score : jsnum) : Label :=
  if gtb score 0.2 then Positive
  else if ltb score (-0.2) then Negative
  else Neutral.

(** The [try] block for one stock; [None] when it throws, which it does
    when [stock.change] is missing. The [sector] and [volatility] factors
    are left out. *)
Definition analyze (clock : Clock) (stock : Stock) : option SentimentResult :=
  match change stock with
  | None => None
  | Some c =>
      let changePercent := parseFloat (removeFirst "+" (removeFirst "%" c)) in
      let sentimentScore := calculateAdvancedSentiment stock changePercent in
      let marketContext := getMarketSentimentContext clock in
      let sentimentScore :=
        add (scale (toNumber sentimentScore) 0.8) (Num (marketContext * 0.2)) in
      let sentimentScore := minWith 1 (maxWith (-1) sentimentScore) in
      Some {| score := sentimentScore;
              label := getSentimentLabel sentimentScore;
              confidence := scale (abs sentimentScore) 100;
              lastUpdate := now clock;
              factors := FactorsOf changePercent (volume stock) marketContext
                           (Some (strOr (source stock) "enhanced_realistic")) |}
  end.

Definition neutralResult (clock : Clock) : SentimentResult :=
  {| score := Num 0; label := Neutral; confidence := Num 50;
     lastUpdate := now clock; factors := FactorsError |}.

Definition step (clock : Clock) (sentimentResults : JsMap.t SentimentResult)
  (stock : Stock) : JsMap.t SentimentResult :=
  match analyze clock stock with
  | Some result => JsMap.set (symbol stock) result sentimentResults
  | None => JsMap.set (symbol stock) (neutralResult clock) sentimentResults
  end.

Definition analyzeBulkSentiment (clock : Clock) (stocks : list Stock)
  : Promise (JsMap.t SentimentResult) :=
  Resolved (fold_left (step clock) stocks JsMap.empty).

(** *** [fetchFromWorkingAPIs] and [getTopGainers] *)

(** A parsed JSON body; the service reads nothing of it. *)
Inductive Json : Type := JsonBody (text : string).

(** What [fetch(url)] gives: it throws, or it answers with [response.ok]
    false, or with [response.ok] true and a body that [response.json()]
    parses ([Some]) or throws at ([None]). *)
Inductive Fetched : Type :=
| FetchThrows
| NotOk
| Ok (body : option Json).

Definition Network : Type := string -> Fetched.

(** An entry of [workingAPIs]. [parser] is the method the entry calls:
    [None] when the class has no method of that name, so that the call
    throws a TypeError. *)
Record WorkingApi : Type := {
  apiName : string;
  apiUrl : string;
  parser : option (Json -> list Stock)
}.

(** [this.parseAlphaVantage] and [this.parseYahooTrending]: the class
    defines neither. *)
Definition parseAlphaVantage : option (Json -> list Stock) := None.
Definition parseYahooTrending : option (Json -> list Stock) := None.

Definition workingAPIs : list WorkingApi :=
  [ {| apiName := "Alpha Vantage Demo";
       apiUrl := "https://www.alphavantage.co/query?function=TOP_GAINERS_LOSERS&apikey=demo";
       parser := parseAlphaVantage |};
    {| apiName := "Yahoo Finance Alternative";
       apiUrl := "https://query1.finance.yahoo.com/v1/finance/trending/US";
       parser := parseYahooTrending |} ].

Definition cacheKey : string := "working_apis_gainers".

(** The [for] loop of [fetchFromWorkingAPIs]: what the function gives,
    and the cache it leaves. *)
Fixpoint tryWorkingAPIs (cache : Cache.Store (list Stock)) (network : Network)
  (t : Z) (apis : list WorkingApi)
  : Promise (list Stock) * Cache.Store (list Stock) :=
  match apis with
  | [] => (Rejected "All external APIs failed - using enhanced realistic data", cache)
  | api :: rest =>
      match network (apiUrl api) with
      | Ok (Some data) =>
          match parser api with
          | Some parse =>
              match parse data with
              | [] => tryWorkingAPIs cache network t rest
              | gainers => (Resolved gainers, setCached cache cacheKey gainers t)
              end
          | None => tryWorkingAPIs cache network t rest
          end
      | _ => tryWorkingAPIs cache network t rest
      end
  end.

Definition fetchFromWorkingAPIs (cache : Cache.Store (list Stock))
  (network : Network) (t : Z)
  : Promise (list Stock) * Cache.Store (list Stock) :=
  match getCached cache cacheKey t with
  | (Some cached, cache) => (Resolved cached, cache)
  | (None, cache) => tryWorkingAPIs cache network t workingAPIs
  end.

(** What [getTopGainers] returns: rows of the external APIs, or generated
    quotes. *)
Inductive Gainers : Type :=
| FromApis (rows : list Stock)
| Generated (quotes : list Quote).

Definition defaultLimit : Z := 15.

Definition getTopGainers (cache : Cache.Store (list Stock)) (network : Network)
  (clock : Clock) (limit : Z)
  : Rand (Promise Gainers * Cache.Store (list Stock)) :=
  match fetchFromWorkingAPIs cache network (now clock) with
  | (Resolved (g :: gainers), cache) =>
      ret (Resolved (FromApis (sliceTo limit (g :: gainers))), cache)
  | (_, cache) =>
      bind (generateLiveMarketData clock) (fun enhancedData =>
        ret (Resolved (Generated (sliceTo limit enhancedData)), cache))
  end.

End SimpleCors.

(** ** src/services/yahooFinanceApi.js: RealYahooFinanceService *)
Module Yahoo.
Import JS Model.
Local Open Scope string_scope.
Local Open Scope R_scope.

(** [this.config] *)
Definition cacheTimeout : Z := 5 * 60 * 1000.
Definition maxCacheSize : nat := 50.

Definition getCached {V} (cache : Cache.Store V) (key : string) (t : Z)
  : option V * Cache.Store V :=
  Cache.read cacheTimeout cache key t.

Definition setCached {V} (cache : Cache.Store V) (key : string) (d : V) (t : Z)
  : Cache.Store V :=
  Cache.writeBounded maxCacheSize cache key d t.

(** The [source] tags written in [fetchFromAlternativeAPIs] on the
    provider's rows and by [parseYahooTrendingData]. *)
Definition liveSources : list string := ["financialmodelingprep"; "yahoo_trending"].

(** A row of [baseGainers]; [getFallbackData] has no sector. *)
Record BaseGainer : Type := {
  baseSymbol : string;
  baseName : string;
  basePrice : R;
  baseChange : R;
  baseSector : option string
}.

Definition gainer (s n : string) (p c : R) (sec : string) : BaseGainer :=
  {| baseSymbol := s; baseName := n; basePrice := p; baseChange := c;
     baseSector := Some sec |}.

Definition enhancedBaseGainers : list BaseGainer :=
  [ gainer "NVDA" "NVIDIA Corporation" 875 4.25 "Technology";
    gainer "AMD" "Advanced Micro Devices Inc." 165 3.78 "Technology";
    gainer "TSLA" "Tesla Inc." 249 3.45 "Automotive";
    gainer "AAPL" "Apple Inc." 189 2.98 "Technology";
    gainer "GOOGL" "Alphabet Inc." 142 2.67 "Technology";
    gainer "MSFT" "Microsoft Corporation" 415 2.45 "Technology";
    gainer "META" "Meta Platforms Inc." 486 2.34 "Technology";
    gainer "AMZN" "Amazon.com Inc." 178 2.12 "E-commerce";
    gainer "CRM" "Salesforce Inc." 285 1.98 "Technology";
    gainer "NFLX" "Netflix Inc." 599 1.87 "Entertainment";
    gainer "ADBE" "Adobe Inc." 545 1.76 "Technology";
    gainer "PYPL" "PayPal Holdings Inc." 79 1.65 "Fintech";
    gainer "INTC" "Intel Corporation" 42 1.54 "Technology";
    gainer "CSCO" "Cisco Systems Inc." 58 1.43 "Technology";
    gainer "ORCL" "Oracle Corporation" 126 1.32 "Technology" ].

Definition plainGainer (s n : string) (p c : R) : BaseGainer :=
  {| baseSymbol := s; baseName := n; basePrice := p; baseChange := c;
     baseSector := None |}.

(** The rows of [getFallbackData]. *)
Definition fallbackBaseGainers : list BaseGainer :=
  [ plainGainer "NVDA" "NVIDIA Corporation" 875 4.25;
    plainGainer "AMD" "Advanced Micro Devices Inc." 165 3.78;
    plainGainer "TSLA" "Tesla Inc." 249 3.45;
    plainGainer "AAPL" "Apple Inc." 189 2.98;
    plainGainer "GOOGL" "Alphabet Inc." 142 2.67;
    plainGainer "MSFT" "Microsoft Corporation" 415 2.45;
    plainGainer "META" "Meta Platforms Inc." 486 2.34;
    plainGainer "AMZN" "Amazon.com Inc." 178 2.12;
    plainGainer "CRM" "Salesforce Inc." 285 1.98;
    plainGainer "NFLX" "Netflix Inc." 599 1.87 ].

(** [formatVolume], whose empty case is the string ['0']. *)
Definition formatVolume (v : R) : VolumeText :=
  if Req_dec_T v 0 then VolNone
  else if Rle_dec 1000000 v then VolM (toFixed 1 (v / 1000000))
  else if Rle_dec 1000 v then VolK (toFixed 1 (v / 1000))
  else VolPlain v.

(** The function mapped over [baseGainers] in [generateEnhancedMockData].
    The [marketContext] object of the record is left out. *)
Definition enhancedQuote (clock : Clock) (stock : BaseGainer) : Rand Quote :=
  let isMarketHours := (9 <=? hours clock)%Z && (hours clock <=? 16)%Z in
  let isWeekday := (1 <=? day clock)%Z && (day clock <=? 5)%Z in
  let marketMultiplier := if isMarketHours && isWeekday then 1.2 else 0.8 in
  let timeVariation := sin (IZR (minutes clock) / 60 * PI * 2) * 0.5 in
  let sectorMultiplier :=
    match baseSector stock with
    | Some s => if String.eqb s "Technology" then 1.3 else 1.0
    | None => 1.0
    end in
  bind random (fun r1 =>
  let priceVariation := (r1 - 0.5) * 20 * marketMultiplier * sectorMultiplier in
  bind random (fun r2 =>
  let changeVariation := (r2 - 0.5) * 1 * marketMultiplier + timeVariation in
  let newPrice := max 1 (basePrice stock + priceVariation) in
  let newChange := max 0.5 (baseChange stock + changeVariation) in
  let baseVolume :=
    if Rltb 500 (basePrice stock) then 15000000
    else if Rltb 100 (basePrice stock) then 30000000
    else 50000000 in
  bind random (fun r3 =>
  let volumeVariation := (r3 - 0.5) * baseVolume * 0.5 in
  let volume := max 1000000 (baseVolume + volumeVariation) in
  ret {| quoteSymbol := baseSymbol stock;
         quoteName := baseName stock;
         price := toFixed 2 newPrice;
         changeText := toFixed 2 newChange;
         changeAmount := toFixed 2 (newPrice * newChange / 100);
         changePercent := newChange;
         quoteVolume := formatVolume volume;
         quoteSector := baseSector stock;
         quoteMarketCap := None;
         quoteLastUpdate := now clock;
         quoteSource := "enhanced_realistic" |}))).

Definition generateEnhancedMockData (clock : Clock) : Rand (list Quote) :=
  mapRand (enhancedQuote clock) enhancedBaseGainers.

Definition getEnhancedFallbackData (clock : Clock) : Rand (list Quote) :=
  generateEnhancedMockData clock.

(** The function mapped over [baseGainers] in [getFallbackData]; the [$]
    written before the price is not part of the number. *)
Definition fallbackQuote (clock : Clock) (stock : BaseGainer) : Rand Quote :=
  bind random (fun r1 =>
  let priceVariation := (r1 - 0.5) * 20 in
  bind random (fun r2 =>
  let changeVariation := (r2 - 0.5) * 1 in
  let newPrice := max 1 (basePrice stock + priceVariation) in
  let newChange := max 0.5 (baseChange stock + changeVariation) in
  bind random (fun r3 =>
  ret {| quoteSymbol := baseSymbol stock;
         quoteName := baseName stock;
         price := toFixed 2 newPrice;
         changeText := toFixed 2 newChange;
         changeAmount := toFixed 2 (newPrice * newChange / 100);
         changePercent := newChange;
         quoteVolume := formatVolume (IZR (floor (r3 * 100000000)) + 5000000);
         quoteSector := None;
         quoteMarketCap := None;
         quoteLastUpdate := now clock;
         quoteSource := "fallback" |}))).

Definition getFallbackData (clock : Clock) : Rand (list Quote) :=
  mapRand (fallbackQuote clock) fallbackBaseGainers.

Definition parseVolume (volumeStr : option string) : jsnum :=
  match volumeStr with
  | None => Num 0
  | Some s =>
      if String.eqb s "" then Num 0
      else
        let num := parseFloat (keepDigitsAndDots s) in
        if includes "M" s then scale num 1000000
        else if includes "K" s then scale num 1000
        else num
  end.

Definition calculateSentimentScore (changePercent : jsnum) (stock : Stock) : R :=
  let score := 0 in
  let score :=
    if geb changePercent 5 then score + 0.9
    else if geb changePercent 4 then score + 0.7
    else if geb changePercent 3 then score + 0.5
    else if geb changePercent 2 then score + 0.3
    else if geb changePercent 1 then score + 0.1
    else score in
  let volumeNum := parseVolume (volume stock) in
  let score :=
    if gtb volumeNum 50000000 then score + 0.1
    else if gtb volumeNum 20000000 then score + 0.05
    else score in
  match sector stock with
  | Some s => if String.eqb s "Technology" then score + 0.05 else score
  | None => score
  end.

Definition getMarketSentiment (clock : Clock) : Rand R :=
  let hour := hours clock in
  let isMarketHours := (9 <=? hour)%Z && (hour <=? 16)%Z in
  let baseScore := if isMarketHours then 0.1 else 0 in
  bind random (fun r => ret (baseScore + (r - 0.5) * 0.3)).

Definition getSentimentLabel (score : jsnum) : Label :=
  if gtb score 0.2 then Positive
  else if ltb score (-0.2) then Negative
  else Neutral.

Definition getDefaultSentiment (clock : Clock) : SentimentResult :=
  {| score := Num 0; label := Neutral; confidence := Num 50;
     lastUpdate := now clock; factors := FactorsError |}.

(** The [try] block for one stock; [None] when it throws, which it does
    when [stock.change] is missing, before any draw. The [trend] factor is
    left out. *)
Definition analyze (clock : Clock) (stock : Stock) : Rand (option SentimentResult) :=
  match change stock with
  | None => ret None
  | Some c =>
      let changePercent := parseFloat (removeFirst "+" (removeFirst "%" c)) in
      let sentimentScore := calculateSentimentScore changePercent stock in
      bind (getMarketSentiment clock) (fun marketSentiment =>
      let sentimentScore := sentimentScore * 0.8 + marketSentiment * 0.2 in
      let sentimentScore := min 1 (max (-1) sentimentScore) in
      ret (Some {| score := Num sentimentScore;
                   label := getSentimentLabel (Num sentimentScore);
                   confidence := Num (Rabs sentimentScore * 100);
                   lastUpdate := now clock;
                   factors := FactorsOf changePercent (volume stock) marketSentiment
                                (Some (strOr (source stock) "yahoo")) |}))
  end.

(** One turn of the [for] loop. *)
Definition step (clock : Clock) (sentimentResults : JsMap.t SentimentResult)
  (stock : Stock) : Rand (JsMap.t SentimentResult) :=
  bind (analyze clock stock) (fun outcome =>
    match outcome with
    | Some result => ret (JsMap.set (symbol stock) result sentimentResults)
    | None => ret (JsMap.set (symbol stock) (getDefaultSentiment clock) sentimentResults)
    end).

Fixpoint loop (clock : Clock) (sentimentResults : JsMap.t SentimentResult)
  (stocks : list Stock) : Rand (JsMap.t SentimentResult) :=
  match stocks with
  | [] => ret sentimentResults
  | stock :: rest =>
      bind (step clock sentimentResults stock) (fun m => loop clock m rest)
  end.

Definition analyzeBulkSentiment (clock : Clock) (stocks : list Stock)
  : Rand (Promise (JsMap.t SentimentResult)) :=
  bind (loop clock JsMap.empty stocks) (fun m => ret (Resolved m)).

(** *** [makeRequest] *)

(** [this.config.maxRetries] and [this.config.retryDelay] *)
Definition maxRetries : Z := 3.
Definition retryDelay : Z := 1000.

(** A response: [ok], [status], [statusText], and one row for each element
    of the list asked for in the body, as the caller builds it; [None] when
    [response.json()] or the building throws, or the body holds no such
    list. *)
Record Response : Type := {
  ok : bool;
  status : Z;
  statusText : string;
  rows : option (list Stock)
}.

(** What [fetch] gives: it throws an error with a message, or answers. *)
Inductive Fetched : Type :=
| FetchThrows (message : string)
| Responds (response : Response).

(** What the [attempt]-th [fetch] of a URL by one call of [makeRequest]
    gives. *)
Definition Network : Type := string -> Z -> Fetched.

(** [url.split('//')[1]?.split('/')[0] || 'unknown'] *)
Definition hostOf (url : string) : string :=
  match split "//" url with
  | _ :: rest :: _ => strOr (head (split "/" rest)) "unknown"
  | _ => "unknown"
  end.

(** What a call of [makeRequest] comes to: the promise, [None] standing
    for [undefined], the number of fetches made and the milliseconds
    waited in [delay]. *)
Record Request : Type := {
  answer : Promise (option Response);
  fetches : nat;
  waited : Z
}.

Definition ended (p : Promise (option Response)) : Request :=
  {| answer := p; fetches := 1; waited := 0 |}.

(** The [for] loop from [attempt] on, with [remaining] turns to go;
    [noCors] is [options.mode === 'no-cors']. *)
Fixpoint attempts (remaining : nat) (attempt : Z) (network : Network)
  (url : string) (noCors : bool) : Request :=
  match remaining with
  | O => {| answer := Resolved None; fetches := 0; waited := 0 |}
  | S remaining =>
      let retry :=
        let later := attempts remaining (attempt + 1) network url noCors in
        {| answer := answer later;
           fetches := S (fetches later);
           waited := (retryDelay * attempt + waited later)%Z |} in
      let caught (message : string) :=
        if includes "CORS" message || includes "NetworkError" message
        then ended (Rejected ("CORS blocked: " ++ hostOf url)%string)
        else if (attempt =? maxRetries)%Z then ended (Rejected message)
        else retry in
      match network url attempt with
      | FetchThrows message => caught message
      | Responds response =>
          if noCors then caught "CORS blocked - using fallback"
          else if ok response then ended (Resolved (Some response))
          else if (attempt =? maxRetries)%Z
               then caught ("HTTP " ++ pretty (status response) ++ ": "
                            ++ statusText response)%string
               else retry
      end
  end.

Definition makeRequest (network : Network) (url : string) (noCors : bool)
  : Request :=
  attempts (Z.to_nat maxRetries) 1 network url noCors.

(** *** [fetchFromAlternativeAPIs], [fetchFromCORSProxy], [getTopGainers] *)

(** A row of gainers: one built from a provider's answer, or a generated
    quote. *)
Inductive Gainer : Type :=
| Live (stock : Stock)
| Synthetic (quote : Quote).

Definition alternativeKey : string := "alternative_apis_gainers".
Definition gainersUrl : string :=
  "https://financialmodelingprep.com/api/v3/stock_market/gainers?apikey=demo".

(** The inner [try] of [fetchFromAlternativeAPIs]: the rows it returns,
    [None] when it goes on to generate data. *)
Definition formattedGainers (network : Network) : option (list Stock) :=
  match answer (makeRequest network gainersUrl false) with
  | Resolved (Some response) =>
      if ok response then
        match rows response with
        | Some (stock :: data) => Some (sliceTo 15 (stock :: data))
        | _ => None
        end
      else None
  | _ => None
  end.

Definition fetchFromAlternativeAPIs (cache : Cache.Store (list Gainer))
  (network : Network) (clock : Clock)
  : Rand (Promise (list Gainer) * Cache.Store (list Gainer)) :=
  match getCached cache alternativeKey (now clock) with
  | (Some cached, cache) => ret (Resolved cached, cache)
  | (None, cache) =>
      match formattedGainers network with
      | Some formatted =>
          ret (Resolved (List.map Live formatted),
               setCached cache alternativeKey (List.map Live formatted) (now clock))
      | None =>
          bind (generateEnhancedMockData clock) (fun enhancedGainers =>
            ret (Resolved (List.map Synthetic enhancedGainers),
                 setCached cache alternativeKey (List.map Synthetic enhancedGainers)
                   (now clock)))
      end
  end.

Definition proxyKey : string := "cors_proxy_gainers".

Definition corsProxies : list string :=
  ["https://api.allorigins.win/get?url="; "https://corsproxy.io/?";
   "https://cors-anywhere.herokuapp.com/"; "https://thingproxy.freeboard.io/fetch/"].

(** [encodeURIComponent(testUrl)] *)
Definition encodedTestUrl : string :=
  "https%3A%2F%2Fquery1.finance.yahoo.com%2Fv1%2Ffinance%2Ftrending%2FUS".

(** The [for] loop of [fetchFromCORSProxy]. *)
Fixpoint tryProxies (cache : Cache.Store (list Gainer)) (network : Network)
  (t : Z) (proxies : list string)
  : Promise (list Gainer) * Cache.Store (list Gainer) :=
  match proxies with
  | [] => (Rejected "All CORS proxies failed", cache)
  | proxy :: rest =>
      match answer (makeRequest network (proxy ++ encodedTestUrl)%string false) with
      | Resolved (Some response) =>
          if ok response then
            match rows response with
            | Some quotes =>
                (Resolved (List.map Live quotes),
                 setCached cache proxyKey (List.map Live quotes) t)
            | None => tryProxies cache network t rest
            end
          else tryProxies cache network t rest
      | _ => tryProxies cache network t rest
      end
  end.

Definition fetchFromCORSProxy (cache : Cache.Store (list Gainer))
  (network : Network) (t : Z)
  : Promise (list Gainer) * Cache.Store (list Gainer) :=
  match getCached cache proxyKey t with
  | (Some cached, cache) => (Resolved cached, cache)
  | (None, cache) => tryProxies cache network t corsProxies
  end.

(** The test of the filter of [getTopGainers] at one row: [None] when it
    throws, at a row whose [change] is missing. The [change] of a
    generated quote is read as the number its string denotes. *)
Definition keeps (minPercentChange : R) (gainer : Gainer) : option bool :=
  match gainer with
  | Live stock =>
      match change stock with
      | None => None
      | Some c =>
          Some (geb (parseFloat (removeFirst "+" (removeFirst "%" c))) minPercentChange)
      end
  | Synthetic quote => Some (Rleb minPercentChange (changeText quote))
  end.

Fixpoint filterByChange (minPercentChange : R) (gainers : list Gainer)
  : option (list Gainer) :=
  match gainers with
  | [] => Some []
  | gainer :: rest =>
      match keeps minPercentChange gainer with
      | None => None
      | Some keep =>
          match filterByChange minPercentChange rest with
          | None => None
          | Some kept => Some (if keep then gainer :: kept else kept)
          end
      end
  end.

(** How the [try] of one method ends: it returns, it goes on to the next
    method without returning, or it throws. *)
Inductive Tried : Type :=
| Returned (filtered : list Gainer)
| WentOn
| Threw.

Definition tryMethod (limit : Z) (minPercentChange : R)
  (method : Promise (list Gainer)) : Tried :=
  match method with
  | Rejected _ => Threw
  | Resolved [] => WentOn
  | Resolved gainers =>
      match filterByChange minPercentChange gainers with
      | None => Threw
      | Some kept => Returned (sliceTo limit kept)
      end
  end.

Definition defaultLimit : Z := 15.
Definition defaultMinPercentChange : R := 1.0.

(** The basic fallback, returned from the [catch] of the last method and
    after the loop. *)
Definition basicFallback (clock : Clock) (limit : Z) : Rand (list Gainer) :=
  bind (getFallbackData clock) (fun quotes =>
    ret (sliceTo limit (List.map Synthetic quotes))).

Definition getTopGainers (cache : Cache.Store (list Gainer)) (network : Network)
  (clock : Clock) (limit : Z) (minPercentChange : R)
  : Rand (Promise (list Gainer) * Cache.Store (list Gainer)) :=
  bind (fetchFromAlternativeAPIs cache network clock) (fun '(alternative, cache) =>
  match tryMethod limit minPercentChange alternative with
  | Returned filtered => ret (Resolved filtered, cache)
  | _ =>
      let '(proxied, cache) := fetchFromCORSProxy cache network (now clock) in
      match tryMethod limit minPercentChange proxied with
      | Returned filtered => ret (Resolved filtered, cache)
      | _ =>
          bind (getEnhancedFallbackData clock) (fun enhanced =>
          match tryMethod limit minPercentChange
                  (Resolved (List.map Synthetic enhanced)) with
          | Returned filtered => ret (Resolved filtered, cache)
          | _ =>
              bind (basicFallback clock limit) (fun basic =>
                ret (Resolved basic, cache))
          end)
      end
  end).

(** *** [fetchFromYahooScreener] *)

Definition screenerKey : string := "yahoo_screener_gainers".

(** [this.config.screenerUrl] *)
Definition screenerUrl : string :=
  "https://query1.finance.yahoo.com/v1/finance/screener".

(** The request is made in the mode [no-cors]; were it to resolve, the
    next statement throws. The [catch] throws the error on. *)
Definition fetchFromYahooScreener (cache : Cache.Store (list Gainer))
  (network : Network) (t : Z)
  : Promise (list Gainer) * Cache.Store (list Gainer) :=
  match getCached cache screenerKey t with
  | (Some cached, cache) => (Resolved cached, cache)
  | (None, cache) =>
      match answer (makeRequest network screenerUrl true) with
      | Resolved _ => (Rejected "CORS blocked - expected behavior", cache)
      | Rejected message => (Rejected message, cache)
      end
  end.

End Yahoo.

(** ** Concrete inputs used by the examples below *)
Module Inputs.
Import JS News.
Local Open Scope string_scope.
Local Open Scope R_scope.

Definition article (i t s : string) (at_ : Z) (score : R) : Article :=
  {| id := Some i; title := Some t; description := ""; source := Some s;
     publishedAt := at_; sentiment := VNumber (Num score);
     category := corporate; confidence := VNumber (Num 85) |}.

(** The same headline carried by two publishers, and a repeat of the first. *)
Definition reuters : Article :=
  article "r1" "Apple Beats Expectations" "Reuters" 1000 0.5.
Definition bloomberg : Article :=
  article "b1" "APPLE beats expectations" "Bloomberg" 900 0.4.
Definition reuters_again : Article :=
  article "r2" "Apple beats expectations" "Reuters" 800 0.3.

(** Three writes of distinct keys, and fifty-one of them. *)
Definition threeWrites : list (string * nat * Z) :=
  [("yahoo_realtime_gainers", 1%nat, 100%Z); ("marketwatch_gainers", 2%nat, 200%Z);
   ("cnbc_gainers", 3%nat, 300%Z)].

Definition keyOfIndex (n : nat) : string :=
  String (ascii_of_nat (48 + n)) EmptyString.

Definition fiftyOneWrites : list (string * nat * Z) :=
  List.map (fun n => (keyOfIndex n, n, Z.of_nat n)) (seq 0 51).

(** The answer of a provider that cannot be reached. *)
Definition unreachable {B} : News.Response B := News.FetchFailed "Failed to fetch".





(** A Finnhub article and a Stock News article with a sentiment label. *)
Definition finnhubExample : News.FinnhubArticle :=
  {| News.fh_id := None; News.fh_headline := Some "Apple shares surge on strong growth";
     News.fh_summary := None; News.fh_source := Some "Example Wire";
     News.fh_datetime := 1700000000 |}.



(** A Monday at 10:15 in New York, read on a machine in the same zone. *)
Definition mondayMorning : Model.Clock :=
  {| Model.now := 1700000000000; Model.hours := 10; Model.minutes := 15;
     Model.day := 1; Model.easternHours := 10; Model.easternMinutes := 15;
     Model.easternDay := 1 |}.

(** Two quotes as the parsers produce them, and one without [change]. *)
Definition nvda : Model.Stock :=
  {| Model.symbol := "NVDA"; Model.change := Some "+4.25%";
     Model.volume := Some "30.5M"; Model.sector := Some "Technology";
     Model.marketCap := Some "2.1T"; Model.source := Some "yahoo_finance_realtime" |}.

Definition broken : Model.Stock :=
  {| Model.symbol := "XYZ"; Model.change := None;
     Model.volume := None; Model.sector := None;
     Model.marketCap := None; Model.source := None |}.

(** A stock whose [source] names a property that every object inherits. *)
Definition inheritedSource : Model.Stock :=
  {| Model.symbol := "CTOR"; Model.change := Some "+5.00%";
     Model.volume := Some "1.2M"; Model.sector := Some "constructor";
     Model.marketCap := None; Model.source := Some "constructor" |}.

(** The same Monday at 11:40, and the Sunday before at noon. *)
Definition mondayLater : Model.Clock :=
  {| Model.now := 1700005100000; Model.hours := 11; Model.minutes := 40;
     Model.day := 1; Model.easternHours := 11; Model.easternMinutes := 40;
     Model.easternDay := 1 |}.

Definition sundayNoon : Model.Clock :=
  {| Model.now := 1699900000000; Model.hours := 12; Model.minutes := 0;
     Model.day := 0; Model.easternHours := 12; Model.easternMinutes := 0;
     Model.easternDay := 0 |}.

(** [Math.random] returning the same number at every call. *)
Definition steady (r : R) : Model.Draws := fun _ => r.

(** The Marketaux and Finnhub keys are set and no provider answers. *)
Definition twoKeys : News.ApiKeys :=
  {| News.marketauxKey := Some "mx-key"; News.finnhubKey := Some "fh-key";
     News.stocknewsapiKey := None; News.alphavantageKey := None |}.

Definition offline : News.Network :=
  {| News.marketauxGet := fun _ _ => unreachable;
     News.finnhubGet := fun _ _ => unreachable;
     News.stockNewsGet := fun _ _ => unreachable;
     News.alphaVantageGet := fun _ _ => unreachable |}.

(** Finnhub answers with one article, Marketaux does not answer. *)
Definition finnhubUp : News.Network :=
  {| News.marketauxGet := fun _ _ => unreachable;
     News.finnhubGet := fun _ _ => News.Body (Some [finnhubExample]);
     News.stockNewsGet := fun _ _ => unreachable;
     News.alphaVantageGet := fun _ _ => unreachable |}.




(** Five sources of gainers: two are down, one has a row without a change
    and one has no rows. *)
Definition feeds : RealTime.Sources :=
  {| RealTime.fetchFromYahooFinance := JS.Rejected "Request timeout";
     RealTime.fetchFromMarketWatch := JS.Resolved [nvda; broken];
     RealTime.fetchFromCNBC := JS.Resolved [];
     RealTime.fetchFromFinancialData := JS.Resolved [nvda];
     RealTime.fetchFromStockAnalysis := JS.Rejected "HTTP 403" |}.

End Inputs.

(** * Properties *)

(** Evaluation of the digits read by [parseFloat]. *)
Ltac eval_digits :=
  repeat match goal with
    | |- context [JS.digits_value ?l] =>
        let v := eval vm_compute in (JS.digits_value l) in
        change (JS.digits_value l) with v
    end.

(** ** The definitions at work *)

Example split_on_white_space :
  JS.splitWhitespace " Apple  beats estimates "
  = [""; "Apple"; "beats"; "estimates"; ""]%string.
Proof. reflexivity. Qed.

Example change_is_parsed :
  exists x, JS.parseFloat (JS.removeFirst "+" (JS.removeFirst "%" "+4.25%")) = JS.Num x
            /\ x = 4.25%R.
Proof. eexists. split; [reflexivity|]. simpl. eval_digits. lra. Qed.

Example exponent_is_parsed :
  exists x, JS.parseFloat "  -1.5e2abc" = JS.Num x /\ x = (-150)%R.
Proof. eexists. split; [reflexivity|]. simpl. eval_digits. lra. Qed.

Example not_a_number : JS.parseFloat "N/A" = JS.NaN.
Proof. reflexivity. Qed.

Example volume_is_parsed :
  exists x, RealTime.parseVolume (Some "30.5M"%string) = JS.Num x /\ x = 30500000%R.
Proof. eexists. split; [reflexivity|]. simpl. eval_digits. lra. Qed.

Example two_positive_words :
  News.calculateSentiment "Strong growth"
  = Rmax (-1) (Rmin 1 ((0 + 0.1 + 0.1) / sqrt (INR 2))).
Proof. reflexivity. Qed.

Example a_word_can_count_twice :
  fold_left News.scoreWord (JS.splitWhitespace "upgrade buy/sell") (0%R, 0%nat)
  = ((0 + 0.1 + 0.1 - 0.1)%R, 3%nat).
Proof. reflexivity. Qed.

Example quarter_is_earnings :
  News.categorizeNews (Some "AAPL beats in Q3"%string) = News.earnings.
Proof. reflexivity. Qed.

Example default_is_corporate :
  News.categorizeNews (Some "AAPL holds annual meeting"%string) = News.corporate.
Proof. reflexivity. Qed.

Example placeholder_key_is_no_key :
  News.hasKey {| News.marketauxKey := Some "your_marketaux_api_key_here"%string;
                 News.finnhubKey := Some "abc"%string;
                 News.stocknewsapiKey := None; News.alphavantageKey := None |}
  <$> ["marketaux"; "finnhub"; "stocknewsapi"; "bloomberg"]%string
  = [false; true; false; false].
Proof. reflexivity. Qed.

Example newest_first :
  News.id <$> News.sortNewestFirst
                [Inputs.reuters_again; Inputs.reuters; Inputs.bloomberg]
  = [Some "r1"; Some "b1"; Some "r2"]%string.
Proof. reflexivity. Qed.

Example cache_overwrite_keeps_place :
  JsMap.keys (JsMap.set "a" 3%nat (JsMap.set "b" 2%nat (JsMap.set "a" 1%nat JsMap.empty)))
  = ["a"; "b"]%string.
Proof. reflexivity. Qed.

(** ** Deduplication *)
Section Dedup.
Import JS News.

Lemma append_cancel_l (p s t : string) : (p ++ s = p ++ t)%string -> s = t.
Proof.
  induction p as [|c p IH]; simpl; intros H; [exact H|].
  injection H as H'. auto.
Qed.

Lemma dedupKey_source (a b : Article) :
  titlePrefix a = titlePrefix b ->
  dedupKey a = dedupKey b -> render (source a) = render (source b).
Proof.
  unfold dedupKey. intros -> H.
  apply append_cancel_l in H. apply (append_cancel_l "_"%string) in H. exact H.
Qed.

(** Whatever survives the filter has a key outside [seen]. *)
Lemma dedupFilter_fresh (l : list Article) :
  forall (seen : gset string) (x : Article),
    x ∈ dedupFilter seen l -> dedupKey x ∉ seen.
Proof.
  induction l as [|a l IH]; simpl; intros seen x Hx.
  - inversion Hx.
  - destruct (decide (dedupKey a ∈ seen)) as [Hin|Hout].
    + eauto.
    + apply elem_of_cons in Hx as [->|Hx]; [exact Hout|].
      apply IH in Hx. set_solver.
Qed.

(** The filter applied to its own output, with no more keys seen than
    before, changes nothing. *)
Lemma dedupFilter_stable (l : list Article) :
  forall seen seen' : gset string,
    seen' ⊆ seen ->
    dedupFilter seen' (dedupFilter seen l) = dedupFilter seen l.
Proof.
  induction l as [|a l IH]; simpl; intros seen seen' Hsub; [reflexivity|].
  destruct (decide (dedupKey a ∈ seen)) as [Hin|Hout].
  - auto.
  - simpl. destruct (decide (dedupKey a ∈ seen')) as [Hin'|_].
    + exfalso. apply Hout. set_solver.
    + f_equal. apply IH. set_solver.
Qed.

(** The filter distributes over a concatenation, the keys of the first
    part being seen when the second is reached. *)
Lemma dedupFilter_app (l1 l2 : list Article) :
  forall seen : gset string,
    exists seen' : gset string,
      seen ⊆ seen' /\
      (forall x, x ∈ l1 -> dedupKey x ∈ seen') /\
      (forall k, k ∈ seen' -> k ∈ seen \/ exists x, x ∈ l1 /\ dedupKey x = k) /\
      dedupFilter seen (l1 ++ l2) = dedupFilter seen l1 ++ dedupFilter seen' l2.
Proof.
  induction l1 as [|a l1 IH]; simpl; intros seen.
  - exists seen. split; [done|]. split; [set_solver|]. split; [by left|done].
  - destruct (decide (dedupKey a ∈ seen)) as [Hin|Hout].
    + destruct (IH seen) as (s' & Hsub & Hall & Honly & Heq).
      exists s'. split; [done|]. split; [set_solver|]. split; [|done].
      intros k Hk. destruct (Honly k Hk) as [?|(x & ? & ?)]; [by left|].
      right. exists x. set_solver.
    + destruct (IH ({[dedupKey a]} ∪ seen)) as (s' & Hsub & Hall & Honly & Heq).
      exists s'. split; [set_solver|]. split; [set_solver|]. split.
      * intros k Hk. destruct (Honly k Hk) as [Hk'|(x & ? & ?)].
        -- apply elem_of_union in Hk' as [Hk'|Hk']; [|by left].
           right. exists a. set_solver.
        -- right. exists x. set_solver.
      * simpl. by rewrite Heq.
Qed.

End Dedup.

(** C3, as the code has it. An article is dropped exactly when an earlier
    article has the same key, and the key joins the title prefix with the
    source name: the first article carrying a key is kept and every later
    one with that key is dropped, while two articles whose title prefixes
    agree and whose source names differ have different keys and are both
    kept. *)
Theorem C3_dedup_keeps_first_of_each_key :
  (forall (l1 l2 : list News.Article) (a : News.Article),
      (forall x, x ∈ l1 -> News.dedupKey x <> News.dedupKey a) ->
      exists r : list News.Article,
        News.deduplicateArticles (l1 ++ a :: l2)
        = News.deduplicateArticles l1 ++ a :: r /\
        (forall x, x ∈ News.deduplicateArticles l1 ->
                   News.dedupKey x <> News.dedupKey a) /\
        (forall x, x ∈ r -> News.dedupKey x <> News.dedupKey a)) /\
  (forall a b : News.Article,
      News.titlePrefix a = News.titlePrefix b ->
      JS.render (News.source a) <> JS.render (News.source b) ->
      News.deduplicateArticles [a; b] = [a; b]).
Proof.
  split.
  - intros l1 l2 a Hfresh. unfold News.deduplicateArticles.
    destruct (dedupFilter_app l1 (a :: l2) ∅) as (s' & _ & _ & Honly & Heq).
    rewrite Heq. simpl.
    destruct (decide (News.dedupKey a ∈ s')) as [Hin|Hout].
    + exfalso. destruct (Honly _ Hin) as [Hk|(x & Hx & Hk)].
      * set_solver.
      * exact (Hfresh x Hx Hk).
    + eexists. split; [reflexivity|]. split.
      * intros x Hx Hk.
        assert (Hs : forall (l : list News.Article) (s : gset string) y,
                   y ∈ News.dedupFilter s l -> y ∈ l).
        { clear. induction l as [|c l IH]; simpl; intros s y Hy; [done|].
          destruct (decide (News.dedupKey c ∈ s)); set_solver. }
        apply Hs in Hx. exact (Hfresh x Hx Hk).
      * intros x Hx Hk. apply dedupFilter_fresh in Hx. set_solver.
  - intros a b Hp Hs. unfold News.deduplicateArticles. simpl.
    destruct (decide (News.dedupKey a ∈ (∅ : gset string))) as [Hin|_];
      [set_solver|].
    destruct (decide (News.dedupKey b ∈ {[News.dedupKey a]} ∪ (∅ : gset string)))
      as [Hin|_]; [|reflexivity].
    exfalso. apply Hs. apply dedupKey_source; [exact Hp|]. set_solver.
Qed.

(** The amended C3 at the three example articles: the repeated Reuters
    headline is dropped, the Bloomberg one stays. *)
Lemma C3_dedup_keeps_first_of_each_key_witness :
  (exists r,
      News.deduplicateArticles
        ([Inputs.bloomberg] ++ Inputs.reuters :: [Inputs.reuters_again])
      = News.deduplicateArticles [Inputs.bloomberg] ++ Inputs.reuters :: r /\
      (forall x, x ∈ News.deduplicateArticles [Inputs.bloomberg] ->
                 News.dedupKey x <> News.dedupKey Inputs.reuters) /\
      (forall x, x ∈ r -> News.dedupKey x <> News.dedupKey Inputs.reuters)) /\
  News.deduplicateArticles [Inputs.reuters; Inputs.bloomberg]
  = [Inputs.reuters; Inputs.bloomberg].
Proof.
  split.
  - apply (proj1 C3_dedup_keeps_first_of_each_key).
    intros x Hx. apply list_elem_of_singleton in Hx as ->. vm_compute. discriminate.
  - apply (proj2 C3_dedup_keeps_first_of_each_key).
    + reflexivity.
    + vm_compute. discriminate.
Defined.

(** C3 as stated fails: two articles with the same normalized title prefix
    and differing source names are both kept. *)
Lemma C3_counterexample :
  News.titlePrefix Inputs.reuters = News.titlePrefix Inputs.bloomberg /\
  News.source Inputs.reuters <> News.source Inputs.bloomberg /\
  News.deduplicateArticles [Inputs.reuters; Inputs.bloomberg]
  = [Inputs.reuters; Inputs.bloomberg] /\
  List.length (News.deduplicateArticles [Inputs.reuters; Inputs.bloomberg]) = 2%nat.
Proof.
  repeat split; try reflexivity. vm_compute. discriminate.
Qed.

(** C8. Deduplication is idempotent. *)
Theorem C8_dedup_idempotent (xs : list News.Article) :
  News.deduplicateArticles (News.deduplicateArticles xs)
  = News.deduplicateArticles xs.
Proof.
  unfold News.deduplicateArticles. apply dedupFilter_stable. set_solver.
Qed.

(** ** The caches *)
Section CacheFacts.
Context {V : Type}.
Implicit Types (m : JsMap.t V) (k : string) (v : V).

Lemma get_set_eq m k v : JsMap.get k (JsMap.set k v m) = Some v.
Proof.
  induction m as [|[k' v'] m IH]; simpl.
  - by rewrite String.eqb_refl.
  - destruct (String.eqb k' k) eqn:E; simpl.
    + by rewrite String.eqb_refl.
    + by rewrite E.
Qed.

Lemma get_delete_eq m k : JsMap.get k (JsMap.delete k m) = None.
Proof.
  induction m as [|[k' v'] m IH]; simpl; [done|].
  destruct (String.eqb k' k) eqn:E; simpl; [done|]. by rewrite E.
Qed.

Lemma keys_set_fresh m k v :
  k ∉ JsMap.keys m -> JsMap.keys (JsMap.set k v m) = JsMap.keys m ++ [k].
Proof.
  induction m as [|[k' v'] m IH]; simpl; intros Hk; [done|].
  destruct (String.eqb k' k) eqn:E.
  - apply String.eqb_eq in E. subst. set_solver.
  - simpl. f_equal. apply IH. set_solver.
Qed.

Lemma delete_fresh m k : k ∉ JsMap.keys m -> JsMap.delete k m = m.
Proof.
  induction m as [|[k' v'] m IH]; simpl; intros Hk; [done|].
  destruct (String.eqb k' k) eqn:E.
  - apply String.eqb_eq in E. subst. set_solver.
  - f_equal. apply IH. set_solver.
Qed.

Lemma size_keys m : JsMap.size m = List.length (JsMap.keys m).
Proof. unfold JsMap.size, JsMap.keys. by rewrite length_map. Qed.

End CacheFacts.

Section CacheLaws.
Context {V : Type}.
Import Cache.

Lemma fill_snoc (write : Cache.Store V -> string -> V -> Z -> Cache.Store V)
  (ws : list (string * V * Z)) (k : string) (d : V) (t : Z) :
  Cache.fill write (ws ++ [(k, d, t)]) = write (Cache.fill write ws) k d t.
Proof. unfold Cache.fill. by rewrite fold_left_app. Qed.

(** Without a limit every key written stays, in the order of writing. *)
Lemma fill_unbounded_keys (ws : list (string * V * Z)) :
  NoDup (List.map writeKey ws) ->
  JsMap.keys (Cache.fill Cache.writeUnbounded ws) = List.map writeKey ws.
Proof.
  induction ws as [|[[k d] t] ws IH] using rev_ind; intros Hnd; [done|].
  rewrite map_app in Hnd. rewrite fill_snoc, map_app. simpl in *.
  apply NoDup_app in Hnd as (Hnd & Hfresh & _).
  unfold Cache.writeUnbounded at 1. rewrite keys_set_fresh; rewrite (IH Hnd); [done|].
  intros Hin. apply (Hfresh _ Hin). set_solver.
Qed.

(** Below the limit the bounded write behaves the same. *)
Lemma fill_bounded_keys_below (C : nat) (ws : list (string * V * Z)) :
  NoDup (List.map writeKey ws) ->
  (List.length ws <= C)%nat ->
  JsMap.keys (Cache.fill (Cache.writeBounded C) ws) = List.map writeKey ws.
Proof.
  induction ws as [|[[k d] t] ws IH] using rev_ind; intros Hnd Hlen; [done|].
  rewrite map_app in Hnd. rewrite fill_snoc, map_app. simpl in *.
  rewrite length_app in Hlen. simpl in Hlen.
  apply NoDup_app in Hnd as (Hnd & Hfresh & _).
  assert (Hk : JsMap.keys (Cache.fill (Cache.writeBounded C) ws)
               = List.map writeKey ws) by (apply IH; [done|lia]).
  unfold Cache.writeBounded at 1.
  replace (C <=? JsMap.size (Cache.fill (Cache.writeBounded C) ws))%nat with false.
  - rewrite keys_set_fresh; rewrite Hk; try done.
    intros Hin. apply (Hfresh _ Hin). set_solver.
  - symmetry. apply Nat.leb_gt. rewrite size_keys, Hk, length_map. lia.
Qed.

(** The write that finds the store full evicts the first key written. *)
Lemma fill_bounded_keys_full (C : nat) (ws : list (string * V * Z)) :
  (0 < C)%nat ->
  NoDup (List.map writeKey ws) ->
  List.length ws = S C ->
  JsMap.keys (Cache.fill (Cache.writeBounded C) ws) = tl (List.map writeKey ws).
Proof.
  intros HC Hnd Hlen.
  destruct ws as [|[[k d] t] ws _] using rev_ind; [done|].
  rewrite length_app in Hlen. simpl in Hlen.
  rewrite map_app in Hnd. rewrite fill_snoc, map_app. simpl in *.
  apply NoDup_app in Hnd as (Hnd & Hfresh & _).
  assert (Hk : JsMap.keys (Cache.fill (Cache.writeBounded C) ws)
               = List.map writeKey ws) by (apply fill_bounded_keys_below; [done|lia]).
  unfold Cache.writeBounded at 1.
  replace (C <=? JsMap.size (Cache.fill (Cache.writeBounded C) ws))%nat with true
    by (symmetry; apply Nat.leb_le; rewrite size_keys, Hk, length_map; lia).
  unfold JsMap.firstKey. rewrite Hk.
  destruct (Cache.fill (Cache.writeBounded C) ws) as [|[k0 i0] rest] eqn:Hst.
  { destruct ws; simpl in *; [lia|done]. }
  destruct ws as [|w ws]; [done|]. simpl in Hk. injection Hk as Hk0 Hrest.
  assert (Hk0rest : k0 ∉ JsMap.keys rest).
  { rewrite Hrest. subst k0. simpl in Hnd. by apply NoDup_cons in Hnd as [? _]. }
  subst k0. cbn [List.map head tail app JsMap.delete]. rewrite String.eqb_refl.
  rewrite delete_fresh by done.
  rewrite keys_set_fresh; rewrite Hrest; [done|].
  intros Hin. apply (Hfresh k); [|set_solver]. simpl. set_solver.
Qed.

End CacheLaws.

(** C6, as the code has it. The caches with a size limit, [cache] of
    helpers.js and that of RealYahooFinanceService (both 50 entries), evict
    exactly the first-written key when one key more than the limit is
    written; the caches of RealTimeGainersService and SimpleCorsService
    have no limit and keep every key. *)
Theorem C6_capacity_of_each_cache :
  (forall (V : Type) (C : nat) (ws : list (string * V * Z)),
      (0 < C)%nat -> NoDup (List.map Cache.writeKey ws) -> List.length ws = S C ->
      JsMap.keys (Cache.fill (Cache.writeBounded C) ws)
      = tl (List.map Cache.writeKey ws)) /\
  (forall (V : Type) (ws : list (string * V * Z)),
      NoDup (List.map Cache.writeKey ws) ->
      List.length ws = S Helpers.MAX_CACHE_SIZE ->
      JsMap.keys (Cache.fill Helpers.cache_set ws) = tl (List.map Cache.writeKey ws) /\
      JsMap.keys (Cache.fill Yahoo.setCached ws) = tl (List.map Cache.writeKey ws)) /\
  (forall (V : Type) (ws : list (string * V * Z)),
      NoDup (List.map Cache.writeKey ws) ->
      JsMap.keys (Cache.fill RealTime.setCached ws) = List.map Cache.writeKey ws /\
      JsMap.keys (Cache.fill SimpleCors.setCached ws) = List.map Cache.writeKey ws).
Proof.
  split; [|split].
  - intros V C ws. apply fill_bounded_keys_full.
  - intros V ws Hnd Hlen. split.
    + apply (fill_bounded_keys_full Helpers.MAX_CACHE_SIZE); [|done..].
      unfold Helpers.MAX_CACHE_SIZE. lia.
    + apply (fill_bounded_keys_full Yahoo.maxCacheSize); [|done..].
      unfold Yahoo.maxCacheSize. lia.
  - intros V ws Hnd. split; by apply fill_unbounded_keys.
Qed.

Lemma fiftyOneWrites_NoDup : NoDup (List.map Cache.writeKey Inputs.fiftyOneWrites).
Proof. apply (bool_decide_unpack _). vm_compute. reflexivity. Qed.

(** The amended C6 at three writes with limit 2, and at fifty-one writes
    for each cache of the services. *)
Lemma C6_capacity_of_each_cache_witness :
  JsMap.keys (Cache.fill (Cache.writeBounded 2) Inputs.threeWrites)
  = ["marketwatch_gainers"; "cnbc_gainers"]%string /\
  (JsMap.keys (Cache.fill Helpers.cache_set Inputs.fiftyOneWrites)
   = tl (List.map Cache.writeKey Inputs.fiftyOneWrites) /\
   JsMap.keys (Cache.fill Yahoo.setCached Inputs.fiftyOneWrites)
   = tl (List.map Cache.writeKey Inputs.fiftyOneWrites)) /\
  (JsMap.keys (Cache.fill RealTime.setCached Inputs.fiftyOneWrites)
   = List.map Cache.writeKey Inputs.fiftyOneWrites /\
   JsMap.keys (Cache.fill SimpleCors.setCached Inputs.fiftyOneWrites)
   = List.map Cache.writeKey Inputs.fiftyOneWrites).
Proof.
  split; [|split].
  - apply (proj1 C6_capacity_of_each_cache nat 2%nat Inputs.threeWrites).
    + lia.
    + apply (bool_decide_unpack _). vm_compute. reflexivity.
    + reflexivity.
  - apply (proj1 (proj2 C6_capacity_of_each_cache)).
    + exact fiftyOneWrites_NoDup.
    + reflexivity.
  - apply (proj2 (proj2 C6_capacity_of_each_cache)).
    exact fiftyOneWrites_NoDup.
Defined.

(** C6 as stated fails for the cache of RealTimeGainersService: after 51
    distinct keys, one more than the limit of the bounded caches, all 51
    are stored and the first-written key is still there. *)
Lemma C6_counterexample :
  NoDup (List.map Cache.writeKey Inputs.fiftyOneWrites) /\
  List.length Inputs.fiftyOneWrites = S Helpers.MAX_CACHE_SIZE /\
  JsMap.size (Cache.fill RealTime.setCached Inputs.fiftyOneWrites) = 51%nat /\
  JsMap.firstKey (Cache.fill RealTime.setCached Inputs.fiftyOneWrites)
  = Some (Inputs.keyOfIndex 0) /\
  JsMap.keys (Cache.fill RealTime.setCached Inputs.fiftyOneWrites)
  <> tl (List.map Cache.writeKey Inputs.fiftyOneWrites).
Proof.
  split; [exact fiftyOneWrites_NoDup|].
  repeat split; try (vm_compute; reflexivity).
  vm_compute. discriminate.
Qed.

(** C7. A value written at time [T] is read back unchanged at any time [t]
    with [t - T <= CACHE_DURATION]; read later, the result is [null] and
    the entry is removed. *)
Theorem C7_cache_ttl_round_trip :
  forall (V : Type) (store : Cache.Store V) (k : string) (v : V) (T t : Z),
    let store' := Helpers.cache_set store k v T in
    ((t - T <= Helpers.CACHE_DURATION)%Z ->
     Helpers.cache_get store' k t = (Some v, store')) /\
    ((t - T > Helpers.CACHE_DURATION)%Z ->
     Helpers.cache_get store' k t = (None, JsMap.delete k store') /\
     JsMap.get k (JsMap.delete k store') = None).
Proof.
  intros V store k v T t store'.
  assert (Hget : JsMap.get k store' = Some {| Cache.data := v; Cache.timestamp := T |}).
  { unfold store', Helpers.cache_set, Cache.writeBounded. apply get_set_eq. }
  unfold Helpers.cache_get, Cache.read. rewrite Hget. simpl. split.
  - intros Hle. destruct (Z.gtb_spec (t - T) Helpers.CACHE_DURATION); [lia|done].
  - intros Hgt. split; [|apply get_delete_eq].
    destruct (Z.gtb_spec (t - T) Helpers.CACHE_DURATION); [done|lia].
Qed.

(** C7 at a store holding one other key: a read 5 minutes after the write
    is a hit, a read one millisecond later is a miss that empties the slot. *)
Lemma C7_cache_ttl_round_trip_witness :
  let store := Helpers.cache_set JsMap.empty "MSFT" 7%nat 0 in
  let store' := Helpers.cache_set store "AAPL" 42%nat 1000 in
  Helpers.cache_get store' "AAPL" 301000 = (Some 42%nat, store') /\
  Helpers.cache_get store' "AAPL" 301001 = (None, JsMap.delete "AAPL" store') /\
  JsMap.get "AAPL" (JsMap.delete "AAPL" store') = None.
Proof.
  intros store store'.
  pose proof (C7_cache_ttl_round_trip nat store "AAPL" 42%nat 1000 301000) as [H1 _].
  pose proof (C7_cache_ttl_round_trip nat store "AAPL" 42%nat 1000 301001) as [_ H2].
  split; [apply H1; vm_compute; discriminate|apply H2; vm_compute; reflexivity].
Defined.

(** ** Numbers *)
Section Numbers.
Import JS.
Local Open Scope R_scope.

Lemma clamp_min_max (x : R) : -1 <= min 1 (max (-1) x) <= 1.
Proof. unfold min, max, Rmin, Rmax. repeat destruct Rle_dec; lra. Qed.


Lemma floor_ge (n : Z) (x : R) : IZR n <= x -> (n <= floor x)%Z.
Proof.
  intros H. unfold floor.
  destruct (base_Int_part x) as [_ Hlt].
  assert (Hn : IZR n - 1 < IZR (Int_part x)) by lra.
  rewrite <- minus_IZR in Hn. apply lt_IZR in Hn. lia.
Qed.

Lemma pow10_pos (d : nat) : 0 < 10 ^ d.
Proof. apply pow_lt. lra. Qed.

(** Rounding to [d] decimals does not take a number below an integer it
    has reached. *)
Lemma toFixed_ge (d : nat) (n : Z) (x : R) : IZR n <= x -> IZR n <= toFixed d x.
Proof.
  intros H. unfold toFixed.
  pose proof (pow10_pos d) as Hp.
  assert (Hf : (n * 10 ^ Z.of_nat d <= floor (x * 10 ^ d + 1 / 2))%Z).
  { apply floor_ge. rewrite mult_IZR, <- pow_IZR.
    assert (IZR n * 10 ^ d <= x * 10 ^ d) by (apply Rmult_le_compat_r; lra).
    lra. }
  apply IZR_le in Hf. rewrite mult_IZR, <- pow_IZR in Hf.
  apply Rmult_le_reg_r with (r := 10 ^ d); [exact Hp|].
  unfold Rdiv. rewrite Rmult_assoc, Rinv_l by lra. lra.
Qed.

End Numbers.

(** ** The synthetic quotes *)
Section Generators.
Import JS Model.
Local Open Scope R_scope.

(** A property of each generated record holds of the whole list. *)
Lemma mapRand_Forall {A B} (P : B -> Prop) (f : A -> Rand B) (l : list A) :
  (forall x draws i, P (fst (f x draws i))) ->
  forall draws i, Forall P (fst (mapRand f l draws i)).
Proof.
  intros Hf. induction l as [|x l IH]; intros draws i; simpl.
  - constructor.
  - unfold bind, ret. specialize (Hf x draws i).
    destruct (f x draws i) as [y j]. specialize (IH draws j).
    destruct (mapRand f l draws j) as [ys k]. simpl in *. by constructor.
Qed.

Lemma mapRand_elem {A B} (P : B -> Prop) (f : A -> Rand B) (l : list A) :
  (forall x draws i, P (fst (f x draws i))) ->
  forall draws i y, y ∈ fst (mapRand f l draws i) -> P y.
Proof.
  intros Hf draws i y Hy.
  pose proof (mapRand_Forall P f l Hf draws i) as H.
  rewrite Forall_forall in H. by apply H.
Qed.

Lemma mapRand_length {A B} (f : A -> Rand B) (l : list A) :
  forall draws i, List.length (fst (mapRand f l draws i)) = List.length l.
Proof.
  induction l as [|x l IH]; intros draws i; simpl; [done|].
  unfold bind, ret. destruct (f x draws i) as [y j]. specialize (IH draws j).
  destruct (mapRand f l draws j) as [ys k]. simpl in *. by rewrite IH.
Qed.

Lemma formatVolume_million (format : R -> VolumeText) (v : R) :
  format v = (if Req_dec_T v 0 then VolNone
              else if Rle_dec 1000000 v then VolM (toFixed 1 (v / 1000000))
              else if Rle_dec 1000 v then VolK (toFixed 1 (v / 1000))
              else VolPlain v) ->
  1000000 <= v -> 1000000 <= volumeNumber (format v).
Proof.
  intros -> Hv. destruct (Req_dec_T v 0); [lra|].
  destruct (Rle_dec 1000000 v); [|lra]. simpl.
  assert (1 <= toFixed 1 (v / 1000000)) by (apply (toFixed_ge 1 1); lra).
  lra.
Qed.

Lemma liveQuote_gainer (clock : Clock) (stock : SimpleCors.BaseStock)
  (draws : Draws) (i : nat) :
  let q := fst (SimpleCors.liveQuote clock stock draws i) in
  1 <= price q /\ 0.1 <= changePercent q /\
  1000000 <= volumeNumber (quoteVolume q) /\
  quoteSource q = "enhanced_realistic"%string.
Proof.
  unfold SimpleCors.liveQuote, SimpleCors.generateRealisticVolume, bind, random, ret.
  simpl. repeat split.
  - apply (toFixed_ge 2 1). apply Rmax_l.
  - apply Rmax_l.
  - apply (formatVolume_million SimpleCors.formatVolume); [reflexivity|]. apply Rmax_l.
Qed.

Lemma enhancedQuote_gainer (clock : Clock) (stock : Yahoo.BaseGainer)
  (draws : Draws) (i : nat) :
  let q := fst (Yahoo.enhancedQuote clock stock draws i) in
  1 <= price q /\ 0.5 <= changePercent q /\
  1000000 <= volumeNumber (quoteVolume q) /\
  quoteSource q = "enhanced_realistic"%string.
Proof.
  unfold Yahoo.enhancedQuote, bind, random, ret. simpl. repeat split.
  - apply (toFixed_ge 2 1). apply Rmax_l.
  - apply Rmax_l.
  - apply (formatVolume_million Yahoo.formatVolume); [reflexivity|]. apply Rmax_l.
Qed.

Lemma fallbackQuote_gainer (clock : Clock) (stock : Yahoo.BaseGainer)
  (draws : Draws) (i : nat) :
  let q := fst (Yahoo.fallbackQuote clock stock draws i) in
  1 <= price q /\ 0.5 <= changePercent q /\
  quoteSource q = "fallback"%string.
Proof.
  unfold Yahoo.fallbackQuote, bind, random, ret. simpl. repeat split.
  - apply (toFixed_ge 2 1). apply Rmax_l.
  - apply Rmax_l.
Qed.

End Generators.

(** C10. Every record of [generateLiveMarketData] has price at least 1,
    percent change at least 0.1 and volume at least 1,000,000; every record
    of [generateEnhancedMockData] and of [getFallbackData] has price at
    least 1 and percent change at least 0.5; so the percent change of a
    synthetic record is never zero or negative. The three lists have 15, 15
    and 10 records, whatever the clock and the random draws. *)
Theorem C10_synthetic_quotes_are_gainers :
  forall (clock : Model.Clock) (draws : Model.Draws) (i : nat),
    let live := fst (SimpleCors.generateLiveMarketData clock draws i) in
    let enhanced := fst (Yahoo.generateEnhancedMockData clock draws i) in
    let fallback := fst (Yahoo.getFallbackData clock draws i) in
    (List.length live = 15%nat /\
     Forall (fun q => 1 <= Model.price q /\ 0.1 <= Model.changePercent q /\
                      1000000 <= Model.volumeNumber (Model.quoteVolume q) /\
                      0 < Model.changePercent q)%R live) /\
    (List.length enhanced = 15%nat /\
     Forall (fun q => 1 <= Model.price q /\ 0.5 <= Model.changePercent q /\
                      0 < Model.changePercent q)%R enhanced) /\
    (List.length fallback = 10%nat /\
     Forall (fun q => 1 <= Model.price q /\ 0.5 <= Model.changePercent q /\
                      0 < Model.changePercent q)%R fallback).
Proof.
  intros clock draws i live enhanced fallback.
  split; [|split]; (split; [apply mapRand_length|]).
  - apply mapRand_Forall. intros x d j.
    destruct (liveQuote_gainer clock x d j) as (? & ? & ? & _).
    repeat split; try done. lra.
  - apply mapRand_Forall. intros x d j.
    destruct (enhancedQuote_gainer clock x d j) as (? & ? & _).
    repeat split; try done. lra.
  - apply mapRand_Forall. intros x d j.
    destruct (fallbackQuote_gainer clock x d j) as (? & ? & _).
    repeat split; try done. lra.
Qed.

(** ** The bounds of the scores *)
Section Bounds.
Import JS Model.
Local Open Scope R_scope.


Lemma get_set_inv {V} (m : JsMap.t V) (k k' : string) (v e : V) :
  JsMap.get k (JsMap.set k' v m) = Some e -> e = v \/ JsMap.get k m = Some e.
Proof.
  induction m as [|[k0 v0] m IH]; simpl.
  - destruct (String.eqb k' k); [|done]. intros [= <-]. by left.
  - destruct (String.eqb k0 k') eqn:E; simpl.
    + apply String.eqb_eq in E. subst k0.
      destruct (String.eqb k' k); [intros [= <-]; by left|]. by right.
    + destruct (String.eqb k0 k); [by right|]. exact IH.
Qed.

Lemma all_set {V} (P : V -> Prop) (m : JsMap.t V) k e :
  JsMap.all P m -> P e -> JsMap.all P (JsMap.set k e m).
Proof.
  intros Hm He k' e' Hget. apply get_set_inv in Hget as [->|Hget]; [done|].
  by apply (Hm k').
Qed.

Lemma all_empty {V} (P : V -> Prop) : JsMap.all P (JsMap.empty : JsMap.t V).
Proof. intros k e H. discriminate. Qed.

Lemma fold_left_invariant {A B} (P : A -> Prop) (f : A -> B -> A) (l : list B) :
  (forall a b, P a -> P (f a b)) -> forall a, P a -> P (fold_left f l a).
Proof. intros Hf. induction l as [|b l IH]; simpl; auto. Qed.


Lemma yahoo_loop_invariant (P : JsMap.t SentimentResult -> Prop) clock :
  (forall m stock draws i, P m -> P (fst (Yahoo.step clock m stock draws i))) ->
  forall stocks m draws i, P m -> P (fst (Yahoo.loop clock m stocks draws i)).
Proof.
  intros Hstep. induction stocks as [|stock stocks IH]; intros m draws i Hm; simpl; [done|].
  unfold bind at 1. specialize (Hstep m stock draws i Hm).
  destruct (Yahoo.step clock m stock draws i) as [m' j]. by apply IH.
Qed.

(** The two tables of bonuses define no name that objects inherit. *)
Lemma inherited_not_own (k : string) :
  inherits k = true ->
  lookup RealTime.sourceBonus k = None /\ lookup SimpleCors.sectorBonus k = None.
Proof.
  unfold inherits. intros H. apply existsb_exists in H as (name & Hin & Heq).
  apply String.eqb_eq in Heq. subst name.
  unfold inheritedNames in Hin. simpl in Hin.
  repeat (destruct Hin as [<-|Hin]; [by split|]). done.
Qed.

Lemma addProperty_number (score : R) table key :
  namesInherited key = false ->
  addProperty score table key = ScoreNumber (Num (score + bonusOf table key)).
Proof.
  unfold addProperty, bonusOf, namesInherited. destruct key as [k|]; [|done].
  intros Hk. rewrite Hk. by destruct (lookup table k).
Qed.

Lemma addProperty_text (score : R) table key :
  (forall k, inherits k = true -> lookup table k = None) ->
  namesInherited key = true -> addProperty score table key = ScoreText.
Proof.
  unfold addProperty, namesInherited. destruct key as [k|]; [|done].
  intros Hown Hk. by rewrite (Hown k Hk), Hk.
Qed.

(** What [calculateRealTimeSentiment] gives by the name in [stock.source]. *)
Lemma realTime_scored stock cp :
  if namesInherited (source stock)
  then RealTime.calculateRealTimeSentiment stock cp = ScoreText
  else exists base,
      RealTime.calculateRealTimeSentiment stock cp
      = ScoreNumber (Num (base + bonusOf RealTime.sourceBonus (source stock))).
Proof.
  unfold RealTime.calculateRealTimeSentiment. cbv zeta.
  destruct (namesInherited (source stock)) eqn:Hname.
  - apply addProperty_text; [|done]. intros k Hk. by apply inherited_not_own.
  - eexists. by apply addProperty_number.
Qed.

(** What [calculateAdvancedSentiment] gives, as a number, by the name in
    [stock.sector]. *)
Lemma simpleCors_scored stock cp :
  if namesInherited (sector stock)
  then toNumber (SimpleCors.calculateAdvancedSentiment stock cp) = NaN
  else exists x, SimpleCors.calculateAdvancedSentiment stock cp = ScoreNumber (Num x).
Proof.
  unfold SimpleCors.calculateAdvancedSentiment. cbv zeta.
  destruct (namesInherited (sector stock)) eqn:Hname.
  - rewrite addProperty_text; [|intros k Hk; by apply inherited_not_own|done].
    destruct (marketCap stock) as [cap|]; [|done]. by destruct (includes "T" cap).
  - rewrite addProperty_number by done.
    destruct (marketCap stock) as [cap|]; [|by eexists].
    destruct (includes "T" cap); by eexists.
Qed.

(** The clamp of a weighted sum. *)
Lemma clamp_weighted (x : jsnum) (weight term : R) :
  match x with
  | Num r =>
      minWith 1 (maxWith (-1) (add (scale x weight) (Num term)))
      = Num (min 1 (max (-1) (r * weight + term)))
  | NaN => minWith 1 (maxWith (-1) (add (scale x weight) (Num term))) = NaN
  | Inf _ => True
  end.
Proof. by destruct x. Qed.

(** An entry of the [try] branch: its score is NaN, with the label
    'Neutral' and the confidence NaN, when the name is inherited, and a
    number in [-1, 1] otherwise. *)
Lemma realTime_analyze_score clock stock e :
  RealTime.analyze clock stock = Some e ->
  if namesInherited (source stock)
  then score e = NaN /\ label e = Neutral /\ confidence e = NaN
  else scoreBounded e.
Proof.
  unfold RealTime.analyze. destruct (change stock) as [c|]; [|done].
  intros [= <-]. unfold scoreBounded. cbn [score label confidence].
  pose proof (realTime_scored stock (parseFloat (removeFirst "+" (removeFirst "%" c))))
    as Hscored.
  destruct (namesInherited (source stock)).
  - rewrite Hscored. done.
  - destruct Hscored as [base ->]. cbn [toNumber scale add maxWith minWith].
    apply clamp_min_max.
Qed.

Lemma simpleCors_analyze_score clock stock e :
  SimpleCors.analyze clock stock = Some e ->
  if namesInherited (sector stock)
  then score e = NaN /\ label e = Neutral /\ confidence e = NaN
  else scoreBounded e.
Proof.
  unfold SimpleCors.analyze. destruct (change stock) as [c|]; [|done].
  intros [= <-]. unfold scoreBounded. cbn [score label confidence].
  pose proof (simpleCors_scored stock (parseFloat (removeFirst "+" (removeFirst "%" c))))
    as Hscored.
  destruct (namesInherited (sector stock)).
  - rewrite Hscored. done.
  - destruct Hscored as [x ->]. cbn [toNumber scale add maxWith minWith].
    apply clamp_min_max.
Qed.







End Bounds.




(** ** The Map built by [analyzeBulkSentiment] *)
Section BulkMap.
Import JS Model.
Context {V : Type}.
Implicit Types (m : JsMap.t V) (k : string) (v : V).

Lemma get_set_ne m k k' v :
  k <> k' -> JsMap.get k (JsMap.set k' v m) = JsMap.get k m.
Proof.
  intros Hne. induction m as [|[k0 v0] m IH]; simpl.
  - destruct (String.eqb_spec k' k); [congruence|done].
  - destruct (String.eqb_spec k0 k'); simpl.
    + subst k0. destruct (String.eqb_spec k' k); [congruence|].
      destruct (String.eqb_spec k' k); [congruence|done].
    + destruct (String.eqb_spec k0 k); [done|exact IH].
Qed.

Lemma elem_of_keys_set m k v x :
  x ∈ JsMap.keys (JsMap.set k v m) <-> x = k \/ x ∈ JsMap.keys m.
Proof.
  induction m as [|[k0 v0] m IH]; simpl.
  - set_solver.
  - destruct (String.eqb_spec k0 k); simpl.
    + subst k0. set_solver.
    + rewrite !elem_of_cons, IH. tauto.
Qed.

Lemma NoDup_keys_set m k v :
  NoDup (JsMap.keys m) -> NoDup (JsMap.keys (JsMap.set k v m)).
Proof.
  induction m as [|[k0 v0] m IH]; simpl; intros Hnd.
  - apply NoDup_singleton.
  - apply NoDup_cons in Hnd as [Hk0 Hnd].
    destruct (String.eqb_spec k0 k); simpl.
    + subst k0. by apply NoDup_cons.
    + apply NoDup_cons. split; [|by apply IH].
      rewrite elem_of_keys_set. intros [->|Hin]; done.
Qed.

End BulkMap.

Section BulkSentiment.
Import JS Model.









End BulkSentiment.



(** ** What a score depends on *)
Section Determinism.
Import JS Model.
Local Open Scope R_scope.

Lemma Rleb_true a b : a <= b -> Rleb a b = true.
Proof. unfold Rleb. destruct Rle_dec; [done|lra]. Qed.

Lemma Rleb_false a b : b < a -> Rleb a b = false.
Proof. unfold Rleb. destruct Rle_dec; [lra|done]. Qed.

Lemma Rltb_true a b : a < b -> Rltb a b = true.
Proof. unfold Rltb. destruct Rlt_dec; [done|lra]. Qed.

Lemma Rltb_false a b : b <= a -> Rltb a b = false.
Proof. unfold Rltb. destruct Rlt_dec; [lra|done]. Qed.

Lemma realTime_score_by_context c1 c2 stock :
  RealTime.getRealTimeMarketContext c1 = RealTime.getRealTimeMarketContext c2 ->
  option_map score (RealTime.analyze c1 stock)
  = option_map score (RealTime.analyze c2 stock).
Proof.
  intros H. unfold RealTime.analyze. destruct (change stock); simpl; [|done].
  by rewrite H.
Qed.

Lemma simpleCors_score_by_context c1 c2 stock :
  SimpleCors.getMarketSentimentContext c1 = SimpleCors.getMarketSentimentContext c2 ->
  option_map score (SimpleCors.analyze c1 stock)
  = option_map score (SimpleCors.analyze c2 stock).
Proof.
  intros H. unfold SimpleCors.analyze. destruct (change stock); simpl; [|done].
  by rewrite H.
Qed.

Lemma yahoo_score_by_context c1 c2 d1 d2 i1 i2 stock :
  fst (Yahoo.getMarketSentiment c1 d1 i1) = fst (Yahoo.getMarketSentiment c2 d2 i2) ->
  option_map score (fst (Yahoo.analyze c1 stock d1 i1))
  = option_map score (fst (Yahoo.analyze c2 stock d2 i2)).
Proof.
  intros H. unfold Yahoo.analyze. destruct (change stock); [|done].
  unfold bind, ret.
  destruct (Yahoo.getMarketSentiment c1 d1 i1) as [ms1 j1].
  destruct (Yahoo.getMarketSentiment c2 d2 i2) as [ms2 j2].
  simpl in *. by subst ms2.
Qed.

End Determinism.

(** Decision of the comparisons between real constants. *)
Ltac decide_reals :=
  repeat match goal with
    | |- context [JS.Rleb ?a ?b] =>
        first [rewrite (Rleb_true a b) by lra | rewrite (Rleb_false a b) by lra]
    | |- context [JS.Rltb ?a ?b] =>
        first [rewrite (Rltb_true a b) by lra | rewrite (Rltb_false a b) by lra]
    | |- context [Rmin ?a ?b] =>
        first [rewrite (Rmin_left a b) by lra | rewrite (Rmin_right a b) by lra]
    | |- context [Rmax ?a ?b] =>
        first [rewrite (Rmax_left a b) by lra | rewrite (Rmax_right a b) by lra]
    end.

(** C4, as the code has it. [calculateSentiment] takes the text alone, so
    equal texts give equal scores. The score that [analyzeBulkSentiment]
    gives a stock is a function of the stock's metrics and of the
    market-context term: equal metrics and an equal context term give an
    equal score. The context term itself is read from the clock, and in
    RealYahooFinanceService also drawn from [Math.random]. *)
Theorem C4_score_fixed_by_text_or_metrics_and_context :
  (forall t1 t2 : string,
      t1 = t2 -> News.calculateSentiment t1 = News.calculateSentiment t2) /\
  (forall c1 c2 stock,
      RealTime.getRealTimeMarketContext c1 = RealTime.getRealTimeMarketContext c2 ->
      option_map Model.score (RealTime.analyze c1 stock)
      = option_map Model.score (RealTime.analyze c2 stock)) /\
  (forall c1 c2 stock,
      SimpleCors.getMarketSentimentContext c1 = SimpleCors.getMarketSentimentContext c2 ->
      option_map Model.score (SimpleCors.analyze c1 stock)
      = option_map Model.score (SimpleCors.analyze c2 stock)) /\
  (forall c1 c2 d1 d2 i1 i2 stock,
      fst (Yahoo.getMarketSentiment c1 d1 i1) = fst (Yahoo.getMarketSentiment c2 d2 i2) ->
      option_map Model.score (fst (Yahoo.analyze c1 stock d1 i1))
      = option_map Model.score (fst (Yahoo.analyze c2 stock d2 i2))).
Proof.
  split; [|split; [|split]].
  - by intros t1 t2 ->.
  - apply realTime_score_by_context.
  - apply simpleCors_score_by_context.
  - apply yahoo_score_by_context.
Qed.

(** The amended C4 at NVDA: two readings of the clock within the same
    trading session give one context term in RealTimeGainersService, and
    two runs of RealYahooFinanceService with draws of the same value give
    one score. *)
Lemma C4_score_fixed_by_text_or_metrics_and_context_witness :
  News.calculateSentiment "Apple shares surge"
  = News.calculateSentiment "Apple shares surge" /\
  option_map Model.score (RealTime.analyze Inputs.mondayMorning Inputs.nvda)
  = option_map Model.score (RealTime.analyze Inputs.mondayLater Inputs.nvda) /\
  option_map Model.score
    (fst (Yahoo.analyze Inputs.mondayMorning Inputs.nvda (Inputs.steady 0.5) 0))
  = option_map Model.score
      (fst (Yahoo.analyze Inputs.mondayLater Inputs.nvda (Inputs.steady 0.5) 7)).
Proof.
  destruct C4_score_fixed_by_text_or_metrics_and_context as (Htext & Hrt & _ & Hy).
  split; [|split].
  - apply Htext. reflexivity.
  - apply Hrt. reflexivity.
  - apply Hy. reflexivity.
Defined.

(** C4 as stated fails for the metric-based scorer: with the same stock
    and the same clock, two runs of RealYahooFinanceService whose
    [Math.random] returns 0.5 and 0 give different scores; and with the
    same stock, RealTimeGainersService gives different scores on a Monday
    morning and on a Sunday. *)
Lemma C4_counterexample :
  (exists s1 s2,
      option_map Model.score
        (fst (Yahoo.analyze Inputs.mondayMorning Inputs.nvda (Inputs.steady 0.5) 0))
      = Some s1 /\
      option_map Model.score
        (fst (Yahoo.analyze Inputs.mondayMorning Inputs.nvda (Inputs.steady 0) 0))
      = Some s2 /\
      s1 <> s2) /\
  (exists s1 s2,
      option_map Model.score (RealTime.analyze Inputs.mondayMorning Inputs.nvda)
      = Some s1 /\
      option_map Model.score (RealTime.analyze Inputs.sundayNoon Inputs.nvda)
      = Some s2 /\
      s1 <> s2).
Proof.
  split.
  - do 2 eexists. split; [reflexivity|]. split; [reflexivity|].
    intros [= Hsame]. revert Hsame.
    unfold Yahoo.calculateSentimentScore, Yahoo.parseVolume, Inputs.steady. simpl.
    unfold JS.unsigned_literal. simpl. eval_digits.
    unfold JS.geb, JS.gtb, JS.min, JS.max, JS.scale. decide_reals. lra.
  - do 2 eexists. split; [reflexivity|]. split; [reflexivity|].
    unfold RealTime.calculateRealTimeSentiment, RealTime.parseVolume,
      Model.addProperty. simpl.
    unfold JS.unsigned_literal. simpl. eval_digits.
    change (RealTime.getRealTimeMarketContext Inputs.mondayMorning) with 0.2%R.
    change (RealTime.getRealTimeMarketContext Inputs.sundayNoon) with (-0.1 - 0.05)%R.
    unfold JS.geb, JS.gtb, JS.min, JS.max, JS.scale. decide_reals.
    intros [= Hsame]. lra.
Qed.


(** ** The aggregator *)
Section Aggregator.
Import JS News.

Lemma settle_settled (call : string * Promise SourceData) :
  settle (fst call) (snd call) = Resolved (settled call).
Proof. destruct call as [src [d|m]]; reflexivity. Qed.

(** Every promise pushed by the loop resolves, so [Promise.all] does. *)
Lemma all_settled (calls : list (string * Promise SourceData)) :
  all (List.map (fun '(src, promise) => settle src promise) calls)
  = Resolved (List.map settled calls).
Proof.
  induction calls as [|[src p] calls IH]; simpl; [done|].
  rewrite IH. by destruct p.
Qed.

Lemma record_symbol_timestamp (rs : list ApiResponse) (r0 : NewsResult) :
  symbol (fold_left record rs r0) = symbol r0 /\
  timestamp (fold_left record rs r0) = timestamp r0.
Proof.
  revert r0. induction rs as [|r rs IH]; intros r0; simpl; [done|].
  destruct (IH (record r0 r)) as [-> ->]. by destruct r.
Qed.

(** [forEach] appends the articles of the successes. *)
Lemma record_articles (calls : list (string * Promise SourceData)) (r0 : NewsResult) :
  articles (fold_left record (List.map settled calls) r0)
  = articles r0 ++ flat_map fetchedBy calls.
Proof.
  revert r0. induction calls as [|[src p] calls IH]; intros r0; simpl.
  - by rewrite app_nil_r.
  - rewrite IH. unfold settled, fetchedBy. simpl.
    destruct p; simpl; [by rewrite <- app_assoc|done].
Qed.

(** [forEach] appends one entry per response, in order. *)
Lemma record_sources (calls : list (string * Promise SourceData)) (r0 : NewsResult) :
  exists entries,
    sources (fold_left record (List.map settled calls) r0) = sources r0 ++ entries /\
    Forall2 standsFor calls entries.
Proof.
  revert r0. induction calls as [|[src p] calls IH]; intros r0; simpl.
  - exists []. by rewrite app_nil_r.
  - destruct (IH (record r0 (settled (src, p)))) as (entries & -> & Hall).
    unfold settled. simpl. destruct p as [d|m]; simpl.
    + eexists (_ :: entries). rewrite <- app_assoc. split; [reflexivity|].
      constructor; [|done]. by repeat split.
    + eexists (_ :: entries). rewrite <- app_assoc. split; [reflexivity|].
      constructor; [|done]. by repeat split.
Qed.



Lemma dedupFilter_subset (l : list Article) :
  forall (seen : gset string) (a : Article), a ∈ dedupFilter seen l -> a ∈ l.
Proof.
  induction l as [|c l IH]; simpl; intros s a Ha; [done|].
  destruct (decide (dedupKey c ∈ s)); set_solver.
Qed.

Lemma insertByDate_elem (a b : Article) (l : list Article) :
  a ∈ insertByDate b l -> a = b \/ a ∈ l.
Proof.
  induction l as [|c l IH]; simpl; [set_solver|].
  destruct (publishedAt b <? publishedAt c)%Z; set_solver.
Qed.

Lemma sortNewestFirst_subset (l : list Article) (a : Article) :
  a ∈ sortNewestFirst l -> a ∈ l.
Proof.
  induction l as [|c l IH]; simpl; [done|].
  intros Ha. apply insertByDate_elem in Ha. set_solver.
Qed.

Lemma firstn_subset {A} (n : nat) (l : list A) (a : A) : a ∈ firstn n l -> a ∈ l.
Proof.
  revert l. induction n as [|n IH]; intros [|x l]; simpl; try set_solver.
Qed.

(** The two outcomes of [getComprehensiveNews]. *)
Lemma getComprehensiveNews_cases env net now sym opts :
  let calls := attempted env net now sym opts in
  exists r,
    getComprehensiveNews env net now sym opts = Resolved r /\
    ((flat_map fetchedBy calls = [] /\ r = getMockNews now sym) \/
     (flat_map fetchedBy calls <> [] /\
      Forall2 standsFor calls (sources r) /\
      forall a, a ∈ articles r -> a ∈ flat_map fetchedBy calls)).
Proof.
  intros calls. unfold getComprehensiveNews, apiPromises. fold calls.
  rewrite all_settled, length_map.
  destruct (List.length calls =? 0)%nat eqn:Hlen.
  { apply Nat.eqb_eq, length_zero_iff_nil in Hlen. rewrite Hlen.
    eexists. split; [reflexivity|]. by left. }
  simpl.
  set (r0 := {| symbol := sym; articles := []; sources := []; errors := [];
                overallSentiment := None; timestamp := now |}).
  pose proof (record_articles calls r0) as Harts. simpl in Harts.
  destruct (record_sources calls r0) as (entries & Hsrc & Hall). simpl in Hsrc.
  rewrite Harts.
  destruct (List.length (flat_map fetchedBy calls) =? 0)%nat eqn:Hfetched.
  { apply Nat.eqb_eq, length_zero_iff_nil in Hfetched.
    eexists. split; [reflexivity|]. by left. }
  eexists. split; [reflexivity|]. right. simpl. split.
  - intros Hnil. rewrite Hnil in Hfetched. discriminate.
  - rewrite Hsrc. split; [done|].
    intros a Ha. by apply firstn_subset, sortNewestFirst_subset, dedupFilter_subset in Ha.
Qed.

End Aggregator.

(** C1, as the code has it. [getComprehensiveNews] always resolves. When at
    least one attempted adapter returned an article, [sources] holds one
    entry per attempted adapter, in order, with its name and its success or
    error status. When no attempted adapter returned an article, which
    includes the case where all of them failed, the result is that of
    [getMockNews], whose [sources] is the single entry 'Demo Data'. *)
Theorem C1_news_resolves_with_manifest :
  forall env net now sym opts,
    let calls := News.attempted env net now sym opts in
    exists r,
      News.getComprehensiveNews env net now sym opts = JS.Resolved r /\
      (flat_map News.fetchedBy calls <> [] ->
       Forall2 News.standsFor calls (News.sources r)) /\
      (flat_map News.fetchedBy calls = [] ->
       r = News.getMockNews now sym /\
       List.map News.name (News.sources r) = ["Demo Data"%string]).
Proof.
  intros env net now sym opts calls.
  destruct (getComprehensiveNews_cases env net now sym opts)
    as (r & Hr & [[Hnil ->]|(Hsome & Hall & _)]).
  - exists (News.getMockNews now sym). split; [done|]. split; [done|]. done.
  - exists r. split; [done|]. split; [done|]. done.
Qed.

(** The amended C1 with the Marketaux and Finnhub keys set: when Finnhub
    answers, the manifest names both adapters, the first an error and the
    second a success; when nothing answers, the result is the mock one. *)
Lemma C1_news_resolves_with_manifest_witness :
  (exists r,
      News.getComprehensiveNews Inputs.twoKeys Inputs.finnhubUp 5000 "AAPL"
        News.defaultOptions = JS.Resolved r /\
      List.map (fun e => (News.name e, News.status e)) (News.sources r)
      = [("marketaux"%string, News.error); ("finnhub"%string, News.success)]) /\
  (exists r,
      News.getComprehensiveNews Inputs.twoKeys Inputs.offline 5000 "AAPL"
        News.defaultOptions = JS.Resolved r /\
      r = News.getMockNews 5000 "AAPL").
Proof.
  split.
  - destruct (C1_news_resolves_with_manifest Inputs.twoKeys Inputs.finnhubUp
                5000%Z "AAPL"%string News.defaultOptions) as (r & Hr & Hlive & _).
    exists r. split; [exact Hr|].
    assert (Hall : Forall2 News.standsFor
                     (News.attempted Inputs.twoKeys Inputs.finnhubUp 5000 "AAPL"
                        News.defaultOptions) (News.sources r)).
    { apply Hlive. vm_compute. discriminate. }
    destruct (News.sources r) as [|e1 [|e2 [|e3 rest]]];
      apply Forall2_length in Hall as Hlen; try discriminate Hlen.
    apply Forall2_cons in Hall as [[Hn1 [Hs1 _]] Hall].
    apply Forall2_cons in Hall as [[Hn2 [Hs2 _]] _].
    simpl in *. by rewrite Hn1, Hs1, Hn2, Hs2.
  - destruct (C1_news_resolves_with_manifest Inputs.twoKeys Inputs.offline
                5000%Z "AAPL"%string News.defaultOptions) as (r & Hr & _ & Hmock).
    exists r. split; [exact Hr|]. apply Hmock. reflexivity.
Defined.

(** C1 as stated fails when every attempted adapter fails: Marketaux and
    Finnhub are attempted and both fail, and the manifest of the result
    has the single entry 'Demo Data' with status success, none for the two
    adapters. *)
Lemma C1_counterexample :
  exists r,
    News.getComprehensiveNews Inputs.twoKeys Inputs.offline 5000 "AAPL"
      News.defaultOptions = JS.Resolved r /\
    News.attempted Inputs.twoKeys Inputs.offline 5000 "AAPL" News.defaultOptions
    = [("marketaux"%string, JS.Rejected "Failed to fetch"%string);
       ("finnhub"%string, JS.Rejected "Failed to fetch"%string)] /\
    List.map (fun e => (News.name e, News.status e)) (News.sources r)
    = [("Demo Data"%string, News.success)] /\
    ~ Forall2 News.standsFor
        (News.attempted Inputs.twoKeys Inputs.offline 5000 "AAPL" News.defaultOptions)
        (News.sources r).
Proof.
  eexists. split; [reflexivity|]. split; [reflexivity|]. split; [reflexivity|].
  intros H. apply Forall2_length in H. vm_compute in H. discriminate.
Qed.




(** * Further properties of the services *)

(** ** Sorting and deduplication of articles *)
Section ArticleLists.
Import JS News.

#[local] Abbreviation newerFirst :=
  (fun a b : Article => (publishedAt b <= publishedAt a)%Z).

Lemma insertByDate_perm (a : Article) (l : list Article) :
  insertByDate a l ≡ₚ a :: l.
Proof.
  induction l as [|b l IH]; simpl; [done|].
  destruct (publishedAt a <? publishedAt b)%Z; [|done].
  rewrite IH. apply perm_swap.
Qed.

Lemma sortNewestFirst_perm (l : list Article) : sortNewestFirst l ≡ₚ l.
Proof.
  induction l as [|a l IH]; simpl; [done|].
  by rewrite insertByDate_perm, IH.
Qed.

Lemma insertByDate_sorted (a : Article) (l : list Article) :
  StronglySorted newerFirst l -> StronglySorted newerFirst (insertByDate a l).
Proof.
  induction l as [|b l IH]; simpl; intros Hs.
  - repeat constructor.
  - apply StronglySorted_cons in Hs as [Hb Hl].
    destruct (Z.ltb_spec (publishedAt a) (publishedAt b)).
    + apply StronglySorted_cons. split; [|by apply IH].
      rewrite insertByDate_perm. constructor; [lia|done].
    + apply StronglySorted_cons. split; [|by apply StronglySorted_cons].
      constructor; [lia|]. eapply Forall_impl; [exact Hb|]. simpl. intros c Hc. lia.
Qed.

Lemma sortNewestFirst_sorted (l : list Article) :
  StronglySorted newerFirst (sortNewestFirst l).
Proof.
  induction l as [|a l IH]; simpl; [constructor|]. by apply insertByDate_sorted.
Qed.

(** The articles of one instant, in the order they have in [l]. *)
#[local] Abbreviation publishedAtInstant t l :=
  (List.filter (fun a : Article => (publishedAt a =? t)%Z) l).

Lemma insertByDate_instant (t : Z) (a : Article) (l : list Article) :
  StronglySorted newerFirst l ->
  publishedAtInstant t (insertByDate a l) = publishedAtInstant t (a :: l).
Proof.
  induction l as [|b l IH]; intros Hs; [done|].
  apply StronglySorted_cons in Hs as [Hb Hl]. cbn [insertByDate].
  destruct (Z.ltb_spec (publishedAt a) (publishedAt b)); [|done].
  cbn [List.filter]. rewrite (IH Hl). cbn [List.filter].
  destruct (Z.eqb_spec (publishedAt b) t), (Z.eqb_spec (publishedAt a) t);
    try done; lia.
Qed.

Lemma sortNewestFirst_instant (t : Z) (l : list Article) :
  publishedAtInstant t (sortNewestFirst l) = publishedAtInstant t l.
Proof.
  induction l as [|a l IH]; [done|]. cbn [sortNewestFirst fold_right].
  rewrite insertByDate_instant by apply sortNewestFirst_sorted.
  cbn [List.filter]. fold (sortNewestFirst l). by rewrite IH.
Qed.

Lemma dedupFilter_sublist (l : list Article) :
  forall seen : gset string, sublist (dedupFilter seen l) l.
Proof.
  induction l as [|a l IH]; simpl; intros seen; [done|].
  destruct (decide (dedupKey a ∈ seen)).
  - by apply sublist_cons.
  - by apply sublist_skip.
Qed.

Lemma dedupFilter_NoDup (l : list Article) :
  forall seen : gset string, NoDup (dedupKey <$> dedupFilter seen l).
Proof.
  induction l as [|a l IH]; simpl; intros seen; [constructor|].
  destruct (decide (dedupKey a ∈ seen)); [done|].
  rewrite fmap_cons. apply NoDup_cons. split; [|done].
  intros Hin. apply list_elem_of_fmap in Hin as (b & Hk & Hb).
  apply dedupFilter_fresh in Hb. rewrite <- Hk in Hb. set_solver.
Qed.

Lemma dedupFilter_covers (l : list Article) :
  forall (seen : gset string) (a : Article),
    a ∈ l -> dedupKey a ∉ seen ->
    exists b, b ∈ dedupFilter seen l /\ dedupKey b = dedupKey a.
Proof.
  induction l as [|c l IH]; simpl; intros seen a Ha Hfresh; [by inversion Ha|].
  apply elem_of_cons in Ha as [->|Ha].
  - destruct (decide (dedupKey c ∈ seen)); [done|].
    exists c. split; [left|done].
  - destruct (decide (dedupKey c ∈ seen)).
    + by apply IH.
    + destruct (decide (dedupKey a = dedupKey c)) as [Heq|Hne].
      * exists c. split; [left|done].
      * destruct (IH ({[dedupKey c]} ∪ seen) a Ha) as (b & Hb & Hk); [set_solver|].
        exists b. split; [by right|done].
Qed.

Lemma firstn_sublist {A} (n : nat) (l : list A) : sublist (firstn n l) l.
Proof.
  revert l. induction n as [|n IH]; intros [|x l]; simpl; try done.
  - apply sublist_nil_l.
  - by apply sublist_skip.
Qed.

Lemma sublist_StronglySorted {A} (R : A -> A -> Prop) (l k : list A) :
  sublist l k -> StronglySorted R k -> StronglySorted R l.
Proof.
  induction 1 as [|x l k Hsub IH|x l k Hsub IH]; intros Hs; [done|..].
  - apply StronglySorted_cons in Hs as [Hx Hk]. apply StronglySorted_cons.
    split; [|by apply IH]. rewrite Forall_forall in Hx |- *.
    intros y Hy. apply Hx. by eapply elem_of_sublist.
  - apply StronglySorted_cons in Hs as [_ Hk]. by apply IH.
Qed.

End ArticleLists.

(** X1. [sortNewestFirst], the sort of [getComprehensiveNews], returns the
    same articles, the newest first, and leaves the articles of one
    instant in their order of arrival. *)
Theorem X1_sort_is_stable_newest_first :
  forall l : list News.Article,
    News.sortNewestFirst l ≡ₚ l /\
    StronglySorted (fun a b => (News.publishedAt b <= News.publishedAt a)%Z)
      (News.sortNewestFirst l) /\
    forall t : Z,
      List.filter (fun a => (News.publishedAt a =? t)%Z) (News.sortNewestFirst l)
      = List.filter (fun a => (News.publishedAt a =? t)%Z) l.
Proof.
  intros l. split; [apply sortNewestFirst_perm|].
  split; [apply sortNewestFirst_sorted|]. intros t. apply sortNewestFirst_instant.
Qed.

(** X2. [deduplicateArticles] keeps a subsequence of its input in which no
    key occurs twice and every key of the input still occurs. *)
Theorem X2_dedup_leaves_one_article_per_key :
  forall l : list News.Article,
    sublist (News.deduplicateArticles l) l /\
    NoDup (News.dedupKey <$> News.deduplicateArticles l) /\
    forall a, a ∈ l ->
              exists b, b ∈ News.deduplicateArticles l /\
                        News.dedupKey b = News.dedupKey a.
Proof.
  intros l. unfold News.deduplicateArticles.
  split; [apply dedupFilter_sublist|]. split; [apply dedupFilter_NoDup|].
  intros a Ha. apply dedupFilter_covers; [done|set_solver].
Qed.

(** ** The live result of [getComprehensiveNews] *)
Section LiveResult.
Import JS News.

(** The line pushed on [results.errors] for an attempted adapter. *)
#[local] Abbreviation errorLine call :=
  (match snd call with
   | Resolved _ => []
   | Rejected message => [String.append (fst call) (String.append ": " message)]
   end).

Lemma record_errors (calls : list (string * Promise SourceData)) (r0 : NewsResult) :
  errors (fold_left record (List.map settled calls) r0)
  = errors r0 ++ flat_map (fun call => errorLine call) calls.
Proof.
  revert r0. induction calls as [|[src p] calls IH]; intros r0; simpl.
  - by rewrite app_nil_r.
  - rewrite IH. unfold settled. simpl.
    destruct p; simpl; [done|by rewrite <- app_assoc].
Qed.

(** What [getComprehensiveNews] resolves with when an article was fetched. *)
Lemma getComprehensiveNews_live env net now sym opts :
  let calls := attempted env net now sym opts in
  flat_map fetchedBy calls <> [] ->
  exists r,
    getComprehensiveNews env net now sym opts = Resolved r /\
    symbol r = sym /\ timestamp r = now /\
    articles r
    = firstn (limit opts)
        (sortNewestFirst (deduplicateArticles (flat_map fetchedBy calls))) /\
    overallSentiment r = calculateOverallSentiment (articles r) /\
    errors r = flat_map (fun call => errorLine call) calls.
Proof.
  intros calls Hsome. unfold getComprehensiveNews, apiPromises. fold calls.
  rewrite all_settled, length_map.
  destruct (List.length calls =? 0)%nat eqn:Hlen.
  { apply Nat.eqb_eq, length_zero_iff_nil in Hlen. rewrite Hlen in Hsome. done. }
  simpl.
  set (r0 := {| symbol := sym; articles := []; sources := []; errors := [];
                overallSentiment := None; timestamp := now |}).
  pose proof (record_articles calls r0) as Harts. simpl in Harts.
  pose proof (record_errors calls r0) as Herrs. simpl in Herrs.
  destruct (record_symbol_timestamp (List.map settled calls) r0) as [Hsym Htime].
  rewrite Harts.
  destruct (List.length (flat_map fetchedBy calls) =? 0)%nat eqn:Hfetched.
  { apply Nat.eqb_eq, length_zero_iff_nil in Hfetched. done. }
  eexists. split; [reflexivity|]. simpl. by rewrite Hsym, Htime, Herrs.
Qed.

Lemma dedupFilter_nonempty (l : list Article) :
  l <> [] -> deduplicateArticles l <> [].
Proof.
  destruct l as [|a l]; [done|]. intros _. unfold deduplicateArticles. simpl.
  destruct (decide (dedupKey a ∈ (∅ : gset string))); [set_solver|done].
Qed.

Lemma hasKey_attempted env net now sym opts :
  Forall (fun call => hasKey env (fst call) = true) (attempted env net now sym opts).
Proof.
  unfold attempted. apply Forall_forall. intros [src p] Hin.
  apply list_elem_of_In, in_flat_map in Hin as (s & Hs & Hcall).
  destruct (callAdapter _ _ _ _ _ _ s) as [q|]; simpl in Hcall; [|done].
  destruct Hcall as [[= <- <-]|[]]. simpl.
  unfold availableSources in Hs. by apply filter_In in Hs as [_ Hs].
Qed.

End LiveResult.

(** X3. When an attempted adapter returned an article, the articles of
    the result of [getComprehensiveNews] are at most [limit], the newest
    first, with no dedup key twice, and not empty unless [limit] is 0; the
    overall sentiment is computed from exactly these articles, and
    [errors] holds one line per adapter that failed. *)
Theorem X3_live_news_is_sorted_distinct_and_limited :
  forall env net now sym opts r,
    News.getComprehensiveNews env net now sym opts = JS.Resolved r ->
    flat_map News.fetchedBy (News.attempted env net now sym opts) <> [] ->
    (List.length (News.articles r) <= News.limit opts)%nat /\
    StronglySorted (fun a b => (News.publishedAt b <= News.publishedAt a)%Z)
      (News.articles r) /\
    NoDup (News.dedupKey <$> News.articles r) /\
    ((0 < News.limit opts)%nat -> News.articles r <> []) /\
    News.overallSentiment r = News.calculateOverallSentiment (News.articles r) /\
    List.length (News.errors r)
    = List.length (List.filter (fun call => match snd call with
                                            | JS.Rejected _ => true
                                            | JS.Resolved _ => false
                                            end)
                     (News.attempted env net now sym opts)).
Proof.
  intros env net now sym opts r Hr Hsome.
  destruct (getComprehensiveNews_live env net now sym opts Hsome)
    as (r' & Hr' & _ & _ & Harts & Hov & Herrs).
  rewrite Hr in Hr'. injection Hr' as <-.
  set (fetched := flat_map News.fetchedBy (News.attempted env net now sym opts)) in *.
  assert (Hnd : NoDup (News.dedupKey <$> News.deduplicateArticles fetched))
    by apply dedupFilter_NoDup.
  rewrite Harts. repeat apply conj.
  - rewrite length_take. lia.
  - eapply sublist_StronglySorted; [apply sublist_take|apply sortNewestFirst_sorted].
  - rewrite fmap_take. eapply sublist_NoDup; [|apply sublist_take].
    by rewrite sortNewestFirst_perm.
  - intros Hlimit Hnil.
    pose proof (dedupFilter_nonempty fetched Hsome) as Hne.
    pose proof (sortNewestFirst_perm (News.deduplicateArticles fetched)) as Hperm.
    destruct (News.sortNewestFirst (News.deduplicateArticles fetched)) as [|a k].
    + apply Permutation_nil_l in Hperm. by symmetry in Hperm.
    + destruct (News.limit opts); [lia|discriminate Hnil].
  - by rewrite <- Harts.
  - rewrite Herrs. clear. induction (News.attempted env net now sym opts)
      as [|[src [d|m]] calls IH]; simpl; [done|done|]. by rewrite IH.
Qed.

(** X3 at the example where Finnhub answers with one article and
    Marketaux does not answer. *)
Lemma X3_live_news_is_sorted_distinct_and_limited_witness :
  exists r,
    News.getComprehensiveNews Inputs.twoKeys Inputs.finnhubUp 5000 "AAPL"
      News.defaultOptions = JS.Resolved r /\
    (List.length (News.articles r) <= 20)%nat /\
    News.articles r <> [] /\
    List.length (News.errors r) = 1%nat.
Proof.
  eexists. split; [reflexivity|].
  destruct (X3_live_news_is_sorted_distinct_and_limited
              Inputs.twoKeys Inputs.finnhubUp 5000%Z "AAPL"%string
              News.defaultOptions _ eq_refl) as (Hlen & _ & _ & Hne & _ & Herr).
  - vm_compute. discriminate.
  - split; [exact Hlen|]. split; [apply Hne; vm_compute; lia|exact Herr].
Defined.

(** X4. No adapter is attempted without a configured key, and when no
    preferred source has one, [getComprehensiveNews] resolves with the
    mock result whatever the providers would answer. *)
Theorem X4_no_key_no_request :
  forall env now sym opts,
    (forall net,
        Forall (fun call => News.hasKey env (fst call) = true)
          (News.attempted env net now sym opts)) /\
    ((forall s, s ∈ News.preferredSources opts -> News.hasKey env s = false) ->
     forall net,
       News.getComprehensiveNews env net now sym opts
       = JS.Resolved (News.getMockNews now sym)).
Proof.
  intros env now sym opts. split; [intros net; apply hasKey_attempted|].
  intros Hnone net.
  assert (Hav : News.availableSources env opts = []).
  { unfold News.availableSources.
    induction (News.preferredSources opts) as [|s l IH]; simpl; [done|].
    rewrite (Hnone s) by left. apply IH. intros s' Hs'. apply Hnone. by right. }
  unfold News.getComprehensiveNews, News.apiPromises, News.attempted.
  by rewrite Hav.
Qed.

(** X4 with no key set and every provider ready to answer. *)
Lemma X4_no_key_no_request_witness :
  News.getComprehensiveNews
    {| News.marketauxKey := None; News.finnhubKey := Some "your_finnhub_api_key_here"%string;
       News.stocknewsapiKey := Some "your_key_here"%string;
       News.alphavantageKey := Some ""%string |}
    Inputs.finnhubUp 5000 "AAPL"
    {| News.limit := 5; News.days := 7;
       News.preferredSources :=
         ["marketaux"; "finnhub"; "stocknewsapi"; "alphavantage"; "reuters"]%string |}
  = JS.Resolved (News.getMockNews 5000 "AAPL").
Proof.
  apply X4_no_key_no_request. intros s Hs.
  repeat (apply elem_of_cons in Hs as [->|Hs]; [reflexivity|]). inversion Hs.
Defined.

(** ** The overall sentiment *)
Section Overall.
Import JS News.
Local Open Scope R_scope.

Lemma numericSentiments_not_NaN (l : list Article) :
  Forall (fun x => x <> NaN) (numericSentiments l).
Proof.
  unfold numericSentiments. induction l as [|a l IH]; simpl; [constructor|].
  destruct (sentiment a) as [| |[| |]]; simpl; try done; by constructor.
Qed.

(** A number that is not NaN is above 0.2, below -0.2 or between them,
    and only one of the three. *)
Lemma three_way (x : jsnum) :
  x <> NaN ->
  ((if gtb x 0.2 then 1 else 0) + (if geb x (-0.2) && leb x 0.2 then 1 else 0)
   + (if ltb x (-0.2) then 1 else 0) = 1)%nat.
Proof.
  destruct x as [|r|[]]; [done| |done|done]. intros _. simpl.
  unfold Rltb, Rleb. repeat destruct Rlt_dec; repeat destruct Rle_dec; simpl; lra || lia.
Qed.

Lemma count_cons (p : jsnum -> bool) x l :
  News.count p (x :: l) = ((if p x then 1 else 0) + News.count p l)%nat.
Proof. unfold News.count. simpl. by destruct (p x). Qed.

Lemma counts_partition (l : list jsnum) :
  Forall (fun x => x <> NaN) l ->
  (News.count (fun s => gtb s 0.2) l
   + News.count (fun s => geb s (-0.2) && leb s 0.2) l
   + News.count (fun s => ltb s (-0.2)) l = List.length l)%nat.
Proof.
  induction 1 as [|x l Hx _ IH]; [done|].
  rewrite !count_cons. pose proof (three_way x Hx). simpl List.length. lia.
Qed.

(** The sum of finite numbers, as [reduce] computes it. *)
Lemma fold_add_finite (l : list jsnum) :
  Forall (fun x => exists r, x = Num r /\ -1 <= r <= 1) l ->
  forall acc : R,
    exists total,
      fold_left add l (Num acc) = Num total /\
      acc - INR (List.length l) <= total <= acc + INR (List.length l).
Proof.
  induction 1 as [|x l (r & -> & Hr) _ IH]; intros acc.
  - exists acc. simpl. split; [done|lra].
  - cbn [fold_left add]. destruct (IH (acc + r)) as (total & -> & Ht).
    exists total. split; [done|]. cbn [List.length]. rewrite S_INR. lra.
Qed.

Lemma calculateOverallSentiment_score (articles : list Article) o :
  calculateOverallSentiment articles = Some o ->
  numericSentiments articles <> [] /\
  News.score o
  = divide (fold_left add (numericSentiments articles) (Num 0))
      (INR (List.length (numericSentiments articles))).
Proof.
  unfold calculateOverallSentiment. destruct articles as [|a l]; [done|].
  destruct (numericSentiments (a :: l)) as [|x xs]; [done|].
  intros [= <-]. split; [done|reflexivity].
Qed.

End Overall.

(** X5. [calculateOverallSentiment] is [null] exactly when no article has
    a numeric, non-NaN sentiment. Otherwise the three distribution counts
    add up to the number of such sentiments, and the label is 'Positive'
    exactly when the score is above 0.2, 'Negative' exactly when it is
    below -0.2. *)
Theorem X5_overall_sentiment_distribution :
  forall articles : list News.Article,
    (News.calculateOverallSentiment articles = None <->
     News.numericSentiments articles = []) /\
    forall o,
      News.calculateOverallSentiment articles = Some o ->
      (News.positive o + News.neutral o + News.negative o
       = List.length (News.numericSentiments articles))%nat /\
      (News.label o = Model.Positive <-> JS.gtb (News.score o) 0.2 = true) /\
      (News.label o = Model.Negative <-> JS.ltb (News.score o) (-0.2) = true).
Proof.
  intros articles. unfold News.calculateOverallSentiment.
  pose proof (numericSentiments_not_NaN articles) as Hnan.
  destruct articles as [|a l]; [split; [done|intros o [=]]|].
  destruct (News.numericSentiments (a :: l)) as [|x xs] eqn:E.
  { split; [done|intros o [=]]. }
  split; [split; intros [=]|].
  intros o [= <-]. cbn [News.positive News.neutral News.negative News.label News.score].
  split; [by apply counts_partition|].
  set (avg := JS.divide _ _).
  assert (Hexcl : JS.gtb avg 0.2 = true -> JS.ltb avg (-0.2) = false).
  { destruct avg as [|r|[]]; simpl; try done.
    unfold JS.Rltb. repeat destruct Rlt_dec; try done. lra. }
  destruct (JS.gtb avg 0.2) eqn:Hg, (JS.ltb avg (-0.2)) eqn:Hl;
    try (specialize (Hexcl eq_refl); discriminate); repeat split; done.
Qed.

(** X5 on the mock articles of 'AAPL'. *)
Lemma X5_overall_sentiment_distribution_witness :
  exists o,
    News.calculateOverallSentiment (News.mockArticles 0 "AAPL") = Some o /\
    (News.positive o + News.neutral o + News.negative o = 6)%nat.
Proof.
  eexists. split; [reflexivity|].
  by apply (proj2 (X5_overall_sentiment_distribution (News.mockArticles 0 "AAPL"))).
Defined.

(** X6. When every numeric sentiment of the articles lies in [-1, 1], so
    does the overall score, which is their mean. *)
Theorem X6_overall_score_is_a_bounded_mean :
  forall (articles : list News.Article) o,
    News.calculateOverallSentiment articles = Some o ->
    Forall (fun x => exists r, x = JS.Num r /\ (-1 <= r <= 1)%R)
      (News.numericSentiments articles) ->
    exists mean,
      News.score o = JS.Num mean /\ (-1 <= mean <= 1)%R /\
      fold_left JS.add (News.numericSentiments articles) (JS.Num 0)
      = JS.Num (mean * INR (List.length (News.numericSentiments articles))).
Proof.
  intros articles o Ho Hall.
  apply calculateOverallSentiment_score in Ho as [Hne ->].
  set (xs := News.numericSentiments articles) in *.
  destruct (fold_add_finite xs Hall 0) as (total & Hsum & Hbound).
  rewrite Hsum. cbn [JS.divide].
  assert (Hn : (0 < INR (List.length xs))%R).
  { apply lt_0_INR. destruct xs; [done|simpl; lia]. }
  exists (total / INR (List.length xs))%R. split; [done|]. split.
  - split.
    + apply Rmult_le_reg_r with (r := INR (List.length xs)); [done|].
      unfold Rdiv. rewrite Rmult_assoc, Rinv_l by lra. lra.
    + apply Rmult_le_reg_r with (r := INR (List.length xs)); [done|].
      unfold Rdiv. rewrite Rmult_assoc, Rinv_l by lra. lra.
  - f_equal. unfold Rdiv. rewrite Rmult_assoc, Rinv_l by lra. lra.
Qed.

(** X6 on the mock articles of 'AAPL'. *)
Lemma X6_overall_score_is_a_bounded_mean_witness :
  exists o mean,
    News.calculateOverallSentiment (News.mockArticles 0 "AAPL") = Some o /\
    News.score o = JS.Num mean /\ (-1 <= mean <= 1)%R.
Proof.
  destruct (X6_overall_score_is_a_bounded_mean (News.mockArticles 0 "AAPL") _ eq_refl)
    as (mean & Hscore & Hbound & _).
  - repeat (constructor; [eexists; split; [reflexivity|lra]|]). constructor.
  - eexists _, mean. split; [reflexivity|]. split; [exact Hscore|exact Hbound].
Defined.

(** ** Letter case *)
Section LetterCase.
Import JS News.

Lemma toLowerCase_empty (t : string) :
  String.eqb t "" = String.eqb (toLowerCase t) "".
Proof. by destruct t. Qed.

End LetterCase.

(** X7. The news service ignores letter case: two texts that agree once
    lower-cased get the same sentiment score and the same category, and
    two articles whose titles agree once lower-cased and whose sources
    are equal have the same dedup key, so the second is dropped. *)
Theorem X7_news_ignores_letter_case :
  forall t1 t2 : string,
    JS.toLowerCase t1 = JS.toLowerCase t2 ->
    News.calculateSentiment t1 = News.calculateSentiment t2 /\
    News.categorizeNews (Some t1) = News.categorizeNews (Some t2) /\
    forall a b : News.Article,
      News.title a = Some t1 -> News.title b = Some t2 ->
      News.source a = News.source b ->
      News.dedupKey a = News.dedupKey b /\
      News.deduplicateArticles [a; b] = [a].
Proof.
  intros t1 t2 H. repeat apply conj.
  - unfold News.calculateSentiment.
    by rewrite (toLowerCase_empty t1), (toLowerCase_empty t2), H.
  - unfold News.categorizeNews.
    by rewrite (toLowerCase_empty t1), (toLowerCase_empty t2), H.
  - intros a b Ha Hb Hs.
    assert (Hk : News.dedupKey a = News.dedupKey b).
    { unfold News.dedupKey, News.titlePrefix. rewrite Ha, Hb, Hs. simpl. by rewrite H. }
    split; [exact Hk|]. unfold News.deduplicateArticles. simpl.
    destruct (decide (News.dedupKey a ∈ (∅ : gset string))); [set_solver|].
    destruct (decide (News.dedupKey b ∈ {[News.dedupKey a]} ∪ (∅ : gset string)));
      [done|set_solver].
Qed.

(** X7 at the Reuters headline and its repeat in another case. *)
Lemma X7_news_ignores_letter_case_witness :
  News.calculateSentiment "Apple Beats Expectations"
  = News.calculateSentiment "Apple beats expectations" /\
  News.deduplicateArticles [Inputs.reuters; Inputs.reuters_again] = [Inputs.reuters].
Proof.
  destruct (X7_news_ignores_letter_case
              "Apple Beats Expectations" "Apple beats expectations" eq_refl)
    as (Hs & _ & Hd).
  split; [exact Hs|]. by apply Hd.
Defined.

(** ** The entries of [analyzeBulkSentiment] *)
Section Entries.
Import JS Model.
Local Open Scope R_scope.

(** The label of an entry follows its score, the label of a score that
    is NaN being 'Neutral'; its confidence is 100 times the size of the
    score, or 50 in the entry of the [catch] branch. *)
#[local] Abbreviation coherent e :=
  ((label e = Positive <-> gtb (score e) 0.2 = true) /\
   (label e = Negative <-> ltb (score e) (-0.2) = true) /\
   (label e = Neutral <-> gtb (score e) 0.2 = false /\ ltb (score e) (-0.2) = false) /\
   (score e = NaN -> label e = Neutral /\ confidence e = NaN) /\
   match factors e with
   | FactorsError => score e = Num 0 /\ confidence e = Num 50
   | FactorsOf _ _ _ _ => confidence e = scale (abs (score e)) 100
   end).

Lemma label_by_thresholds (x : jsnum) (l : Label) :
  l = (if gtb x 0.2 then Positive else if ltb x (-0.2) then Negative else Neutral) ->
  (l = Positive <-> gtb x 0.2 = true) /\
  (l = Negative <-> ltb x (-0.2) = true) /\
  (l = Neutral <-> gtb x 0.2 = false /\ ltb x (-0.2) = false).
Proof.
  intros ->. destruct x as [|r|[]]; cbn [gtb ltb negb]; unfold Rltb.
  - repeat split; done.
  - destruct (Rlt_dec 0.2 r), (Rlt_dec r (-0.2));
      repeat split; intros; try done; try lra; by destruct_and?.
  - repeat split; intros; try done; by destruct_and?.
  - repeat split; intros; try done; by destruct_and?.
Qed.

Lemma analysed_coherent (x : jsnum) cp v mc s (t : Z) :
  coherent {| score := x;
              label := if gtb x 0.2 then Positive
                       else if ltb x (-0.2) then Negative else Neutral;
              confidence := scale (abs x) 100;
              lastUpdate := t;
              factors := FactorsOf cp v mc s |}.
Proof.
  cbn [score label confidence factors].
  destruct (label_by_thresholds x _ eq_refl) as (Hpos & Hneg & Hneu).
  split; [exact Hpos|]. split; [exact Hneg|]. split; [exact Hneu|].
  split; [|done]. by intros ->.
Qed.

Lemma neutral_coherent (e : SentimentResult) :
  score e = Num 0 -> label e = Neutral -> confidence e = Num 50 ->
  factors e = FactorsError -> coherent e.
Proof.
  intros Hs Hl Hc Hf. rewrite Hs, Hl, Hf. cbn [gtb ltb]. unfold Rltb.
  destruct (Rlt_dec 0.2 0), (Rlt_dec 0 (-0.2)); try lra.
  repeat split; intros; try done.
Qed.

Lemma realTime_step_coherent clock m stock :
  JsMap.all (fun e => coherent e) m ->
  JsMap.all (fun e => coherent e) (RealTime.step clock m stock).
Proof.
  intros Hm. unfold RealTime.step, RealTime.analyze.
  destruct (change stock); apply all_set; try done.
  - apply analysed_coherent.
  - by apply neutral_coherent.
Qed.

Lemma simpleCors_step_coherent clock m stock :
  JsMap.all (fun e => coherent e) m ->
  JsMap.all (fun e => coherent e) (SimpleCors.step clock m stock).
Proof.
  intros Hm. unfold SimpleCors.step, SimpleCors.analyze.
  destruct (change stock); apply all_set; try done.
  - apply analysed_coherent.
  - by apply neutral_coherent.
Qed.

Lemma yahoo_step_coherent clock m stock draws i :
  JsMap.all (fun e => coherent e) m ->
  JsMap.all (fun e => coherent e) (fst (Yahoo.step clock m stock draws i)).
Proof.
  intros Hm. unfold Yahoo.step, Yahoo.analyze, bind, ret.
  destruct (change stock); [|by apply all_set, neutral_coherent].
  destruct (Yahoo.getMarketSentiment clock draws i) as [ms j].
  apply all_set; [done|]. apply analysed_coherent.
Qed.

End Entries.

(** X8. In the Map of each [analyzeBulkSentiment] the label of every entry
    follows its score by the tests [score > 0.2] and [score < -0.2], so
    that a score that is NaN has the label 'Neutral'; and the confidence is
    100 times the absolute score, NaN for the score NaN, except in the
    entry set when processing threw, where the score is 0 and the
    confidence 50. *)
Theorem X8_entries_have_the_label_of_their_score :
  let coherent := fun e : Model.SentimentResult =>
    (Model.label e = Model.Positive <-> JS.gtb (Model.score e) 0.2 = true) /\
    (Model.label e = Model.Negative <-> JS.ltb (Model.score e) (-0.2) = true) /\
    (Model.label e = Model.Neutral <->
     JS.gtb (Model.score e) 0.2 = false /\ JS.ltb (Model.score e) (-0.2) = false) /\
    (Model.score e = JS.NaN ->
     Model.label e = Model.Neutral /\ Model.confidence e = JS.NaN) /\
    match Model.factors e with
    | Model.FactorsError =>
        Model.score e = JS.Num 0 /\ Model.confidence e = JS.Num 50
    | Model.FactorsOf _ _ _ _ =>
        Model.confidence e = JS.scale (JS.abs (Model.score e)) 100
    end in
  (forall clock stocks m,
      RealTime.analyzeBulkSentiment clock stocks = JS.Resolved m ->
      JsMap.all coherent m) /\
  (forall clock stocks m,
      SimpleCors.analyzeBulkSentiment clock stocks = JS.Resolved m ->
      JsMap.all coherent m) /\
  (forall clock stocks draws i m,
      fst (Yahoo.analyzeBulkSentiment clock stocks draws i) = JS.Resolved m ->
      JsMap.all coherent m).
Proof.
  intros coherent. repeat apply conj.
  - intros clock stocks m [= <-]. apply (fold_left_invariant (JsMap.all coherent)).
    + intros a b. apply realTime_step_coherent.
    + apply all_empty.
  - intros clock stocks m [= <-]. apply (fold_left_invariant (JsMap.all coherent)).
    + intros a b. apply simpleCors_step_coherent.
    + apply all_empty.
  - intros clock stocks draws i m Hm.
    unfold Yahoo.analyzeBulkSentiment, Model.bind, Model.ret in Hm.
    pose proof (yahoo_loop_invariant (JsMap.all coherent) clock
                  (fun m stock d j => yahoo_step_coherent clock m stock d j)
                  stocks JsMap.empty draws i (all_empty _)) as Hall.
    destruct (Yahoo.loop clock JsMap.empty stocks draws i) as [m' j].
    simpl in Hm. injection Hm as <-. exact Hall.
Qed.

(** X8 at the entry of a stock whose source is 'constructor': its score
    is NaN and its label 'Neutral'. *)
Lemma X8_entries_have_the_label_of_their_score_witness :
  exists e,
    JsMap.get "CTOR"
      (fold_left (RealTime.step Inputs.mondayMorning)
         [Inputs.nvda; Inputs.inheritedSource] JsMap.empty) = Some e /\
    Model.score e = JS.NaN /\ Model.label e = Model.Neutral.
Proof.
  eexists. split; [reflexivity|]. split; [reflexivity|].
  eapply (proj1 X8_entries_have_the_label_of_their_score
            Inputs.mondayMorning [Inputs.nvda; Inputs.inheritedSource] _ eq_refl
            "CTOR"%string); reflexivity.
Defined.

(** ** The sign of a gainer's score *)
Section Gainers.
Import JS Model.
Local Open Scope R_scope.

Ltac split_ifs :=
  repeat match goal with
         | |- context [if ?b then _ else _] => destruct b
         | |- context [match ?x with Some _ => _ | None => _ end] => destruct x
         end.

(** An entry that is not negative, whose score when a number is at least
    -0.04, and which is positive from a change of 3% when its score is a
    number. *)
#[local] Abbreviation gainerEntry e :=
  (label e <> Negative /\
   (forall r, score e = Num r -> -0.04 <= r) /\
   forall cp v mc s r,
     factors e = FactorsOf cp v mc s -> score e = Num r -> geb cp 3 = true ->
     label e = Positive).

Lemma realTime_context_ge clock : -0.15 <= RealTime.getRealTimeMarketContext clock.
Proof. unfold RealTime.getRealTimeMarketContext. cbv zeta. split_ifs; lra. Qed.

Lemma simpleCors_context_ge clock : -0.15 <= SimpleCors.getMarketSentimentContext clock.
Proof.
  unfold SimpleCors.getMarketSentimentContext. cbv zeta.
  pose proof (SIN_bound (IZR (hours clock) / 24 * PI * 2)).
  split_ifs; lra.
Qed.

Lemma realTime_number stock cp :
  namesInherited (source stock) = false ->
  exists x,
    RealTime.calculateRealTimeSentiment stock cp = ScoreNumber (Num x) /\
    0 <= x /\ (geb cp 3 = true -> 0.45 <= x).
Proof.
  intros Hname. unfold RealTime.calculateRealTimeSentiment. cbv zeta.
  rewrite addProperty_number by done. eexists. split; [reflexivity|].
  unfold bonusOf, RealTime.sourceBonus.
  destruct (source stock) as [s|]; cbn [lookup]; split; try intros ->; split_ifs; lra.
Qed.

Lemma simpleCors_number stock cp :
  namesInherited (sector stock) = false ->
  exists x,
    SimpleCors.calculateAdvancedSentiment stock cp = ScoreNumber (Num x) /\
    0 <= x /\ (geb cp 3 = true -> 0.45 <= x).
Proof.
  intros Hname. unfold SimpleCors.calculateAdvancedSentiment. cbv zeta.
  rewrite addProperty_number by done.
  unfold bonusOf, SimpleCors.sectorBonus.
  destruct (marketCap stock) as [cap|]; [destruct (includes "T" cap)|];
    cbn [toNumber scale]; eexists; (split; [reflexivity|]);
    destruct (sector stock) as [s|]; cbn [lookup]; split; try intros ->;
    split_ifs; lra.
Qed.

Lemma yahoo_base_ge stock cp :
  0 <= Yahoo.calculateSentimentScore cp stock /\
  (geb cp 3 = true -> 0.5 <= Yahoo.calculateSentimentScore cp stock).
Proof.
  unfold Yahoo.calculateSentimentScore. cbv zeta.
  split; try intros ->; split_ifs; lra.
Qed.

Lemma gainer_label (s : R) (l : Label) :
  l = (if gtb (Num s) 0.2 then Positive
       else if ltb (Num s) (-0.2) then Negative else Neutral) ->
  (-0.04 <= s -> l <> Negative) /\ (0.2 < s -> l = Positive).
Proof.
  intros ->. cbn [gtb ltb]. unfold Rltb.
  destruct (Rlt_dec 0.2 s), (Rlt_dec s (-0.2)); split; intros; try done; lra.
Qed.

Lemma clamp_ge (lo x : R) : lo <= 1 -> lo <= x -> lo <= min 1 (max (-1) x).
Proof.
  intros. unfold min, max, Rmin, Rmax.
  destruct (Rle_dec (-1) x), (Rle_dec 1 _); lra.
Qed.

Lemma neutral_gainerEntry (e : SentimentResult) :
  label e = Neutral -> (score e = NaN \/ score e = Num 0) ->
  (factors e = FactorsError \/ score e = NaN) -> gainerEntry e.
Proof.
  intros Hl Hs Hf. rewrite Hl. split; [done|]. split.
  - intros r Hr. destruct Hs as [Hs|Hs]; rewrite Hs in Hr; [done|].
    injection Hr as <-. lra.
  - intros cp v mc s r Hfactors Hr. destruct Hf as [Hf|Hf]; congruence.
Qed.

(** An entry whose score is the clamp of a weighted sum of a base of at
    least 0, and of at least 0.45 from a change of 3%, and of a term of at
    least -0.04. *)
Lemma weighted_gainerEntry (base weight term : R) cp v mc s (t : Z) :
  0 <= base -> (geb cp 3 = true -> 0.45 <= base) ->
  0.8 <= weight <= 1 -> -0.04 <= term ->
  gainerEntry {| score := Num (min 1 (max (-1) (base * weight + term)));
                 label := if gtb (Num (min 1 (max (-1) (base * weight + term)))) 0.2
                          then Positive
                          else if ltb (Num (min 1 (max (-1) (base * weight + term))))
                                    (-0.2)
                               then Negative else Neutral;
                 confidence := Num (Rabs (min 1 (max (-1) (base * weight + term))) * 100);
                 lastUpdate := t;
                 factors := FactorsOf cp v mc s |}.
Proof.
  intros Hbase Hthree Hweight Hterm. cbn [score label factors].
  set (raw := base * weight + term).
  destruct (gainer_label (min 1 (max (-1) raw)) _ eq_refl) as [Hneg Hpos].
  assert (Hlow : -0.04 <= min 1 (max (-1) raw)).
  { apply clamp_ge; [lra|]. unfold raw. nra. }
  split; [by apply Hneg|]. split.
  - by intros r [= <-].
  - intros cp' v' mc' s' r [= <- _ _ _] _ Hcp. apply Hpos.
    apply Rlt_le_trans with 0.3; [lra|]. apply clamp_ge; [lra|].
    specialize (Hthree Hcp). unfold raw. nra.
Qed.

Lemma realTime_step_gainer clock m stock :
  JsMap.all (fun e => gainerEntry e) m ->
  JsMap.all (fun e => gainerEntry e) (RealTime.step clock m stock).
Proof.
  intros Hm. unfold RealTime.step.
  destruct (RealTime.analyze clock stock) as [e|] eqn:He; apply all_set; try done;
    [|apply neutral_gainerEntry; [done|by right|by left]].
  pose proof (realTime_analyze_score clock stock e He) as Hscore.
  destruct (namesInherited (source stock)) eqn:Hname.
  { destruct Hscore as (Hnan & Hlabel & _).
    apply neutral_gainerEntry; [done|by left|by right]. }
  unfold RealTime.analyze in He. destruct (change stock) as [c|]; [|done].
  injection He as <-.
  destruct (realTime_number stock (parseFloat (removeFirst "+" (removeFirst "%" c)))
              Hname) as (x & -> & Hx & Hthree).
  cbn [toNumber scale add maxWith minWith abs].
  pose proof (realTime_context_ge clock).
  apply weighted_gainerEntry; try done; lra.
Qed.

Lemma simpleCors_step_gainer clock m stock :
  JsMap.all (fun e => gainerEntry e) m ->
  JsMap.all (fun e => gainerEntry e) (SimpleCors.step clock m stock).
Proof.
  intros Hm. unfold SimpleCors.step.
  destruct (SimpleCors.analyze clock stock) as [e|] eqn:He; apply all_set; try done;
    [|apply neutral_gainerEntry; [done|by right|by left]].
  pose proof (simpleCors_analyze_score clock stock e He) as Hscore.
  destruct (namesInherited (sector stock)) eqn:Hname.
  { destruct Hscore as (Hnan & Hlabel & _).
    apply neutral_gainerEntry; [done|by left|by right]. }
  unfold SimpleCors.analyze in He. destruct (change stock) as [c|]; [|done].
  injection He as <-.
  destruct (simpleCors_number stock (parseFloat (removeFirst "+" (removeFirst "%" c)))
              Hname) as (x & -> & Hx & Hthree).
  cbn [toNumber scale add maxWith minWith abs].
  pose proof (simpleCors_context_ge clock).
  apply weighted_gainerEntry; try done; lra.
Qed.

Lemma yahoo_step_gainer clock draws m stock i :
  (forall n, 0 <= draws n) ->
  JsMap.all (fun e => gainerEntry e) m ->
  JsMap.all (fun e => gainerEntry e) (fst (Yahoo.step clock m stock draws i)).
Proof.
  intros Hdraws Hm.
  unfold Yahoo.step, Yahoo.analyze, Yahoo.getMarketSentiment, bind, random, ret.
  destruct (change stock) as [c|];
    [|apply all_set; [done|]; apply neutral_gainerEntry; [done|by right|by left]].
  cbv zeta. cbn [fst]. apply all_set; [done|].
  destruct (yahoo_base_ge stock (parseFloat (removeFirst "+" (removeFirst "%" c))))
    as [Hbase Hthree].
  specialize (Hdraws i).
  apply weighted_gainerEntry;
    [done | intros Hcp; specialize (Hthree Hcp); lra | lra | split_ifs; lra].
Qed.

Lemma yahoo_loop_invariant_at (P : JsMap.t SentimentResult -> Prop) clock draws :
  (forall m stock i, P m -> P (fst (Yahoo.step clock m stock draws i))) ->
  forall stocks m i, P m -> P (fst (Yahoo.loop clock m stocks draws i)).
Proof.
  intros Hstep. induction stocks as [|stock stocks IH]; intros m i Hm; simpl; [done|].
  unfold bind at 1. specialize (Hstep m stock i Hm).
  destruct (Yahoo.step clock m stock draws i) as [m' j]. by apply IH.
Qed.

End Gainers.

(** X9. No entry of the Map of an [analyzeBulkSentiment] is labelled
    negative. A score that is a number is at least -0.04, and an entry with
    such a score whose price change parsed to at least 3 is labelled
    positive; a score that is NaN, which RealTimeGainersService and
    SimpleCorsService store for a [source] or [sector] that names an
    inherited property, has the label 'Neutral' whatever the change. For
    RealYahooFinanceService this holds when [Math.random()] returns no
    negative number. *)
Theorem X9_gainers_are_never_negative :
  let gainerEntry := fun e : Model.SentimentResult =>
    Model.label e <> Model.Negative /\
    (forall r, Model.score e = JS.Num r -> (-0.04 <= r)%R) /\
    forall cp v mc s r,
      Model.factors e = Model.FactorsOf cp v mc s -> Model.score e = JS.Num r ->
      JS.geb cp 3 = true -> Model.label e = Model.Positive in
  (forall clock stocks m,
      RealTime.analyzeBulkSentiment clock stocks = JS.Resolved m ->
      JsMap.all gainerEntry m) /\
  (forall clock stocks m,
      SimpleCors.analyzeBulkSentiment clock stocks = JS.Resolved m ->
      JsMap.all gainerEntry m) /\
  (forall clock stocks draws i m,
      (forall n, (0 <= draws n)%R) ->
      fst (Yahoo.analyzeBulkSentiment clock stocks draws i) = JS.Resolved m ->
      JsMap.all gainerEntry m) /\
  (forall clock stock e,
      Model.namesInherited (Model.source stock) = true ->
      RealTime.analyze clock stock = Some e ->
      Model.score e = JS.NaN /\ Model.label e = Model.Neutral) /\
  (forall clock stock e,
      Model.namesInherited (Model.sector stock) = true ->
      SimpleCors.analyze clock stock = Some e ->
      Model.score e = JS.NaN /\ Model.label e = Model.Neutral).
Proof.
  intros gainerEntry. repeat apply conj.
  - intros clock stocks m [= <-]. apply (fold_left_invariant (JsMap.all gainerEntry)).
    + intros a b. apply realTime_step_gainer.
    + apply all_empty.
  - intros clock stocks m [= <-]. apply (fold_left_invariant (JsMap.all gainerEntry)).
    + intros a b. apply simpleCors_step_gainer.
    + apply all_empty.
  - intros clock stocks draws i m Hdraws Hm.
    unfold Yahoo.analyzeBulkSentiment, Model.bind, Model.ret in Hm.
    pose proof (yahoo_loop_invariant_at (JsMap.all gainerEntry) clock draws
                  (fun m stock j => yahoo_step_gainer clock draws m stock j Hdraws)
                  stocks JsMap.empty i (all_empty _)) as Hall.
    destruct (Yahoo.loop clock JsMap.empty stocks draws i) as [m' j].
    simpl in Hm. injection Hm as <-. exact Hall.
  - intros clock stock e Hname He.
    pose proof (realTime_analyze_score clock stock e He) as Hscore.
    rewrite Hname in Hscore. by destruct Hscore as (? & ? & _).
  - intros clock stock e Hname He.
    pose proof (simpleCors_analyze_score clock stock e He) as Hscore.
    rewrite Hname in Hscore. by destruct Hscore as (? & ? & _).
Qed.

(** X9 at the entry of NVDA, with every draw 0. *)
Lemma X9_gainers_are_never_negative_witness :
  exists e,
    JsMap.get "NVDA"
      (fst (Yahoo.loop Inputs.mondayMorning JsMap.empty
              [Inputs.nvda; Inputs.broken] (Inputs.steady 0) 0)) = Some e /\
    Model.label e <> Model.Negative.
Proof.
  eexists. split; [reflexivity|].
  eapply (proj1 (proj2 (proj2 X9_gainers_are_never_negative))
            Inputs.mondayMorning [Inputs.nvda; Inputs.broken] (Inputs.steady 0) 0%nat _
            (fun n => Rle_refl 0) eq_refl "NVDA"%string).
  reflexivity.
Defined.

(** ** A larger gain never scores lower *)
Section Monotone.
Import JS Model.
Local Open Scope R_scope.

Ltac split_thresholds :=
  cbn [geb negb]; unfold Rleb;
  repeat match goal with
         | |- context [Rle_dec ?a ?b] => destruct (Rle_dec a b); try lra
         end.

Ltac split_rest :=
  repeat match goal with
         | |- context [if ?b then _ else _] => destruct b
         | |- context [match ?x with Some _ => _ | None => _ end] => destruct x
         end.

(** Four scores that are numbers, in ascending order. *)
#[local] Abbreviation ascending s0 s1 s2 s3 :=
  (exists x0 x1 x2 x3 : R,
      s0 = ScoreNumber (Num x0) /\ s1 = ScoreNumber (Num x1) /\
      s2 = ScoreNumber (Num x2) /\ s3 = ScoreNumber (Num x3) /\
      x0 <= x1 /\ x1 <= x2 /\ x2 <= x3).

Lemma realTime_base_monotone stock (c1 c2 : R) :
  namesInherited (source stock) = false -> c1 <= c2 ->
  ascending (RealTime.calculateRealTimeSentiment stock NaN)
    (RealTime.calculateRealTimeSentiment stock (Num c1))
    (RealTime.calculateRealTimeSentiment stock (Num c2))
    (RealTime.calculateRealTimeSentiment stock (Inf false)).
Proof.
  intros Hname Hle. unfold RealTime.calculateRealTimeSentiment. cbv zeta.
  rewrite !addProperty_number by done.
  do 4 eexists. do 4 (split; [reflexivity|]).
  generalize (bonusOf RealTime.sourceBonus (source stock)). intros bonus.
  repeat split; split_thresholds; split_rest; lra.
Qed.

Lemma simpleCors_base_monotone stock (c1 c2 : R) :
  namesInherited (sector stock) = false -> c1 <= c2 ->
  ascending (SimpleCors.calculateAdvancedSentiment stock NaN)
    (SimpleCors.calculateAdvancedSentiment stock (Num c1))
    (SimpleCors.calculateAdvancedSentiment stock (Num c2))
    (SimpleCors.calculateAdvancedSentiment stock (Inf false)).
Proof.
  intros Hname Hle. unfold SimpleCors.calculateAdvancedSentiment. cbv zeta.
  rewrite !addProperty_number by done.
  generalize (bonusOf SimpleCors.sectorBonus (sector stock)). intros bonus.
  destruct (marketCap stock) as [cap|]; [destruct (includes "T" cap)|];
    cbn [toNumber scale];
    do 4 eexists; do 4 (split; [reflexivity|]);
    repeat split; split_thresholds; split_rest; lra.
Qed.

Lemma yahoo_base_monotone stock (c1 c2 : R) :
  c1 <= c2 ->
  Yahoo.calculateSentimentScore NaN stock
    <= Yahoo.calculateSentimentScore (Num c1) stock /\
  Yahoo.calculateSentimentScore (Num c1) stock
    <= Yahoo.calculateSentimentScore (Num c2) stock /\
  Yahoo.calculateSentimentScore (Num c2) stock
    <= Yahoo.calculateSentimentScore (Inf false) stock.
Proof.
  intros Hle. unfold Yahoo.calculateSentimentScore. cbv zeta.
  repeat split; split_thresholds; split_rest; lra.
Qed.

End Monotone.

(** X10. In each service the score computed from the quote grows with the
    percent change, all else equal: a larger change never gives a lower
    score, a change that is not a number scores lowest and an infinite one
    highest. In RealTimeGainersService and SimpleCorsService this is so for
    a stock whose [source], respectively [sector], names no inherited
    property; for the others the result is a string, not a number. *)
Theorem X10_score_grows_with_the_change :
  forall (stock : Model.Stock) (c1 c2 : R),
    (c1 <= c2)%R ->
    let ascending := fun s0 s1 s2 s3 : Model.Scored =>
      exists x0 x1 x2 x3 : R,
        s0 = Model.ScoreNumber (JS.Num x0) /\ s1 = Model.ScoreNumber (JS.Num x1) /\
        s2 = Model.ScoreNumber (JS.Num x2) /\ s3 = Model.ScoreNumber (JS.Num x3) /\
        (x0 <= x1)%R /\ (x1 <= x2)%R /\ (x2 <= x3)%R in
    (if Model.namesInherited (Model.source stock)
     then forall x, RealTime.calculateRealTimeSentiment stock x = Model.ScoreText
     else ascending (RealTime.calculateRealTimeSentiment stock JS.NaN)
            (RealTime.calculateRealTimeSentiment stock (JS.Num c1))
            (RealTime.calculateRealTimeSentiment stock (JS.Num c2))
            (RealTime.calculateRealTimeSentiment stock (JS.Inf false))) /\
    (if Model.namesInherited (Model.sector stock)
     then forall x,
         Model.toNumber (SimpleCors.calculateAdvancedSentiment stock x) = JS.NaN
     else ascending (SimpleCors.calculateAdvancedSentiment stock JS.NaN)
            (SimpleCors.calculateAdvancedSentiment stock (JS.Num c1))
            (SimpleCors.calculateAdvancedSentiment stock (JS.Num c2))
            (SimpleCors.calculateAdvancedSentiment stock (JS.Inf false))) /\
    (Yahoo.calculateSentimentScore JS.NaN stock
       <= Yahoo.calculateSentimentScore (JS.Num c1) stock
     /\ Yahoo.calculateSentimentScore (JS.Num c1) stock
       <= Yahoo.calculateSentimentScore (JS.Num c2) stock
     /\ Yahoo.calculateSentimentScore (JS.Num c2) stock
       <= Yahoo.calculateSentimentScore (JS.Inf false) stock)%R.
Proof.
  intros stock c1 c2 Hle ascending. split; [|split].
  - destruct (Model.namesInherited (Model.source stock)) eqn:Hname.
    + intros x. pose proof (realTime_scored stock x) as H. by rewrite Hname in H.
    + by apply realTime_base_monotone.
  - destruct (Model.namesInherited (Model.sector stock)) eqn:Hname.
    + intros x. pose proof (simpleCors_scored stock x) as H. by rewrite Hname in H.
    + by apply simpleCors_base_monotone.
  - by apply yahoo_base_monotone.
Qed.

(** X10 between a change of 2.5 and one of 4 of the same quote. *)
Lemma X10_score_grows_with_the_change_witness :
  exists x1 x2 : R,
    RealTime.calculateRealTimeSentiment Inputs.nvda (JS.Num 2.5)
    = Model.ScoreNumber (JS.Num x1) /\
    RealTime.calculateRealTimeSentiment Inputs.nvda (JS.Num 4)
    = Model.ScoreNumber (JS.Num x2) /\
    (x1 <= x2)%R.
Proof.
  destruct (X10_score_grows_with_the_change Inputs.nvda 2.5 4) as [Hrt _]; [lra|].
  change (Model.namesInherited (Model.source Inputs.nvda)) with false in Hrt.
  destruct Hrt as (x0 & x1 & x2 & x3 & _ & H1 & H2 & _ & _ & Hle & _).
  by exists x1, x2.
Defined.

(** ** The caches under any run of writes and reads *)
Section CacheInvariant.
Context {V : Type}.
Implicit Types (m : JsMap.t V) (k : string) (v : V).

Lemma keys_delete_sublist m k : JsMap.keys (JsMap.delete k m) `sublist_of` JsMap.keys m.
Proof.
  induction m as [|[k' v'] m IH]; simpl; [done|].
  destruct (String.eqb k' k); simpl; [by apply sublist_cons|by apply sublist_skip].
Qed.

Lemma NoDup_keys_delete m k : NoDup (JsMap.keys m) -> NoDup (JsMap.keys (JsMap.delete k m)).
Proof. intros Hnd. eapply sublist_NoDup; [exact Hnd|apply keys_delete_sublist]. Qed.

Lemma not_elem_of_keys_delete m k : k ∉ JsMap.keys (JsMap.delete k m).
Proof.
  induction m as [|[k' v'] m IH]; simpl; [set_solver|].
  destruct (String.eqb_spec k' k); simpl; [done|]. set_solver.
Qed.

Lemma get_delete_ne m k k' : k <> k' -> JsMap.get k (JsMap.delete k' m) = JsMap.get k m.
Proof.
  intros Hne. induction m as [|[k0 v0] m IH]; simpl; [done|].
  destruct (String.eqb_spec k0 k'); simpl.
  - subst k0. destruct (String.eqb_spec k' k); [congruence|done].
  - destruct (String.eqb_spec k0 k); [done|exact IH].
Qed.

Lemma get_None_keys m k : JsMap.get k m = None <-> k ∉ JsMap.keys m.
Proof.
  induction m as [|[k' v'] m IH]; simpl; [set_solver|].
  destruct (String.eqb_spec k' k).
  - subst. split; [done|]. set_solver.
  - rewrite IH. set_solver.
Qed.

Lemma size_set_present m k v :
  k ∈ JsMap.keys m -> JsMap.size (JsMap.set k v m) = JsMap.size m.
Proof.
  unfold JsMap.size. induction m as [|[k' v'] m IH]; simpl; intros Hin; [set_solver|].
  destruct (String.eqb_spec k' k); simpl; [done|]. f_equal. apply IH. set_solver.
Qed.

Lemma size_set_fresh m k v :
  k ∉ JsMap.keys m -> JsMap.size (JsMap.set k v m) = S (JsMap.size m).
Proof.
  unfold JsMap.size. induction m as [|[k' v'] m IH]; simpl; intros Hin; [done|].
  destruct (String.eqb_spec k' k); simpl; [set_solver|]. f_equal. apply IH. set_solver.
Qed.

Lemma size_set_le m k v : (JsMap.size (JsMap.set k v m) <= S (JsMap.size m))%nat.
Proof.
  destruct (decide (k ∈ JsMap.keys m)).
  - rewrite size_set_present by done. lia.
  - rewrite size_set_fresh by done. lia.
Qed.

(** The store a full cache is left with once its first key is removed. *)
Lemma delete_firstKey m k0 :
  NoDup (JsMap.keys m) -> JsMap.firstKey m = Some k0 ->
  S (JsMap.size (JsMap.delete k0 m)) = JsMap.size m /\
  JsMap.keys (JsMap.delete k0 m) = tl (JsMap.keys m).
Proof.
  destruct m as [|[k v] m]; [done|]. simpl. intros Hnd [= ->].
  apply NoDup_cons in Hnd as [Hk0 _].
  rewrite String.eqb_refl. by rewrite delete_fresh.
Qed.

End CacheInvariant.

Section CacheRuns.
Context {V : Type}.
Implicit Types (k : string).

Lemma writeBounded_invariant (C : nat) (st : Cache.Store V) k (d : V) (t : Z) :
  (0 < C)%nat ->
  NoDup (JsMap.keys st) -> (JsMap.size st <= C)%nat ->
  NoDup (JsMap.keys (Cache.writeBounded C st k d t)) /\
  (JsMap.size (Cache.writeBounded C st k d t) <= C)%nat.
Proof.
  intros HC Hnd Hsize. unfold Cache.writeBounded.
  destruct (Nat.leb_spec C (JsMap.size st)) as [Hfull|Hroom].
  - destruct (JsMap.firstKey st) as [k0|] eqn:Hfirst.
    + destruct (delete_firstKey st k0 Hnd Hfirst) as [Hless _]. split.
      * by apply NoDup_keys_set, NoDup_keys_delete.
      * pose proof (size_set_le (JsMap.delete k0 st) k
                      {| Cache.data := d; Cache.timestamp := t |}). lia.
    + destruct st; [|done]. unfold JsMap.size in Hfull. simpl in Hfull. lia.
  - split; [by apply NoDup_keys_set|].
    pose proof (size_set_le st k {| Cache.data := d; Cache.timestamp := t |}). lia.
Qed.

Lemma fill_bounded_invariant (C : nat) (ws : list (string * V * Z)) :
  (0 < C)%nat ->
  NoDup (JsMap.keys (Cache.fill (Cache.writeBounded C) ws)) /\
  (JsMap.size (Cache.fill (Cache.writeBounded C) ws) <= C)%nat.
Proof.
  intros HC. induction ws as [|[[k d] t] ws [IH1 IH2]] using rev_ind.
  - split; [apply NoDup_nil_2|]. unfold JsMap.size. simpl. lia.
  - rewrite fill_snoc. by apply writeBounded_invariant.
Qed.

Lemma fill_last_written (write : Cache.Store V -> string -> V -> Z -> Cache.Store V)
  (ws : list (string * V * Z)) k (d : V) (t : Z) :
  (forall st, JsMap.get k (write st k d t)
              = Some {| Cache.data := d; Cache.timestamp := t |}) ->
  JsMap.get k (Cache.fill write (ws ++ [(k, d, t)]))
  = Some {| Cache.data := d; Cache.timestamp := t |}.
Proof. intros Hw. by rewrite fill_snoc. Qed.

Lemma read_other_key (timeout : Z) (st : Cache.Store V) k k' (t : Z) :
  k' <> k -> JsMap.get k' (snd (Cache.read timeout st k t)) = JsMap.get k' st.
Proof.
  intros Hne. unfold Cache.read. destruct (JsMap.get k st) as [item|]; [|done].
  destruct (_ >? _)%Z; simpl; [by apply get_delete_ne|done].
Qed.

Lemma read_hit (timeout : Z) (st : Cache.Store V) k (t : Z) v :
  fst (Cache.read timeout st k t) = Some v <->
  exists T, JsMap.get k st = Some {| Cache.data := v; Cache.timestamp := T |} /\
            (t - T <= timeout)%Z.
Proof.
  unfold Cache.read. destruct (JsMap.get k st) as [[d T]|]; simpl.
  - destruct (Z.gtb_spec (t - T) timeout); simpl.
    + split; [done|]. intros (T' & [= -> ->] & ?). lia.
    + split.
      * intros [= ->]. exists T. split; [done|lia].
      * by intros (T' & [= -> ->] & ?).
  - split; [done|]. by intros (T' & ? & ?).
Qed.

Lemma read_after_write (timeout : Z) (st : Cache.Store V) k v (T t : Z) :
  JsMap.get k st = Some {| Cache.data := v; Cache.timestamp := T |} ->
  ((t - T <= timeout)%Z -> Cache.read timeout st k t = (Some v, st)) /\
  ((t - T > timeout)%Z -> Cache.read timeout st k t = (None, JsMap.delete k st)).
Proof.
  intros Hget. unfold Cache.read. rewrite Hget. simpl.
  destruct (Z.gtb_spec (t - T) timeout); split; intros; try done; lia.
Qed.

End CacheRuns.

(** X11. Whatever keys are written, in whatever order and however often,
    a cache with a size limit never holds more entries than its limit nor a
    key twice, and the value written last is stored: so for [cache] of
    helpers.js and the cache of RealYahooFinanceService, with limit 50. *)
Theorem X11_bounded_cache_stays_within_its_limit :
  (forall (V : Type) (C : nat) (ws : list (string * V * Z)),
      (0 < C)%nat ->
      (JsMap.size (Cache.fill (Cache.writeBounded C) ws) <= C)%nat /\
      NoDup (JsMap.keys (Cache.fill (Cache.writeBounded C) ws))) /\
  (forall (V : Type) (ws : list (string * V * Z)) (k : string) (d : V) (t : Z),
      let helpers := Cache.fill Helpers.cache_set (ws ++ [(k, d, t)]) in
      let yahoo := Cache.fill Yahoo.setCached (ws ++ [(k, d, t)]) in
      (JsMap.size helpers <= 50)%nat /\ NoDup (JsMap.keys helpers) /\
      JsMap.get k helpers = Some {| Cache.data := d; Cache.timestamp := t |} /\
      (JsMap.size yahoo <= 50)%nat /\ NoDup (JsMap.keys yahoo) /\
      JsMap.get k yahoo = Some {| Cache.data := d; Cache.timestamp := t |}).
Proof.
  split.
  - intros V C ws HC. destruct (fill_bounded_invariant C ws HC). done.
  - intros V ws k d t helpers yahoo.
    destruct (fill_bounded_invariant (V:=V) 50 (ws ++ [(k, d, t)])) as [Hnd Hsize]; [lia|].
    repeat split; try done.
    + apply fill_last_written. intros st. apply get_set_eq.
    + apply fill_last_written. intros st. apply get_set_eq.
Qed.

(** X11 at the fifty-one writes, with limit 2. *)
Lemma X11_bounded_cache_stays_within_its_limit_witness :
  (JsMap.size (Cache.fill (Cache.writeBounded 2) Inputs.fiftyOneWrites) <= 2)%nat /\
  NoDup (JsMap.keys (Cache.fill (Cache.writeBounded 2) Inputs.fiftyOneWrites)).
Proof.
  apply (proj1 X11_bounded_cache_stays_within_its_limit nat 2%nat Inputs.fiftyOneWrites).
  lia.
Defined.

(** X12. The write of a cache with a size limit looks only at the size:
    into a full store it removes the first key even when the key written
    is already stored. If the key written is another one, the store is left
    with one entry less than the limit; if it is the first key itself, it
    moves to the end and the size stays. *)
Theorem X12_write_to_full_cache_always_evicts :
  forall (V : Type) (C : nat) (store : Cache.Store V) (k0 k : string) (d : V) (t : Z),
    NoDup (JsMap.keys store) ->
    JsMap.size store = C ->
    JsMap.firstKey store = Some k0 ->
    k ∈ JsMap.keys store ->
    let store' := Cache.writeBounded C store k d t in
    JsMap.get k store' = Some {| Cache.data := d; Cache.timestamp := t |} /\
    (k <> k0 -> S (JsMap.size store') = C /\ JsMap.get k0 store' = None) /\
    (k = k0 -> JsMap.size store' = C /\
               JsMap.keys store' = tl (JsMap.keys store) ++ [k]).
Proof.
  intros V C store k0 k d t Hnd Hsize Hfirst Hin store'.
  unfold store', Cache.writeBounded.
  rewrite Hsize, Nat.leb_refl, Hfirst.
  destruct (delete_firstKey store k0 Hnd Hfirst) as [Hless Hkeys].
  split; [apply get_set_eq|]. split.
  - intros Hne.
    assert (k ∈ JsMap.keys (JsMap.delete k0 store)).
    { rewrite Hkeys. destruct store as [|[k1 v1] rest]; [done|].
      simpl in *. injection Hfirst as ->. set_solver. }
    rewrite size_set_present by done. split; [lia|].
    rewrite get_set_ne by done. apply get_None_keys, not_elem_of_keys_delete.
  - intros ->.
    pose proof (not_elem_of_keys_delete store k0) as Hout.
    rewrite size_set_fresh by done. split; [lia|].
    rewrite keys_set_fresh by done. by rewrite Hkeys.
Qed.

(** X12 at a store of limit 2 holding two keys, the second written again. *)
Lemma X12_write_to_full_cache_always_evicts_witness :
  let store := Cache.fill (Cache.writeBounded 2)
                 [("yahoo_gainers"%string, 1%nat, 0%Z);
                  ("cnbc_gainers"%string, 2%nat, 1%Z)] in
  JsMap.size (Cache.writeBounded 2 store "cnbc_gainers" 3%nat 2) = 1%nat /\
  JsMap.get "yahoo_gainers" (Cache.writeBounded 2 store "cnbc_gainers" 3%nat 2) = None.
Proof.
  intros store.
  destruct (X12_write_to_full_cache_always_evicts nat 2%nat store
              "yahoo_gainers"%string "cnbc_gainers"%string 3%nat 2%Z)
    as (_ & Hother & _).
  - apply (bool_decide_unpack _). vm_compute. reflexivity.
  - reflexivity.
  - reflexivity.
  - apply (bool_decide_unpack _). vm_compute. reflexivity.
  - destruct Hother as [Hsize Hgone]; [discriminate|].
    split; [exact (eq_add_S _ _ Hsize)|exact Hgone].
Defined.

(** X13. The caches of the three quote services: a value written at time
    [T] is served up to 2 minutes later by RealTimeGainersService and up to
    5 minutes later by SimpleCorsService and RealYahooFinanceService; read
    later, the result is [null] and the entry is deleted. A read serves a
    value only from an entry that is not older than the timeout, and it
    leaves every other key as it was. *)
Theorem X13_service_caches_expire :
  forall (V : Type) (store : Cache.Store V) (k : string) (v : V) (T t : Z),
    (let store' := RealTime.setCached store k v T in
     ((t - T <= 120000)%Z -> RealTime.getCached store' k t = (Some v, store')) /\
     ((t - T > 120000)%Z ->
      RealTime.getCached store' k t = (None, JsMap.delete k store'))) /\
    (let store' := SimpleCors.setCached store k v T in
     ((t - T <= 300000)%Z -> SimpleCors.getCached store' k t = (Some v, store')) /\
     ((t - T > 300000)%Z ->
      SimpleCors.getCached store' k t = (None, JsMap.delete k store'))) /\
    (let store' := Yahoo.setCached store k v T in
     ((t - T <= 300000)%Z -> Yahoo.getCached store' k t = (Some v, store')) /\
     ((t - T > 300000)%Z ->
      Yahoo.getCached store' k t = (None, JsMap.delete k store'))) /\
    (forall timeout k',
        k' <> k ->
        JsMap.get k' (snd (Cache.read timeout store k t)) = JsMap.get k' store) /\
    (forall timeout,
        fst (Cache.read timeout store k t) = Some v <->
        exists T', JsMap.get k store = Some {| Cache.data := v; Cache.timestamp := T' |} /\
                   (t - T' <= timeout)%Z).
Proof.
  intros V store k v T t.
  pose proof (read_after_write RealTime.cacheTimeout (RealTime.setCached store k v T)
                k v T t (get_set_eq _ _ _)) as [R1 R2].
  pose proof (read_after_write SimpleCors.cacheTimeout (SimpleCors.setCached store k v T)
                k v T t (get_set_eq _ _ _)) as [S1 S2].
  pose proof (read_after_write Yahoo.cacheTimeout (Yahoo.setCached store k v T)
                k v T t (get_set_eq _ _ _)) as [Y1 Y2].
  repeat apply conj; try assumption.
  - intros timeout k' Hne. by apply read_other_key.
  - intros timeout. apply read_hit.
Qed.

(** X13 at a write at second 1, read back after 2 minutes and 1 ms later. *)
Lemma X13_service_caches_expire_witness :
  let store' := RealTime.setCached JsMap.empty "yahoo_gainers" 42%nat 1000 in
  RealTime.getCached store' "yahoo_gainers" 121000 = (Some 42%nat, store') /\
  RealTime.getCached store' "yahoo_gainers" 121001
  = (None, JsMap.delete "yahoo_gainers" store').
Proof.
  intros store'.
  pose proof (X13_service_caches_expire nat JsMap.empty "yahoo_gainers" 42%nat
                1000 121000) as [[H1 _] _].
  pose proof (X13_service_caches_expire nat JsMap.empty "yahoo_gainers" 42%nat
                1000 121001) as [[_ H2] _].
  split; [apply H1; vm_compute; discriminate|apply H2; vm_compute; reflexivity].
Defined.

(** ** The rate limiter of helpers.js *)
Section RateLimiter.
Import Helpers.
Local Open Scope Z_scope.

Lemma filter_absorb {A} (f g : A -> bool) (l : list A) :
  (forall x, f x = true -> g x = true) ->
  List.filter f (List.filter g l) = List.filter f l.
Proof.
  intros Hfg. induction l as [|x l IH]; simpl; [done|].
  destruct (g x) eqn:Hg; simpl; rewrite IH; [done|].
  destruct (f x) eqn:Hf; [|done]. apply Hfg in Hf. congruence.
Qed.

Lemma filter_sublist_mono {A} (f : A -> bool) (l1 l2 : list A) :
  l1 `sublist_of` l2 -> List.filter f l1 `sublist_of` List.filter f l2.
Proof.
  induction 1 as [|x l1 l2 _ IH|x l1 l2 _ IH]; simpl; [done| |].
  - destruct (f x); [by apply sublist_skip|done].
  - destruct (f x); [by apply sublist_cons|done].
Qed.

Lemma filter_is_sublist {A} (f : A -> bool) (l : list A) : List.filter f l `sublist_of` l.
Proof.
  induction l as [|x l IH]; simpl; [done|].
  destruct (f x); [by apply sublist_skip|by apply sublist_cons].
Qed.

Lemma validRequests_idem requests windowMs now :
  validRequests (validRequests requests windowMs now) windowMs now
  = validRequests requests windowMs now.
Proof. unfold validRequests. by apply filter_absorb. Qed.

(** The requests stored for an API, none when its name is not a key. *)
#[local] Abbreviation stored limits apiName := (default [] (JsMap.get apiName limits)).

(** What one call does, by the number of stored requests in the window. *)
Lemma canMakeRequest_cases limits apiName maxRequests windowMs now :
  let valid := validRequests (stored limits apiName) windowMs now in
  let result := canMakeRequest limits apiName maxRequests windowMs now in
  (maxRequests <= Z.of_nat (List.length valid) ->
   fst result = false /\
   JsMap.get apiName (snd result) = Some (stored limits apiName)) /\
  (Z.of_nat (List.length valid) < maxRequests ->
   fst result = true /\
   JsMap.get apiName (snd result) = Some (valid ++ [now])%list) /\
  (forall other, other <> apiName ->
                 JsMap.get other (snd result) = JsMap.get other limits).
Proof.
  intros valid result. subst valid result. unfold canMakeRequest.
  destruct (JsMap.get apiName limits) as [requests|] eqn:Hget; cbn [default from_option Datatypes.id].
  - rewrite Hget. cbn [default from_option Datatypes.id].
    destruct (Z.geb_spec (Z.of_nat (List.length (validRequests requests windowMs now)))
                maxRequests); cbn [fst snd].
    + split; [done|]. split; [lia|]. done.
    + split; [lia|]. split; [intros _; split; [done|apply get_set_eq]|].
      intros other Hne. by apply get_set_ne.
  - rewrite get_set_eq. cbn [default from_option Datatypes.id].
    destruct (Z.geb_spec (Z.of_nat (List.length (validRequests [] windowMs now)))
                maxRequests); cbn [fst snd].
    + split; [intros _; split; [done|apply get_set_eq]|]. split; [lia|].
      intros other Hne. by apply get_set_ne.
    + split; [lia|]. split; [intros _; split; [done|apply get_set_eq]|].
      intros other Hne. rewrite get_set_ne by done. by apply get_set_ne.
Qed.

(** The granted requests in the window that ends at [t]. *)
#[local] Abbreviation inWindow windowMs t :=
  (fun x : Z => (t - windowMs <? x) && (x <=? t)).

Lemma requestAll_cons limits apiName maxRequests windowMs now rest :
  let result := canMakeRequest limits apiName maxRequests windowMs now in
  let later := requestAll (snd result) apiName maxRequests windowMs rest in
  requestAll limits apiName maxRequests windowMs (now :: rest)
  = (fst result :: fst later, snd later).
Proof.
  cbn [requestAll].
  destruct (canMakeRequest limits apiName maxRequests windowMs now) as [answer limits'].
  cbn [fst snd].
  by destruct (requestAll limits' apiName maxRequests windowMs rest).
Qed.

Lemma window_invariant apiName maxRequests windowMs :
  0 < windowMs ->
  forall times limits before bound,
    StronglySorted Z.le times ->
    Forall (Z.le bound) times ->
    List.filter (fun x => x >? bound - windowMs) before
      `sublist_of` stored limits apiName ->
    (forall t, Z.of_nat (List.length (List.filter (inWindow windowMs t) before))
               <= Z.max 0 maxRequests) ->
    forall t,
      Z.of_nat (List.length
        (List.filter (inWindow windowMs t)
           (before ++ granted times
                        (fst (requestAll limits apiName maxRequests windowMs times)))))
      <= Z.max 0 maxRequests.
Proof.
  intros Hw. induction times as [|now rest IH];
    intros limits before bound Hsorted Hbound Hstored Hbefore t.
  - cbn [requestAll granted fst]. rewrite app_nil_r. apply Hbefore.
  - rewrite requestAll_cons. cbn [fst].
    apply StronglySorted_inv in Hsorted as [Hrest Hnow].
    apply Forall_cons in Hbound as [Hb Hbrest].
    destruct (canMakeRequest_cases limits apiName maxRequests windowMs now)
      as (Hfull & Hroom & _).
    set (valid := validRequests (stored limits apiName) windowMs now) in *.
    destruct (Z.le_gt_cases maxRequests (Z.of_nat (List.length valid))) as [Hle|Hlt].
    + destruct (Hfull Hle) as [Hanswer Hget]. rewrite Hanswer. cbn [granted].
      apply (IH _ before bound); try done. by rewrite Hget.
    + destruct (Hroom Hlt) as [Hanswer Hget]. rewrite Hanswer. cbn [granted].
      assert (Hvalid : List.filter (fun x => x >? now - windowMs) before
                         `sublist_of` valid).
      { rewrite <- (filter_absorb (fun x => x >? now - windowMs)
                      (fun x => x >? bound - windowMs) before) by lia.
        by apply filter_sublist_mono. }
      replace (before ++ now :: granted rest _)%list
        with ((before ++ [now]) ++ granted rest
                (fst (requestAll
                        (snd (canMakeRequest limits apiName maxRequests windowMs now))
                        apiName maxRequests windowMs rest)))%list
        by (by rewrite <- app_assoc).
      apply (IH _ (before ++ [now])%list now); try done.
      * rewrite Hget. cbn [default from_option Datatypes.id]. rewrite List.filter_app. cbn [List.filter].
        replace (now >? now - windowMs) with true by lia.
        by apply sublist_app.
      * intros t'. rewrite List.filter_app, length_app. cbn [List.filter].
        destruct (inWindow windowMs t' now) eqn:Hin; cbn [List.length].
        -- assert (List.length (List.filter (inWindow windowMs t') before)
                   <= List.length valid)%nat; [|lia].
           apply sublist_length.
           rewrite <- (filter_absorb (inWindow windowMs t')
                         (fun x => x >? now - windowMs) before) by lia.
           etrans; [apply filter_is_sublist|exact Hvalid].
        -- specialize (Hbefore t'). lia.
Qed.

End RateLimiter.

(** X14. However often [rateLimiter.canMakeRequest] is called for an API,
    at times that do not go back, with a positive window and whatever the
    limits held before, the requests it grants never number more than
    [maxRequests] within any window of [windowMs] milliseconds. *)
Theorem X14_rate_limiter_keeps_the_limit :
  forall (limits : Helpers.Limits) (apiName : string)
         (maxRequests windowMs : Z) (times : list Z) (t : Z),
    (0 < windowMs)%Z ->
    StronglySorted Z.le times ->
    let answers := fst (Helpers.requestAll limits apiName maxRequests windowMs times) in
    (Z.of_nat (List.length
       (List.filter (fun x => (t - windowMs <? x)%Z && (x <=? t)%Z)
          (Helpers.granted times answers)))
     <= Z.max 0 maxRequests)%Z.
Proof.
  intros limits apiName maxRequests windowMs times t Hw Hsorted answers.
  destruct times as [|now rest]; [cbn; lia|].
  apply (window_invariant apiName maxRequests windowMs Hw (now :: rest) limits [] now).
  - exact Hsorted.
  - apply StronglySorted_inv in Hsorted as [_ Hnow].
    apply Forall_cons. split; [lia|exact Hnow].
  - apply sublist_nil_l.
  - intros t'. cbn. lia.
Qed.

(** X14 at seven calls with at most 2 requests in 10 ms: in the window
    ending at 11 two are granted. *)
Lemma X14_rate_limiter_keeps_the_limit_witness :
  (Z.of_nat (List.length
     (List.filter (fun x => (11 - 10 <? x)%Z && (x <=? 11)%Z)
        (Helpers.granted [0; 1; 2; 10; 11; 12; 13]%Z
           (fst (Helpers.requestAll JsMap.empty "finnhub" 2 10
                   [0; 1; 2; 10; 11; 12; 13]%Z)))))
   <= Z.max 0 2)%Z.
Proof.
  apply (X14_rate_limiter_keeps_the_limit JsMap.empty "finnhub" 2 10
           [0; 1; 2; 10; 11; 12; 13]%Z 11).
  - lia.
  - repeat (apply SSorted_cons; [|repeat (apply Forall_cons; split; [lia|]);
                                  apply Forall_nil_2]).
    apply SSorted_nil.
Defined.

(** X15. [getRemainingRequests] and [canMakeRequest] agree: a request is
    granted exactly when the number remaining is positive; a granted
    request lowers it by one, after a refused one it is 0, and the requests
    of every other API are left as they were. *)
Theorem X15_remaining_requests_count_down :
  forall (limits : Helpers.Limits) (apiName : string) (maxRequests windowMs now : Z),
    (0 < windowMs)%Z ->
    let remaining := Helpers.getRemainingRequests limits apiName maxRequests windowMs now in
    let result := Helpers.canMakeRequest limits apiName maxRequests windowMs now in
    let remaining' :=
      Helpers.getRemainingRequests (snd result) apiName maxRequests windowMs now in
    (fst result = true <-> (0 < remaining)%Z) /\
    (fst result = true -> remaining' = (remaining - 1)%Z) /\
    (fst result = false -> remaining' = 0%Z) /\
    (forall other, other <> apiName ->
       Helpers.getRemainingRequests (snd result) other maxRequests windowMs now
       = Helpers.getRemainingRequests limits other maxRequests windowMs now).
Proof.
  intros limits apiName maxRequests windowMs now Hw remaining result remaining'.
  destruct (canMakeRequest_cases limits apiName maxRequests windowMs now)
    as (Hfull & Hroom & Hother).
  fold result in Hfull, Hroom, Hother.
  assert (Hremaining :
    remaining = match JsMap.get apiName limits with
                | None => maxRequests
                | Some _ =>
                    Z.max 0 (maxRequests - Z.of_nat (List.length
                      (Helpers.validRequests (default [] (JsMap.get apiName limits))
                         windowMs now)))
                end).
  { unfold remaining, Helpers.getRemainingRequests.
    by destruct (JsMap.get apiName limits). }
  set (valid := Helpers.validRequests (default [] (JsMap.get apiName limits))
                  windowMs now) in *.
  assert (Hnone : JsMap.get apiName limits = None -> valid = []).
  { intros Hget. unfold valid. by rewrite Hget. }
  destruct (Z.le_gt_cases maxRequests (Z.of_nat (List.length valid))) as [Hle|Hlt].
  - destruct (Hfull Hle) as [Hanswer Hget].
    assert (Hzero : remaining' = 0%Z).
    { unfold remaining', Helpers.getRemainingRequests. rewrite Hget. fold valid. lia. }
    repeat split; try (rewrite Hanswer; done); try done.
    + rewrite Hremaining. destruct (JsMap.get apiName limits); [lia|].
      rewrite Hnone in Hle by done. simpl in Hle. lia.
    + intros other Hne. unfold Helpers.getRemainingRequests. by rewrite Hother.
  - destruct (Hroom Hlt) as [Hanswer Hget].
    assert (Hbefore : remaining = (maxRequests - Z.of_nat (List.length valid))%Z).
    { rewrite Hremaining. destruct (JsMap.get apiName limits); [lia|].
      rewrite Hnone by done. simpl. lia. }
    repeat split; try (rewrite Hanswer; done); try lia.
    + intros _. unfold remaining', Helpers.getRemainingRequests. rewrite Hget.
      unfold Helpers.validRequests at 1. rewrite List.filter_app. cbn [List.filter].
      replace (now >? now - windowMs)%Z with true by lia.
      fold (Helpers.validRequests valid windowMs now).
      unfold valid at 1. rewrite validRequests_idem. fold valid.
      rewrite length_app. cbn [List.length]. lia.
    + intros other Hne. unfold Helpers.getRemainingRequests. by rewrite Hother.
Qed.

(** X15 at the third request of an API allowed 3 in 10 ms. *)
Lemma X15_remaining_requests_count_down_witness :
  let limits := snd (Helpers.requestAll JsMap.empty "finnhub" 3 10 [0; 1]%Z) in
  Helpers.getRemainingRequests limits "finnhub" 3 10 2 = 1%Z /\
  fst (Helpers.canMakeRequest limits "finnhub" 3 10 2) = true /\
  Helpers.getRemainingRequests (snd (Helpers.canMakeRequest limits "finnhub" 3 10 2))
    "finnhub" 3 10 2 = 0%Z.
Proof.
  intros limits.
  destruct (X15_remaining_requests_count_down limits "finnhub" 3 10 2)
    as (Hiff & Hdown & _); [lia|].
  split; [reflexivity|]. split; [apply Hiff; reflexivity|].
  rewrite Hdown; [reflexivity|]. apply Hiff. reflexivity.
Defined.

(** ** Presentation helpers of helpers.js *)
Section Presentation.
Import JS Helpers.

Lemma string_length_append (s1 s2 : string) :
  String.length (s1 ++ s2) = (String.length s1 + String.length s2)%nat.
Proof. induction s1 as [|c s1 IH]; simpl; [done|]. by rewrite IH. Qed.

Lemma string_length_substring0 (n : nat) (s : string) :
  (n <= String.length s)%nat -> String.length (String.substring 0 n s) = n.
Proof.
  revert s. induction n as [|n IH]; intros [|c s] Hn; simpl in *; try done; try lia.
  rewrite IH; [done|lia].
Qed.

Lemma startsWith_append (p s : string) : startsWith p (p ++ s) = true.
Proof.
  induction p as [|c p IH]; simpl; [done|].
  by rewrite Ascii.eqb_refl, IH.
Qed.

Lemma startsWith_refl (p : string) : startsWith p p = true.
Proof. induction p as [|c p IH]; simpl; [done|]. by rewrite Ascii.eqb_refl, IH. Qed.

Lemma includes_cons (q : string) (c : ascii) (s : string) :
  includes q (String c s) = startsWith q (String c s) || includes q s.
Proof. by destruct q. Qed.

Lemma includes_append (q p : string) : includes q (p ++ q) = true.
Proof.
  induction p as [|c p IH].
  - change ("" ++ q)%string with q.
    destruct q as [|a q]; [done|]. by rewrite includes_cons, startsWith_refl.
  - change (String c p ++ q)%string with (String c (p ++ q)).
    rewrite includes_cons, IH. apply orb_true_r.
Qed.

End Presentation.

(** X16. What helpers.js shows for a score is what it shows for the label
    of that score: [getSentimentColor] and [getSentimentIcon] give the same
    for the number and for [getSentimentLabel] of the number, which is the
    label the three quote services and [calculateOverallSentiment] give the
    score; a score that is not a number is shown as neutral. *)
Theorem X16_colour_and_icon_follow_the_label :
  (forall x : JS.jsnum,
      let shown := JS.VString (Helpers.getSentimentLabel (JS.VNumber x)) in
      Helpers.getSentimentColor shown = Helpers.getSentimentColor (JS.VNumber x) /\
      Helpers.getSentimentIcon shown = Helpers.getSentimentIcon (JS.VNumber x) /\
      Helpers.getSentimentLabel shown = Helpers.getSentimentLabel (JS.VNumber x)) /\
  (forall x : JS.jsnum,
      Helpers.getSentimentLabel (JS.VNumber x)
      = Helpers.labelText (RealTime.getSentimentLabel x) /\
      Helpers.getSentimentLabel (JS.VNumber x)
      = Helpers.labelText (SimpleCors.getSentimentLabel x) /\
      Helpers.getSentimentLabel (JS.VNumber x)
      = Helpers.labelText (Yahoo.getSentimentLabel x)) /\
  (forall articles overall,
      News.calculateOverallSentiment articles = Some overall ->
      Helpers.getSentimentLabel (JS.VNumber (News.score overall))
      = Helpers.labelText (News.label overall)) /\
  Helpers.getSentimentLabel (JS.VNumber JS.NaN) = "Neutral"%string /\
  Helpers.getSentimentColor (JS.VNumber JS.NaN) = Helpers.getSentimentColor JS.VUndefined.
Proof.
  repeat apply conj.
  - intros x shown. subst shown.
    unfold Helpers.getSentimentLabel, Helpers.getSentimentColor, Helpers.getSentimentIcon.
    destruct (JS.gtb x 0.2); [by vm_compute|].
    destruct (JS.ltb x (-0.2)); by vm_compute.
  - intros x.
    unfold Helpers.getSentimentLabel, RealTime.getSentimentLabel,
      SimpleCors.getSentimentLabel, Yahoo.getSentimentLabel.
    by destruct (JS.gtb x 0.2), (JS.ltb x (-0.2)).
  - intros articles overall Hoverall. unfold News.calculateOverallSentiment in Hoverall.
    destruct articles as [|a articles]; [done|].
    destruct (News.numericSentiments (a :: articles)) as [|s sentiments]; [done|].
    injection Hoverall as <-. cbn [News.score News.label].
    unfold Helpers.getSentimentLabel.
    destruct (JS.gtb _ 0.2); [done|]. by destruct (JS.ltb _ (-0.2)).
  - reflexivity.
  - reflexivity.
Qed.

(** X16 at the overall sentiment of two articles. *)
Lemma X16_colour_and_icon_follow_the_label_witness :
  exists overall,
    News.calculateOverallSentiment [Inputs.reuters; Inputs.bloomberg] = Some overall /\
    Helpers.getSentimentLabel (JS.VNumber (News.score overall))
    = Helpers.labelText (News.label overall).
Proof.
  eexists. split; [reflexivity|].
  eapply (proj1 (proj2 (proj2 X16_colour_and_icon_follow_the_label))
            [Inputs.reuters; Inputs.bloomberg]).
  reflexivity.
Defined.

(** X17. [truncateText] returns a text no longer than [maxLength] as it
    is; a longer one it cuts to its first [maxLength] characters followed by
    three dots, so that the result has [maxLength + 3] characters, which is
    up to two more than the text had. *)
Theorem X17_truncated_text_length :
  forall (text : string) (maxLength : Z),
    (0 <= maxLength)%Z ->
    exists result,
      Helpers.truncateText (Some text) maxLength = Some result /\
      ((Z.of_nat (String.length text) <= maxLength)%Z -> result = text) /\
      ((maxLength < Z.of_nat (String.length text))%Z ->
       Z.of_nat (String.length result) = (maxLength + 3)%Z /\
       (String.length result <= String.length text + 2)%nat /\
       JS.startsWith (String.substring 0 (Z.to_nat maxLength) text) result = true /\
       JS.includes "..." result = true).
Proof.
  intros text maxLength Hmax. unfold Helpers.truncateText.
  destruct (String.eqb_spec text "") as [->|Hne].
  - exists ""%string. simpl. split; [done|]. split; [done|]. simpl. lia.
  - simpl. destruct (Z.leb_spec (Z.of_nat (String.length text)) maxLength) as [Hle|Hgt].
    + exists text. split; [done|]. split; [done|]. lia.
    + eexists. split; [reflexivity|]. split; [lia|]. intros _.
      assert (Hlen : String.length (String.substring 0 (Z.to_nat maxLength) text)
                     = Z.to_nat maxLength)
        by (apply string_length_substring0; lia).
      rewrite string_length_append, Hlen. simpl String.length.
      repeat split; try lia.
      * apply startsWith_append.
      * apply includes_append.
Qed.

(** X17 at a text of four characters cut at three. *)
Lemma X17_truncated_text_length_witness :
  exists result,
    Helpers.truncateText (Some "abcd"%string) 3 = Some result /\
    String.length result = 6%nat.
Proof.
  destruct (X17_truncated_text_length "abcd" 3) as (result & Hresult & _ & Hcut); [lia|].
  exists result. split; [exact Hresult|].
  destruct Hcut as (Hlen & _); [simpl; lia|]. lia.
Defined.

(** ** Rounding of the formatted numbers *)
Section Rounding.
Import JS Model.
Local Open Scope R_scope.

(** [toFixed] is off by at most half a unit of the last decimal. *)
Lemma toFixed_near (d : nat) (x : R) :
  x - / 2 / 10 ^ d < toFixed d x <= x + / 2 / 10 ^ d.
Proof.
  unfold toFixed, floor.
  pose proof (pow10_pos d) as Hp.
  destruct (base_Int_part (x * 10 ^ d + 1 / 2)) as [Hle Hgt].
  set (F := IZR (Int_part (x * 10 ^ d + 1 / 2))) in *.
  assert (Hx : x = x * 10 ^ d / 10 ^ d) by (field; lra).
  split.
  - apply Rmult_lt_reg_r with (r := 10 ^ d); [exact Hp|].
    replace ((x - / 2 / 10 ^ d) * 10 ^ d) with (x * 10 ^ d - / 2) by (field; lra).
    replace (F / 10 ^ d * 10 ^ d) with F by (field; lra). lra.
  - apply Rmult_le_reg_r with (r := 10 ^ d); [exact Hp|].
    replace ((x + / 2 / 10 ^ d) * 10 ^ d) with (x * 10 ^ d + / 2) by (field; lra).
    replace (F / 10 ^ d * 10 ^ d) with F by (field; lra). lra.
Qed.

Lemma formatVolume_near (format : R -> VolumeText) (v : R) :
  format v = (if Req_dec_T v 0 then VolNone
              else if Rle_dec 1000000 v then VolM (toFixed 1 (v / 1000000))
              else if Rle_dec 1000 v then VolK (toFixed 1 (v / 1000))
              else VolPlain v) ->
  0 <= v ->
  v * 0.95 <= volumeNumber (format v) <= v * 1.05 /\
  (v < 1000 -> volumeNumber (format v) = v) /\
  (1000 <= v < 1000000 ->
   exists x, format v = VolK x /\
             v - 50 - v / 10 ^ 12 <= x * 1000 <= v + 50 + v / 10 ^ 12) /\
  (1000000 <= v ->
   exists x, format v = VolM x /\
             v - 50000 - v / 10 ^ 12 <= x * 1000000 <= v + 50000 + v / 10 ^ 12).
Proof.
  intros -> Hv.
  assert (Hslack : 0 <= v / 10 ^ 12).
  { apply Rmult_le_pos; [exact Hv|]. apply Rlt_le, Rinv_0_lt_compat, pow10_pos. }
  destruct (Req_dec_T v 0) as [->|Hne]; cbn [volumeNumber].
  { split; [lra|]. split; [done|]. split; intros; lra. }
  destruct (Rle_dec 1000000 v) as [HM|HM]; cbn [volumeNumber].
  { pose proof (toFixed_near 1 (v / 1000000)) as Hnear. simpl pow in Hnear.
    split; [lra|]. split; [lra|]. split; [lra|].
    intros _. eexists. split; [reflexivity|]. lra. }
  destruct (Rle_dec 1000 v) as [HK|HK]; cbn [volumeNumber].
  { pose proof (toFixed_near 1 (v / 1000)) as Hnear. simpl pow in Hnear.
    split; [lra|]. split; [lra|]. split; [|lra].
    intros _. eexists. split; [reflexivity|]. lra. }
  split; [lra|]. split; [done|]. split; intros; lra.
Qed.

End Rounding.

(** X18. [formatVolume] of SimpleCorsService and RealYahooFinanceService
    keeps a volume within 5% of its value: a volume below 1000 is kept as
    it is, one below a million is written in thousands and is off by at
    most 50, and a larger one is written in millions and is off by at most
    50000, in both cases up to the rounding of the quotient, which is less
    than a 10^-12 part of the volume. The bounds are not strict: a volume
    of 1450000 may be written as 1.4M as well as 1.5M. *)
Theorem X18_formatted_volume_is_within_five_percent :
  forall v : R,
    (0 <= v)%R ->
    let near := fun format : R -> Model.VolumeText =>
      (v * 0.95 <= Model.volumeNumber (format v) <= v * 1.05)%R /\
      ((v < 1000)%R -> Model.volumeNumber (format v) = v) /\
      ((1000 <= v < 1000000)%R ->
       exists x, format v = Model.VolK x /\
                 (v - 50 - v / 10 ^ 12 <= x * 1000 <= v + 50 + v / 10 ^ 12)%R) /\
      ((1000000 <= v)%R ->
       exists x, format v = Model.VolM x /\
                 (v - 50000 - v / 10 ^ 12 <= x * 1000000
                  <= v + 50000 + v / 10 ^ 12)%R) in
    near SimpleCors.formatVolume /\ near Yahoo.formatVolume.
Proof.
  intros v Hv near. split; by apply formatVolume_near.
Qed.

(** X18 at a volume of 45.67 million. *)
Lemma X18_formatted_volume_is_within_five_percent_witness :
  (45670000 * 0.95 <= Model.volumeNumber (Yahoo.formatVolume 45670000)
   <= 45670000 * 1.05)%R.
Proof.
  destruct (X18_formatted_volume_is_within_five_percent 45670000) as [_ [Hnear _]];
    [lra|exact Hnear].
Defined.

(** ** The gainers of RealTimeGainersService *)
Section TopGainers.
Import JS Model.

(** A stock whose change reads as at least [minPercentChange]. *)
#[local] Abbreviation qualifies minPercentChange :=
  (fun stock : Stock =>
     exists c, change stock = Some c /\
               geb (parseFloat (removeFirst "+" (removeFirst "%" c)))
                 minPercentChange = true).

Lemma filterByChange_kept minPercentChange gainers kept :
  RealTime.filterByChange minPercentChange gainers = Some kept ->
  kept `sublist_of` gainers /\ Forall (qualifies minPercentChange) kept.
Proof.
  revert kept. induction gainers as [|stock rest IH]; intros kept; simpl.
  - intros [= <-]. split; [done|apply Forall_nil_2].
  - destruct (change stock) as [c|] eqn:Hc; [|done].
    destruct (RealTime.filterByChange minPercentChange rest) as [kept'|]; [|done].
    destruct (IH kept' eq_refl) as [Hsub Hall].
    destruct (geb _ minPercentChange) eqn:Hkeep; intros [= <-].
    + split; [by apply sublist_skip|]. apply Forall_cons. split; [|done].
      exists c. by split.
    + split; [by apply sublist_cons|done].
Qed.

Lemma sliceTo_sublist {A} (n : Z) (l : list A) : sliceTo n l `sublist_of` l.
Proof. unfold sliceTo. destruct (n <? 0)%Z; apply sublist_take. Qed.

Lemma sliceTo_length {A} (n : Z) (l : list A) :
  (0 <= n)%Z -> (Z.of_nat (List.length (sliceTo n l)) <= n)%Z.
Proof.
  intros Hn. unfold sliceTo. destruct (Z.ltb_spec n 0); [lia|].
  rewrite length_take. lia.
Qed.

Lemma trySource_filtered limit minPercentChange source filtered :
  RealTime.trySource limit minPercentChange source = Some filtered ->
  filtered <> [] /\
  ((0 <= limit)%Z -> (Z.of_nat (List.length filtered) <= limit)%Z) /\
  Forall (qualifies minPercentChange) filtered /\
  exists gainers, source = Resolved gainers /\ filtered `sublist_of` gainers.
Proof.
  unfold RealTime.trySource. destruct source as [gainers|m]; [|done].
  destruct gainers as [|g gainers]; [done|].
  destruct (RealTime.filterByChange minPercentChange (g :: gainers)) as [kept|] eqn:Hkept;
    [|done].
  apply filterByChange_kept in Hkept as [Hsub Hall].
  destruct (sliceTo limit kept) as [|f rest] eqn:Hslice; [done|].
  intros [= <-]. rewrite <- Hslice.
  pose proof (sliceTo_sublist limit kept) as Hsl.
  repeat split.
  - by rewrite Hslice.
  - apply sliceTo_length.
  - apply Forall_forall. intros stock Hin.
    eapply (proj1 (Forall_forall _ _) Hall), elem_of_sublist; [exact Hin|exact Hsl].
  - eexists. split; [reflexivity|]. by etrans.
Qed.

Lemma firstSource_cases sources limit minPercentChange :
  match RealTime.firstSource sources limit minPercentChange with
  | Resolved filtered =>
      exists before source after,
        sources = (before ++ source :: after)%list /\
        Forall (fun s => RealTime.trySource limit minPercentChange s = None) before /\
        RealTime.trySource limit minPercentChange source = Some filtered
  | Rejected message =>
      message = "Unable to fetch real-time market data from any source"%string /\
      Forall (fun s => RealTime.trySource limit minPercentChange s = None) sources
  end.
Proof.
  induction sources as [|source rest IH]; simpl; [by split|].
  destruct (RealTime.trySource limit minPercentChange source) as [filtered|] eqn:Htry.
  - exists [], source, rest. by repeat split.
  - destruct (RealTime.firstSource rest limit minPercentChange) as [filtered|message].
    + destruct IH as (before & s & after & -> & Hbefore & Hs).
      exists (source :: before), s, after. repeat split; [|done].
      by apply Forall_cons.
    + destruct IH as [-> Hall]. split; [done|]. by apply Forall_cons.
Qed.

End TopGainers.

(** X19. [getTopGainers] of RealTimeGainersService answers from one
    source only, the first in the order of its list whose rows, filtered by
    the minimum change and cut to the limit, are not empty: a resolved
    result is never empty, has at most [limit] rows, each with a change of
    at least [minPercentChange], all taken in order from the rows of that
    source, every source before it having failed. It rejects, with one
    fixed message, exactly when every source fails. *)
Theorem X19_gainers_come_from_the_first_source_that_has_some :
  forall (fetched : RealTime.Sources) (limit : Z) (minPercentChange : R),
    let sources :=
      [RealTime.fetchFromYahooFinance fetched; RealTime.fetchFromMarketWatch fetched;
       RealTime.fetchFromCNBC fetched; RealTime.fetchFromFinancialData fetched;
       RealTime.fetchFromStockAnalysis fetched] in
    let fails := fun s => RealTime.trySource limit minPercentChange s = None in
    match RealTime.getTopGainers fetched limit minPercentChange with
    | JS.Resolved result =>
        result <> [] /\
        ((0 <= limit)%Z -> (Z.of_nat (List.length result) <= limit)%Z) /\
        Forall (fun stock =>
                  exists c, Model.change stock = Some c /\
                            JS.geb (JS.parseFloat
                                      (JS.removeFirst "+" (JS.removeFirst "%" c)))
                              minPercentChange = true) result /\
        exists before gainers after,
          sources = (before ++ JS.Resolved gainers :: after)%list /\
          Forall fails before /\
          RealTime.trySource limit minPercentChange (JS.Resolved gainers) = Some result /\
          result `sublist_of` gainers
    | JS.Rejected message =>
        message = "Unable to fetch real-time market data from any source"%string /\
        Forall fails sources
    end.
Proof.
  intros fetched limit minPercentChange sources fails.
  unfold RealTime.getTopGainers. fold sources.
  pose proof (firstSource_cases sources limit minPercentChange) as Hcases.
  destruct (RealTime.firstSource sources limit minPercentChange) as [result|message];
    [|exact Hcases].
  destruct Hcases as (before & source & after & Hsources & Hbefore & Htry).
  destruct (trySource_filtered _ _ _ _ Htry) as (Hne & Hlen & Hall & gainers & -> & Hsub).
  repeat split; try done.
  by exists before, gainers, after.
Qed.

(** X19 at five sources of which the fourth is the first to have a row. *)
Lemma X19_gainers_come_from_the_first_source_that_has_some_witness :
  RealTime.getTopGainers Inputs.feeds 15 1 = JS.Resolved [Inputs.nvda] /\
  (Z.of_nat (List.length [Inputs.nvda]) <= 15)%Z.
Proof.
  assert (Hresult : RealTime.getTopGainers Inputs.feeds 15 1 = JS.Resolved [Inputs.nvda]).
  { unfold RealTime.getTopGainers, Inputs.feeds, Inputs.nvda, Inputs.broken. simpl.
    eval_digits. decide_reals. reflexivity. }
  pose proof (X19_gainers_come_from_the_first_source_that_has_some Inputs.feeds 15 1)
    as Hgainers.
  rewrite Hresult in Hgainers. destruct Hgainers as (_ & Hlimit & _).
  split; [exact Hresult|]. apply Hlimit. lia.
Defined.

(** ** The gainers of SimpleCorsService *)
Section WorkingApis.
Import JS Model.



End WorkingApis.



(** ** The requests and the gainers of RealYahooFinanceService *)

(** X21. [makeRequest] of RealYahooFinanceService fetches at least once
    and at most three times, and waits 1000 ms after the first failure and
    2000 ms after the second. It resolves only with a response whose [ok]
    is true, the one of its last fetch, and never in the mode [no-cors]:
    there it rejects, and when the first fetch answers at all, at once,
    with the message [CORS blocked:] and the host. *)
Theorem X21_request_is_tried_at_most_three_times :
  forall (network : Yahoo.Network) (url : string) (noCors : bool),
    let request := Yahoo.makeRequest network url noCors in
    (1 <= Yahoo.fetches request <= 3)%nat /\
    Yahoo.waited request
    = (500 * Z.of_nat (Yahoo.fetches request)
       * (Z.of_nat (Yahoo.fetches request) - 1))%Z /\
    (forall response,
        Yahoo.answer request = JS.Resolved response ->
        noCors = false /\
        exists r, response = Some r /\ Yahoo.ok r = true /\
                  network url (Z.of_nat (Yahoo.fetches request)) = Yahoo.Responds r) /\
    (noCors = true ->
     (exists message, Yahoo.answer request = JS.Rejected message) /\
     forall r, network url 1%Z = Yahoo.Responds r ->
               request
               = Yahoo.ended (JS.Rejected ("CORS blocked: " ++ Yahoo.hostOf url)%string)).
Proof.
  intros network url noCors request. subst request. unfold Yahoo.makeRequest.
  change (Z.to_nat Yahoo.maxRetries) with 3%nat.
  cbn [Yahoo.attempts].
  change (1 + 1)%Z with 2%Z. change (2 + 1)%Z with 3%Z.
  change (1 =? Yahoo.maxRetries)%Z with false.
  change (2 =? Yahoo.maxRetries)%Z with false.
  change (3 =? Yahoo.maxRetries)%Z with true.
  cbv iota.
  change (JS.includes "CORS" "CORS blocked - using fallback") with true.
  cbn [orb].
  destruct (network url 1%Z) as [m1|r1] eqn:H1, (network url 2%Z) as [m2|r2] eqn:H2,
    (network url 3%Z) as [m3|r3] eqn:H3, noCors;
    repeat match goal with
           | |- context [JS.includes ?a ?b || JS.includes ?c ?d] =>
               destruct (JS.includes a b || JS.includes c d)
           | |- context [Yahoo.ok ?r] => destruct (Yahoo.ok r) eqn:?
           end;
    cbn [Yahoo.answer Yahoo.fetches Yahoo.waited Yahoo.ended Yahoo.retryDelay];
    unfold Yahoo.retryDelay;
    (split; [lia|]); (split; [reflexivity|]);
    (split; [first [by intros response [=]
                   |intros response [= <-]; split; [done|]; eauto]|]);
    first [by intros [=]
          |intros _; split; [eauto|]; first [by intros r [=]|by intros r [= <-]]].
Qed.

(** X21 at a request in the mode [no-cors] that the server answers. *)
Lemma X21_request_is_tried_at_most_three_times_witness :
  Yahoo.makeRequest
    (fun _ _ => Yahoo.Responds {| Yahoo.ok := true; Yahoo.status := 200;
                                  Yahoo.statusText := "OK"; Yahoo.rows := None |})
    "https://query1.finance.yahoo.com/v1/finance/screener" true
  = Yahoo.ended (JS.Rejected "CORS blocked: query1.finance.yahoo.com").
Proof.
  eapply (proj2 (proj2 (proj2 (proj2 (X21_request_is_tried_at_most_three_times
            (fun _ _ => Yahoo.Responds {| Yahoo.ok := true; Yahoo.status := 200;
                                          Yahoo.statusText := "OK"; Yahoo.rows := None |})
            "https://query1.finance.yahoo.com/v1/finance/screener" true))) eq_refl)).
  reflexivity.
Defined.

Section YahooGainers.
Import JS Model.

(** A row that passes the filter. *)
#[local] Abbreviation passes minPercentChange :=
  (fun gainer : Yahoo.Gainer => Yahoo.keeps minPercentChange gainer = Some true).

(** Rows whose generated quotes carry the tag of the enhanced data. *)
#[local] Abbreviation enhancedOnly :=
  (fun method : Promise (list Yahoo.Gainer) =>
     forall gainers quote,
       method = Resolved gainers -> Yahoo.Synthetic quote ∈ gainers ->
       quoteSource quote = "enhanced_realistic"%string).

Lemma yahoo_filter_kept minPercentChange gainers kept :
  Yahoo.filterByChange minPercentChange gainers = Some kept ->
  kept `sublist_of` gainers /\ Forall (passes minPercentChange) kept.
Proof.
  revert kept. induction gainers as [|gainer rest IH]; intros kept; simpl.
  - intros [= <-]. split; [done|apply Forall_nil_2].
  - destruct (Yahoo.keeps minPercentChange gainer) as [keep|] eqn:Hkeep; [|done].
    destruct (Yahoo.filterByChange minPercentChange rest) as [kept'|]; [|done].
    destruct (IH kept' eq_refl) as [Hsub Hall].
    destruct keep; intros [= <-].
    + split; [by apply sublist_skip|]. by apply Forall_cons.
    + split; [by apply sublist_cons|done].
Qed.

Lemma tryMethod_returned limit minPercentChange method filtered :
  Yahoo.tryMethod limit minPercentChange method = Yahoo.Returned filtered ->
  exists gainers,
    method = Resolved gainers /\ filtered `sublist_of` gainers /\
    Forall (passes minPercentChange) filtered /\
    ((0 <= limit)%Z -> (Z.of_nat (List.length filtered) <= limit)%Z).
Proof.
  unfold Yahoo.tryMethod. destruct method as [[|g gainers]|m]; try done.
  destruct (Yahoo.filterByChange minPercentChange (g :: gainers)) as [kept|] eqn:Hkept;
    [|done].
  apply yahoo_filter_kept in Hkept as [Hsub Hall].
  intros [= <-]. exists (g :: gainers).
  pose proof (sliceTo_sublist limit kept) as Hslice.
  split; [done|]. split; [by etrans|]. split; [|apply sliceTo_length].
  apply Forall_forall. intros gainer Hin.
  eapply (proj1 (Forall_forall _ _) Hall), elem_of_sublist; [exact Hin|exact Hslice].
Qed.

Lemma tryMethod_rows limit minPercentChange method filtered :
  Yahoo.tryMethod limit minPercentChange method = Yahoo.Returned filtered ->
  exists rows kept,
    method = Resolved rows /\ rows <> [] /\
    Yahoo.filterByChange minPercentChange rows = Some kept /\
    filtered = sliceTo limit kept.
Proof.
  unfold Yahoo.tryMethod. destruct method as [[|g gainers]|m]; try done.
  destruct (Yahoo.filterByChange minPercentChange (g :: gainers)) as [kept|] eqn:Hkept;
    [|done].
  intros [= <-]. by exists (g :: gainers), kept.
Qed.

(** The filter does not throw at generated quotes. *)
Lemma filter_synthetic minPercentChange quotes :
  exists kept,
    Yahoo.filterByChange minPercentChange (List.map Yahoo.Synthetic quotes) = Some kept.
Proof.
  induction quotes as [|quote quotes [kept IH]]; simpl; [by eexists|].
  rewrite IH. by eexists.
Qed.

Lemma tryMethod_synthetic limit minPercentChange quotes :
  quotes <> [] ->
  exists filtered,
    Yahoo.tryMethod limit minPercentChange (Resolved (List.map Yahoo.Synthetic quotes))
    = Yahoo.Returned filtered.
Proof.
  intros Hne. destruct quotes as [|quote quotes]; [done|].
  destruct (filter_synthetic minPercentChange (quote :: quotes)) as [kept Hkept].
  unfold Yahoo.tryMethod. cbn [List.map] in *. rewrite Hkept. by eexists.
Qed.

Lemma generateEnhancedMockData_enhanced clock draws i :
  fst (Yahoo.generateEnhancedMockData clock draws i) <> [] /\
  forall quote, quote ∈ fst (Yahoo.generateEnhancedMockData clock draws i) ->
                quoteSource quote = "enhanced_realistic"%string.
Proof.
  split.
  - intros Hnil. apply (f_equal (@List.length _)) in Hnil.
    unfold Yahoo.generateEnhancedMockData in Hnil. rewrite mapRand_length in Hnil.
    discriminate.
  - intros quote. unfold Yahoo.generateEnhancedMockData.
    apply (mapRand_elem (fun q => quoteSource q = "enhanced_realistic"%string)).
    intros stock draws' i'. apply enhancedQuote_gainer.
Qed.

Lemma synthetic_elem_of_live quote stocks :
  Yahoo.Synthetic quote ∉ List.map Yahoo.Live stocks.
Proof.
  intros Hin. apply list_elem_of_In, in_map_iff in Hin as (stock & Heq & _). done.
Qed.

Lemma synthetic_elem_of_synthetic quote quotes :
  Yahoo.Synthetic quote ∈ List.map Yahoo.Synthetic quotes -> quote ∈ quotes.
Proof.
  intros Hin. apply list_elem_of_In, in_map_iff in Hin as (q & [= ->] & Hin).
  by apply list_elem_of_In.
Qed.

(** The three methods of [getTopGainers], each with the cache and the
    draws the ones before it left: the result is what the first of them
    that returns gives, and one of them does. *)
Lemma getTopGainers_method (P : Promise (list Yahoo.Gainer) -> Prop)
  cache network clock limit minPercentChange draws i :
  let first := Yahoo.fetchFromAlternativeAPIs cache network clock draws i in
  let second := Yahoo.fetchFromCORSProxy (snd (fst first)) network (now clock) in
  let third := Yahoo.generateEnhancedMockData clock draws (snd first) in
  let tried := Yahoo.tryMethod limit minPercentChange in
  let generated := Resolved (List.map Yahoo.Synthetic (fst third)) in
  P (fst (fst first)) -> P (fst second) -> P generated ->
  exists method filtered,
    P method /\
    (method = fst (fst first) \/
     (method = fst second /\
      forall returned, tried (fst (fst first)) <> Yahoo.Returned returned) \/
     (method = generated /\
      (forall returned, tried (fst (fst first)) <> Yahoo.Returned returned) /\
      forall returned, tried (fst second) <> Yahoo.Returned returned)) /\
    tried method = Yahoo.Returned filtered /\
    fst (fst (Yahoo.getTopGainers cache network clock limit minPercentChange draws i))
    = Resolved filtered.
Proof.
  intros first second third tried generated.
  subst first second third tried generated.
  unfold Yahoo.getTopGainers. unfold bind at 1.
  destruct (Yahoo.fetchFromAlternativeAPIs cache network clock draws i)
    as [[alternative cache1] j].
  cbn [fst snd]. intros H1 H2 H3.
  destruct (Yahoo.fetchFromCORSProxy cache1 network (now clock)) as [proxied cache2].
  cbn [fst] in H2 |- *.
  destruct (generateEnhancedMockData_enhanced clock draws j) as [Hne _].
  destruct (tryMethod_synthetic limit minPercentChange _ Hne) as [filtered3 Hthird].
  assert (Hlast :
    fst (fst (bind (Yahoo.getEnhancedFallbackData clock) (fun enhanced =>
                match Yahoo.tryMethod limit minPercentChange
                        (Resolved (List.map Yahoo.Synthetic enhanced)) with
                | Yahoo.Returned filtered => ret (Resolved filtered, cache2)
                | _ =>
                    bind (Yahoo.basicFallback clock limit) (fun basic =>
                      ret (Resolved basic, cache2))
                end) draws j))
    = Resolved filtered3).
  { unfold Yahoo.getEnhancedFallbackData. unfold bind at 1. revert Hthird.
    destruct (Yahoo.generateEnhancedMockData clock draws j) as [enhanced k].
    cbn [fst]. by intros ->. }
  destruct (Yahoo.tryMethod limit minPercentChange alternative) as [filtered1| |]
    eqn:Halternative.
  - exists alternative, filtered1. split; [done|]. split; [by left|]. done.
  - destruct (Yahoo.tryMethod limit minPercentChange proxied) as [filtered2| |]
      eqn:Hproxied.
    + exists proxied, filtered2. split; [done|]. split; [|done]. right. left. done.
    + eexists _, filtered3. split; [exact H3|]. split; [|done]. right. right. done.
    + eexists _, filtered3. split; [exact H3|]. split; [|done]. right. right. done.
  - destruct (Yahoo.tryMethod limit minPercentChange proxied) as [filtered2| |]
      eqn:Hproxied.
    + exists proxied, filtered2. split; [done|]. split; [|done]. right. left. done.
    + eexists _, filtered3. split; [exact H3|]. split; [|done]. right. right. done.
    + eexists _, filtered3. split; [exact H3|]. split; [|done]. right. right. done.
Qed.

Lemma writeBounded_get_none {V} (C : nat) (store : Cache.Store V) key k (d : V) (t : Z) :
  k <> key -> JsMap.get k store = None ->
  JsMap.get k (Cache.writeBounded C store key d t) = None.
Proof.
  intros Hne Hnone. unfold Cache.writeBounded. rewrite get_set_ne by done.
  destruct (C <=? JsMap.size store)%nat; [|done].
  destruct (JsMap.firstKey store) as [k0|]; [|done].
  apply get_None_keys. apply get_None_keys in Hnone.
  intros Hin. apply Hnone. eapply elem_of_sublist; [exact Hin|apply keys_delete_sublist].
Qed.

Lemma fetchFromAlternativeAPIs_fresh cache network clock draws i :
  JsMap.get Yahoo.alternativeKey cache = None ->
  let first := Yahoo.fetchFromAlternativeAPIs cache network clock draws i in
  enhancedOnly (fst (fst first)) /\
  (JsMap.get Yahoo.proxyKey cache = None ->
   JsMap.get Yahoo.proxyKey (snd (fst first)) = None).
Proof.
  intros Hnone first. subst first.
  unfold Yahoo.fetchFromAlternativeAPIs, Yahoo.getCached, Cache.read.
  rewrite Hnone.
  destruct (Yahoo.formattedGainers network) as [formatted|].
  - unfold ret. cbn [fst snd]. split.
    + intros gainers quote [= <-] Hin. by apply synthetic_elem_of_live in Hin.
    + intros Hproxy. by apply writeBounded_get_none.
  - unfold bind, ret.
    destruct (generateEnhancedMockData_enhanced clock draws i) as [_ Henhanced].
    destruct (Yahoo.generateEnhancedMockData clock draws i) as [enhanced j].
    cbn [fst snd] in *. split.
    + intros gainers quote [= <-] Hin. by apply Henhanced, synthetic_elem_of_synthetic.
    + intros Hproxy. by apply writeBounded_get_none.
Qed.

Lemma tryProxies_live cache network t proxies :
  enhancedOnly (fst (Yahoo.tryProxies cache network t proxies)).
Proof.
  induction proxies as [|proxy rest IH]; cbn [Yahoo.tryProxies]; [done|].
  destruct (Yahoo.answer _) as [[response|]|m]; try exact IH.
  destruct (Yahoo.ok response); [|exact IH].
  destruct (Yahoo.rows response) as [quotes|]; [|exact IH].
  cbn [fst]. intros gainers quote [= <-] Hin. by apply synthetic_elem_of_live in Hin.
Qed.

Lemma fetchFromCORSProxy_fresh cache network t :
  JsMap.get Yahoo.proxyKey cache = None ->
  enhancedOnly (fst (Yahoo.fetchFromCORSProxy cache network t)).
Proof.
  intros Hnone. unfold Yahoo.fetchFromCORSProxy, Yahoo.getCached, Cache.read.
  rewrite Hnone. apply tryProxies_live.
Qed.

End YahooGainers.

(** X22. [getTopGainers] of RealYahooFinanceService never rejects. Its
    three methods are [fetchFromAlternativeAPIs], [fetchFromCORSProxy] with
    the cache the former left, and [getEnhancedFallbackData] with the draws
    the former left; a method returns when it resolves with rows that are
    not empty and at which the filter does not throw. The third method
    always returns. The result is that of the first method that returns:
    its rows that pass the filter of the minimum change, cut to [limit].
    So the basic fallback data are never reached: when neither key is
    cached, as in a new service, every generated quote of the result
    carries the tag [enhanced_realistic]. *)
Theorem X22_yahoo_gainers_never_reach_the_basic_fallback :
  forall (cache : Cache.Store (list Yahoo.Gainer)) (network : Yahoo.Network)
         (clock : Model.Clock) (limit : Z) (minPercentChange : R)
         (draws : Model.Draws) (i : nat),
    let first := Yahoo.fetchFromAlternativeAPIs cache network clock draws i in
    let second :=
      Yahoo.fetchFromCORSProxy (snd (fst first)) network (Model.now clock) in
    let third := Yahoo.getEnhancedFallbackData clock draws (snd first) in
    let generated := JS.Resolved (List.map Yahoo.Synthetic (fst third)) in
    let tried := Yahoo.tryMethod limit minPercentChange in
    let result :=
      fst (fst (Yahoo.getTopGainers cache network clock limit minPercentChange
                  draws i)) in
    (exists kept,
        fst third <> [] /\
        Yahoo.filterByChange minPercentChange (List.map Yahoo.Synthetic (fst third))
        = Some kept /\
        tried generated = Yahoo.Returned (JS.sliceTo limit kept)) /\
    (exists method rows kept,
        (method = fst (fst first) \/
         (method = fst second /\
          forall returned, tried (fst (fst first)) <> Yahoo.Returned returned) \/
         (method = generated /\
          (forall returned, tried (fst (fst first)) <> Yahoo.Returned returned) /\
          forall returned, tried (fst second) <> Yahoo.Returned returned)) /\
        method = JS.Resolved rows /\ rows <> [] /\
        Yahoo.filterByChange minPercentChange rows = Some kept /\
        tried method = Yahoo.Returned (JS.sliceTo limit kept) /\
        result = JS.Resolved (JS.sliceTo limit kept) /\
        JS.sliceTo limit kept `sublist_of` rows /\
        Forall (fun gainer => Yahoo.keeps minPercentChange gainer = Some true)
          (JS.sliceTo limit kept) /\
        ((0 <= limit)%Z ->
         (Z.of_nat (List.length (JS.sliceTo limit kept)) <= limit)%Z) /\
        (JsMap.get Yahoo.alternativeKey cache = None ->
         JsMap.get Yahoo.proxyKey cache = None ->
         forall quote,
           Yahoo.Synthetic quote ∈ rows ->
           Model.quoteSource quote = "enhanced_realistic"%string)).
Proof.
  intros cache network clock limit minPercentChange draws i
    first second third generated tried result.
  split.
  - destruct (generateEnhancedMockData_enhanced clock draws (snd first)) as [Hne _].
    destruct (filter_synthetic minPercentChange (fst third)) as [kept Hkept].
    exists kept. split; [exact Hne|]. split; [exact Hkept|].
    subst tried generated. unfold Yahoo.tryMethod.
    change (fst (Yahoo.generateEnhancedMockData clock draws (snd first)))
      with (fst third) in Hne.
    destruct (fst third) as [|quote quotes]; [done|].
    cbn [List.map] in *. by rewrite Hkept.
  - destruct (getTopGainers_method
                (fun method =>
                   JsMap.get Yahoo.alternativeKey cache = None ->
                   JsMap.get Yahoo.proxyKey cache = None ->
                   forall gainers quote,
                     method = JS.Resolved gainers -> Yahoo.Synthetic quote ∈ gainers ->
                     Model.quoteSource quote = "enhanced_realistic"%string)
                cache network clock limit minPercentChange draws i)
      as (method & filtered & Hmethod & Hwhich & Htried & Hresult).
    + intros Halt Hproxy.
      by destruct (fetchFromAlternativeAPIs_fresh cache network clock draws i Halt).
    + intros Halt Hproxy.
      destruct (fetchFromAlternativeAPIs_fresh cache network clock draws i Halt)
        as [_ Hkeep].
      apply fetchFromCORSProxy_fresh. by apply Hkeep.
    + intros _ _ gainers quote Heq Hin.
      match type of Heq with
      | JS.Resolved ?l = _ => assert (Hgainers : l = gainers) by congruence
      end.
      subst gainers.
      apply synthetic_elem_of_synthetic in Hin.
      by apply (generateEnhancedMockData_enhanced clock draws) in Hin.
    + pose proof Htried as Hrows.
      apply tryMethod_rows in Hrows as (rows & kept & Hrows & Hne & Hkept & Hcut).
      pose proof Htried as Hreturned.
      apply tryMethod_returned in Hreturned as (rows' & Hrows' & Hsub & Hpass & Hlimit).
      assert (rows' = rows) as -> by congruence.
      subst filtered.
      exists method, rows, kept.
      split; [exact Hwhich|]. split; [exact Hrows|]. split; [exact Hne|].
      split; [exact Hkept|]. split; [exact Htried|]. split; [exact Hresult|].
      split; [exact Hsub|]. split; [exact Hpass|]. split; [exact Hlimit|].
      intros Halt Hproxy quote Hin.
      by apply (Hmethod Halt Hproxy rows quote Hrows).
Qed.

(** X22 at a new service whose provider is down: the rows are generated
    quotes, those of the first method. *)
Lemma X22_yahoo_gainers_never_reach_the_basic_fallback_witness :
  exists rows kept,
    rows <> [] /\
    Yahoo.filterByChange 1 rows = Some kept /\
    fst (fst (Yahoo.getTopGainers JsMap.empty
                (fun _ _ => Yahoo.FetchThrows "Failed to fetch")
                Inputs.mondayMorning 15 1 (Inputs.steady 0.5) 0))
    = JS.Resolved (JS.sliceTo 15 kept) /\
    (Z.of_nat (List.length (JS.sliceTo 15 kept)) <= 15)%Z /\
    forall quote,
      Yahoo.Synthetic quote ∈ rows ->
      Model.quoteSource quote = "enhanced_realistic"%string.
Proof.
  destruct (X22_yahoo_gainers_never_reach_the_basic_fallback JsMap.empty
              (fun _ _ => Yahoo.FetchThrows "Failed to fetch")
              Inputs.mondayMorning 15 1 (Inputs.steady 0.5) 0%nat)
    as (_ & method & rows & kept & _ & _ & Hne & Hkept & _ & Hresult & _ & _
        & Hlimit & Htag).
  exists rows, kept. split; [exact Hne|]. split; [exact Hkept|].
  split; [exact Hresult|]. split; [apply Hlimit; lia|]. apply Htag; reflexivity.
Defined.

(** ** The score of a text by its words *)
Section WordCounts.
Import JS News.
Local Open Scope R_scope.

(** The words of a text that contain an entry of a lexicon. *)
#[local] Abbreviation hits lexicon text :=
  (List.length (List.filter (hit lexicon) (splitWhitespace (toLowerCase text)))).

Lemma fold_scoreWord (words : list string) (s : R) (c : nat) :
  fold_left scoreWord words (s, c)
  = (s + (INR (List.length (List.filter (hit positiveWords) words))
          - INR (List.length (List.filter (hit negativeWords) words))) / 10,
     (c + List.length (List.filter (hit positiveWords) words)
      + List.length (List.filter (hit negativeWords) words))%nat).
Proof.
  unfold scoreWord.
  generalize (hit positiveWords) (hit negativeWords). intros hp hn.
  revert s c. induction words as [|word words IH]; intros s c.
  - cbn. f_equal; [lra|lia].
  - cbn [fold_left List.filter].
    destruct (hp word), (hn word); cbn [fst snd List.length]; rewrite IH;
      rewrite ?S_INR; f_equal; first [lra|lia].
Qed.

(** The clamped quotient [(P - N) / 10 / sqrt (P + N)] by [P] and [N]. *)
Lemma quotient_sign_and_size (P N : R) :
  0 <= P -> 0 <= N -> 0 < P + N ->
  let raw := (P - N) / 10 / sqrt (P + N) in
  let s := max (-1) (min 1 raw) in
  (0 < s <-> N < P) /\ (s < 0 <-> P < N) /\
  (0.2 < s -> N + 4 < P) /\ (s < -0.2 -> P + 4 < N) /\
  (0.18 < s -> N + 3 < P) /\ (s < -0.18 -> P + 3 < N) /\
  (P + N < 100 -> s = raw) /\
  (P + N < 100 -> N + 1 <= P -> 0.01 <= s) /\
  (P + N < 100 -> P + 1 <= N -> s <= -0.01).
Proof.
  intros HP HN HT raw s.
  assert (Hr : 0 < sqrt (P + N)) by (by apply sqrt_lt_R0).
  assert (Hrr : sqrt (P + N) * sqrt (P + N) = P + N) by (apply sqrt_sqrt; lra).
  set (r := sqrt (P + N)) in *.
  assert (Hraw : raw * (10 * r) = P - N) by (unfold raw; field; lra).
  assert (Hpos : 0 < raw <-> N < P).
  { split; intros H; [|apply Rnot_le_lt; intros Hle]; nra. }
  assert (Hneg : raw < 0 <-> P < N).
  { split; intros H; [|apply Rnot_le_lt; intros Hle]; nra. }
  assert (Hbig : 0.2 < raw -> N + 4 < P).
  { intros H. assert (2 * r < P - N) by nra.
    apply Rnot_le_lt. intros Hle. nra. }
  assert (Hsmall : raw < -0.2 -> P + 4 < N).
  { intros H. assert (2 * r < N - P) by nra.
    apply Rnot_le_lt. intros Hle. nra. }
  assert (Hbig' : 0.18 < raw -> N + 3 < P).
  { intros H. assert (1.8 * r < P - N) by nra.
    apply Rnot_le_lt. intros Hle.
    assert (1.8 < r) by nra. nra. }
  assert (Hsmall' : raw < -0.18 -> P + 3 < N).
  { intros H. assert (1.8 * r < N - P) by nra.
    apply Rnot_le_lt. intros Hle.
    assert (1.8 < r) by nra. nra. }
  assert (Hin : P + N < 100 -> -1 < raw < 1).
  { intros H. assert (r < 10) by (apply Rnot_le_lt; intros Hle; nra).
    split; apply Rnot_le_lt; intros Hle; nra. }
  assert (Hup : P + N < 100 -> N + 1 <= P -> 0.01 <= raw).
  { intros H Hd. assert (r < 10) by (apply Rnot_le_lt; intros Hle; nra).
    assert (0 < raw) by (apply Hpos; lra).
    apply Rnot_lt_le. intros Hlt. nra. }
  assert (Hdown : P + N < 100 -> P + 1 <= N -> raw <= -0.01).
  { intros H Hd. assert (r < 10) by (apply Rnot_le_lt; intros Hle; nra).
    assert (raw < 0) by (apply Hneg; lra).
    apply Rnot_lt_le. intros Hlt. nra. }
  subst s. unfold max, min, Rmax, Rmin.
  destruct (Rle_dec 1 raw), (Rle_dec (-1) _); repeat split; intros; try lra;
    try (apply Hpos; lra); try (apply Hneg; lra);
    try (apply Hbig; lra); try (apply Hsmall; lra);
    try (apply Hbig'; lra); try (apply Hsmall'; lra);
    try (destruct Hpos, Hneg; lra); try (destruct Hin; [assumption|lra]);
    try (specialize (Hup ltac:(assumption) ltac:(assumption)); lra);
    try (specialize (Hdown ltac:(assumption) ltac:(assumption)); lra).
Qed.

End WordCounts.

(** X23. [calculateSentiment] counts, among the words of the lower-cased
    text, those that contain a positive entry ([p]) and those that contain
    a negative one ([n]); with none counted the score is 0. Below 100
    counted words the score is [(p - n) / 10 / sqrt (p + n)] up to 10^-9:
    it is at least 0.01 exactly when [p] exceeds [n], at most -0.01 exactly
    when [n] exceeds [p], and within 10^-9 of 0 when they are equal. A
    score above 0.18 takes at least four more positive than negative words
    and one above 0.21 at least five; likewise below -0.18 and -0.21 for
    the negative words. *)
Theorem X23_text_score_by_word_counts :
  forall text : string,
    let words := JS.splitWhitespace (JS.toLowerCase text) in
    let p := List.length (List.filter (News.hit News.positiveWords) words) in
    let n := List.length (List.filter (News.hit News.negativeWords) words) in
    let s := News.calculateSentiment text in
    ((p + n = 0)%nat -> s = 0%R) /\
    ((p + n < 100)%nat ->
     ((n < p)%nat <-> (0.01 <= s)%R) /\
     ((p < n)%nat <-> (s <= -0.01)%R) /\
     (p = n -> (Rabs s <= 0.000000001)%R) /\
     ((0 < p + n)%nat ->
      (Rabs (s - (INR p - INR n) / 10 / sqrt (INR (p + n))) <= 0.000000001)%R)) /\
    ((0.18 < s)%R -> (n + 4 <= p)%nat) /\
    ((0.21 < s)%R -> (n + 5 <= p)%nat) /\
    ((s < -0.18)%R -> (p + 4 <= n)%nat) /\
    ((s < -0.21)%R -> (p + 5 <= n)%nat).
Proof.
  intros text words p n s.
  assert (Hs : s = if (0 <? p + n)%nat
                   then JS.max (-1) (JS.min 1 ((INR p - INR n) / 10 / sqrt (INR (p + n))))
                   else 0%R).
  { subst s. unfold News.calculateSentiment.
    destruct (String.eqb_spec text "") as [->|Hne]; [reflexivity|].
    fold words. rewrite fold_scoreWord. fold p n. cbn [Nat.add].
    destruct (Nat.ltb_spec 0 (p + n)) as [Hsome|Hnone].
    - f_equal. f_equal. f_equal. lra.
    - assert (p = 0%nat) by lia. assert (n = 0%nat) by lia.
      replace (INR p) with 0%R by (subst p; by rewrite H).
      replace (INR n) with 0%R by (subst n; by rewrite H0).
      unfold JS.max, JS.min, Rmax, Rmin.
      repeat destruct Rle_dec; lra. }
  destruct (Nat.ltb_spec 0 (p + n)) as [Hsome|Hnone].
  - pose proof (pos_INR p) as HP. pose proof (pos_INR n) as HN.
    assert (HT : (0 < INR p + INR n)%R).
    { rewrite <- plus_INR. by apply (lt_INR 0). }
    destruct (quotient_sign_and_size (INR p) (INR n) HP HN HT)
      as (Hpos & Hneg & Hbig & Hsmall & Hbig' & Hsmall' & Hin & Hup & Hdown).
    rewrite <- plus_INR in Hpos, Hneg, Hbig, Hsmall, Hbig', Hsmall', Hin, Hup, Hdown.
    rewrite <- Hs in *.
    assert (Hlt : forall a b : nat, (INR a < INR b)%R <-> (a < b)%nat).
    { intros a b. split; [apply INR_lt|apply lt_INR]. }
    assert (Hsucc : forall a b : nat, (a < b)%nat -> (INR a + 1 <= INR b)%R).
    { intros a b H. apply le_INR in H. rewrite S_INR in H. exact H. }
    assert (Hhundred : (p + n < 100)%nat -> (INR (p + n) < 100)%R).
    { intros H. apply (lt_INR _ 100) in H.
      replace (INR 100) with 100%R in H by (simpl; lra). exact H. }
    split; [lia|]. split; [|repeat split].
    + intros Hfew. specialize (Hhundred Hfew). repeat split.
      * intros H. apply Hup; [done|]. by apply Hsucc.
      * intros H. apply Hlt, Hpos. lra.
      * intros H. apply Hdown; [done|]. by apply Hsucc.
      * intros H. apply Hlt, Hneg. lra.
      * intros Heq. replace s with 0%R; [rewrite Rabs_R0; lra|].
        apply Rle_antisym; apply Rnot_lt_le; intros Hc.
        -- apply Hneg, Hlt in Hc. lia.
        -- apply Hpos, Hlt in Hc. lia.
      * intros _. rewrite (Hin Hhundred).
        unfold Rminus. rewrite Rplus_opp_r, Rabs_R0. lra.
    + intros H. assert (Hd : (INR (n + 3) < INR p)%R).
      { rewrite plus_INR. simpl. apply Hbig' in H. lra. }
      apply Hlt in Hd. lia.
    + intros H. assert (Hd : (INR (n + 4) < INR p)%R).
      { rewrite plus_INR. simpl. assert (0.2 < s)%R by lra. apply Hbig in H0. lra. }
      apply Hlt in Hd. lia.
    + intros H. assert (Hd : (INR (p + 3) < INR n)%R).
      { rewrite plus_INR. simpl. apply Hsmall' in H. lra. }
      apply Hlt in Hd. lia.
    + intros H. assert (Hd : (INR (p + 4) < INR n)%R).
      { rewrite plus_INR. simpl. assert (s < -0.2)%R by lra. apply Hsmall in H0. lra. }
      apply Hlt in Hd. lia.
  - assert (p = 0%nat) by lia. assert (n = 0%nat) by lia.
    split; [done|]. split; [|repeat split; intros; lra].
    intros _. repeat split; intros; try lia; try lra.
    rewrite Hs, Rabs_R0. lra.
Qed.

(** X23 at a headline with two positive words and one negative word. *)
Lemma X23_text_score_by_word_counts_witness :
  (0.01 <= News.calculateSentiment "Strong growth despite weak guidance")%R.
Proof.
  apply (X23_text_score_by_word_counts "Strong growth despite weak guidance");
    vm_compute; lia.
Defined.

(** ** How far a generated quote is from its row *)
Section NearBase.
Import JS Model.
Local Open Scope R_scope.
















End NearBase.



(** ** The screener of RealYahooFinanceService *)
Section Screener.
Import JS Model.

(** A request in the mode [no-cors] rejects. *)
Lemma makeRequest_noCors network url :
  (exists message, Yahoo.answer (Yahoo.makeRequest network url true) = Rejected message) /\
  forall response,
    network url 1%Z = Yahoo.Responds response ->
    Yahoo.answer (Yahoo.makeRequest network url true)
    = Rejected ("CORS blocked: " ++ Yahoo.hostOf url)%string.
Proof.
  unfold Yahoo.makeRequest.
  change (Z.to_nat Yahoo.maxRetries) with 3%nat.
  cbn [Yahoo.attempts].
  change (1 + 1)%Z with 2%Z. change (2 + 1)%Z with 3%Z.
  change (1 =? Yahoo.maxRetries)%Z with false.
  change (2 =? Yahoo.maxRetries)%Z with false.
  change (3 =? Yahoo.maxRetries)%Z with true.
  cbv iota.
  change (includes "CORS" "CORS blocked - using fallback") with true.
  cbn [orb].
  destruct (network url 1%Z) as [m1|r1], (network url 2%Z) as [m2|r2],
    (network url 3%Z) as [m3|r3];
    repeat match goal with
           | |- context [includes ?a ?b || includes ?c ?d] =>
               destruct (includes a b || includes c d)
           end;
    cbn [Yahoo.answer Yahoo.ended];
    (split; [by eexists|]); first [by intros response [=]|by intros response _].
Qed.

End Screener.

(** X25. [fetchFromYahooScreener] never gives rows it has fetched: it
    never writes the cache, resolves only with a cached entry that is at
    most 5 minutes old, and otherwise rejects, whatever the network does;
    when the server answers the first fetch, the message is
    [CORS blocked: query1.finance.yahoo.com]. *)
Theorem X25_screener_always_rejects :
  forall (cache : Cache.Store (list Yahoo.Gainer)) (network : Yahoo.Network) (t : Z),
    let outcome := Yahoo.fetchFromYahooScreener cache network t in
    JsMap.keys (snd outcome) `sublist_of` JsMap.keys cache /\
    (forall gainers,
        fst outcome = JS.Resolved gainers ->
        exists item,
          JsMap.get Yahoo.screenerKey cache = Some item /\
          (t - Cache.timestamp item <= 300000)%Z /\ gainers = Cache.data item) /\
    (JsMap.get Yahoo.screenerKey cache = None ->
     (exists message, outcome = (JS.Rejected message, cache)) /\
     forall response,
       network Yahoo.screenerUrl 1%Z = Yahoo.Responds response ->
       fst outcome = JS.Rejected "CORS blocked: query1.finance.yahoo.com").
Proof.
  intros cache network t outcome. subst outcome.
  destruct (makeRequest_noCors network Yahoo.screenerUrl) as [[message Hrejects] Hanswers].
  unfold Yahoo.fetchFromYahooScreener, Yahoo.getCached, Cache.read.
  destruct (JsMap.get Yahoo.screenerKey cache) as [item|] eqn:Hget.
  - destruct (Z.gtb_spec (t - Cache.timestamp item) Yahoo.cacheTimeout) as [Hold|Hfresh].
    + rewrite Hrejects. cbn [fst snd].
      split; [apply keys_delete_sublist|]. split; [done|]. done.
    + cbn [fst snd]. split; [done|]. split; [|done].
      intros gainers [= <-]. by exists item.
  - rewrite Hrejects. cbn [fst snd]. split; [done|]. split; [done|].
    intros _. split; [by eexists|].
    intros response Hresponse. rewrite (Hanswers response Hresponse) in Hrejects.
    by injection Hrejects as <-.
Qed.

(** X25 at a new service whose server answers. *)
Lemma X25_screener_always_rejects_witness :
  fst (Yahoo.fetchFromYahooScreener JsMap.empty
         (fun _ _ => Yahoo.Responds {| Yahoo.ok := true; Yahoo.status := 200;
                                       Yahoo.statusText := "OK";
                                       Yahoo.rows := Some [Inputs.nvda] |})
         0)
  = JS.Rejected "CORS blocked: query1.finance.yahoo.com".
Proof.
  eapply (proj2 (proj2 (proj2 (X25_screener_always_rejects JsMap.empty
            (fun _ _ => Yahoo.Responds {| Yahoo.ok := true; Yahoo.status := 200;
                                          Yahoo.statusText := "OK";
                                          Yahoo.rows := Some [Inputs.nvda] |})
            0)) eq_refl)).
  reflexivity.
Defined.

(** X26. Every category that [categorizeNews] gives a title has classes of
    its own in [getCategoryColor]: the gray default is never used for it,
    and no two categories share their classes. *)
Theorem X26_each_category_has_its_colour :
  (forall title : option string,
      Helpers.getCategoryColor (News.categoryText (News.categorizeNews title))
      <> "bg-gray-100 text-gray-800"%string) /\
  (forall c1 c2 : News.Category,
      Helpers.getCategoryColor (News.categoryText c1)
      = Helpers.getCategoryColor (News.categoryText c2) ->
      c1 = c2) /\
  (forall (now : Z) (symbol : string) (article : News.Article),
      article ∈ News.mockArticles now symbol ->
      Helpers.getCategoryColor (News.categoryText (News.category article))
      <> "bg-gray-100 text-gray-800"%string).
Proof.
  assert (Hown : forall c : News.Category,
             Helpers.getCategoryColor (News.categoryText c)
             <> "bg-gray-100 text-gray-800"%string) by (by intros []).
  split; [|split].
  - intros title. apply Hown.
  - intros [] []; by vm_compute.
  - intros now symbol article _. apply Hown.
Qed.
